(** * OS-independent Ethernet MAC core: statistics accumulator, XPCS
      bring-up and DMA safety shadow.

    Shallow embedding of
      - osi/core/eqos_mmc.c  (module [EqosMmc]),
      - osi/core/xpcs.c      (module [Xpcs]),
      - osi/dma/eqos_dma.c   (module [EqosDma]),
    over a common model of the memory-mapped register bus.  The headers
    that give the numeric values of register offsets and bit masks are not
    part of the sources: the registers of the MAC core and of the XPCS are
    kept symbolic, and bit masks, field encodings and the offset macros of
    the DMA block are parameters of the functions that use them. *)

From Stdlib Require Import ZArith Lia Bool.
From stdpp Require Import base decidable list strings.

Local Open Scope Z_scope.

(** ** Fixed-width unsigned arithmetic *)

(** Conversion to [unsigned int] (nveu32_t). *)
Definition u32 (x : Z) : Z := x mod 2 ^ 32.

(** Conversion to [unsigned long long]. *)
Definition u64 (x : Z) : Z := x mod 2 ^ 64.

(** [~x] on an [unsigned int]. *)
Definition u32_not (x : Z) : Z := Z.lxor x (Z.ones 32).

(** [x << n] on an [unsigned int]. *)
Definition u32_shl (x n : Z) : Z := u32 (Z.shiftl x n).

(** ** Register bus and observable events

    The core reaches the hardware only through [osi_readl], [osi_writel],
    the delay callback and the log sink.  A device is any type with a [Bus]
    instance; every access is recorded, in program order, in the trace of
    the run. *)

(** [EvLog] carries the message of an error report, less its trailing
    newline, and the register the report is about, if any. *)
Inductive event (A : Type) : Type :=
| EvRead (addr : A) (val : Z)
| EvWrite (addr : A) (val : Z)
| EvDelay (usec : Z)
| EvLog (msg : string) (ctx : option A).

Arguments EvRead {A} addr val.
Arguments EvWrite {A} addr val.
Arguments EvDelay {A} usec.
Arguments EvLog {A} msg ctx.

Class Bus (A D : Type) : Type := {
  bus_read : A -> D -> Z * D;
  bus_write : A -> Z -> D -> D;
  bus_delay : Z -> D -> D
}.

(** The machine a driver function runs on: device state [hw] and
    driver-private data [sw]. *)
Record machine (D S : Type) : Type := Machine {
  hw : D;
  sw : S
}.

Arguments Machine {D S} hw sw.
Arguments hw {D S} m.
Arguments sw {D S} m.

(** Programs: state passing over the machine, the events of the run
    collected in program order, and failure.  [None] stands for a run that
    has no defined result (exhausted loop fuel, out-of-bounds array access,
    a lock that is never released). *)
Definition M (A W R : Type) : Type := W -> option (R * W * list (event A)).

Definition ret {A W R : Type} (r : R) : M A W R := fun w => Some (r, w, []).

Definition bind {A W R R' : Type} (m : M A W R) (k : R -> M A W R')
  : M A W R' :=
  fun w => match m w with
           | Some (r, w', t) =>
               match k r w' with
               | Some (r', w'', t') => Some (r', w'', t ++ t')
               | None => None
               end
           | None => None
           end.

Definition undefined {A W R : Type} : M A W R := fun _ => None.

Declare Scope prog_scope.
Delimit Scope prog_scope with prog.
Notation "'do' x <- m ; k" := (bind m (fun x => k))
  (at level 10, x name, m at level 100, k at level 200) : prog_scope.
Notation "'do' ' p <- m ; k" := (bind m (fun x => match x with p => k end))
  (at level 10, p pattern, m at level 100, k at level 200) : prog_scope.
Notation "'run' m ; k" := (bind m (fun _ => k))
  (at level 10, m at level 100, k at level 200) : prog_scope.
Local Open Scope prog_scope.

(** How a loop body leaves its loop: by a [return v] of the enclosing
    function, or by falling out of the loop with the live variables [x]. *)
Inductive ctl (X : Type) : Type :=
| Returned (v : Z)
| Fallthrough (x : X).

Arguments Returned {X} v.
Arguments Fallthrough {X} x.

Section Primitives.
Context {A D S : Type} {bus : Bus A D}.

Definition emit (e : event A) : M A (machine D S) unit :=
  fun w => Some (tt, w, [e]).

Definition osi_readl (addr : A) : M A (machine D S) Z :=
  fun w => let (v, d) := bus_read addr (hw w) in
           Some (u32 v, Machine d (sw w), [EvRead addr (u32 v)]).

Definition osi_writel (val : Z) (addr : A) : M A (machine D S) unit :=
  fun w => Some (tt, Machine (bus_write addr val (hw w)) (sw w),
                 [EvWrite addr val]).

Definition osd_udelay (usec : Z) : M A (machine D S) unit :=
  fun w => Some (tt, Machine (bus_delay usec (hw w)) (sw w), [EvDelay usec]).

Definition osd_log (msg : string) (ctx : option A) : M A (machine D S) unit :=
  emit (EvLog msg ctx).

Definition get_sw : M A (machine D S) S := fun w => Some (sw w, w, []).

Definition put_sw (s : S) : M A (machine D S) unit :=
  fun w => Some (tt, Machine (hw w) s, []).

End Primitives.

(** ** Registers that hold their values

    A device whose registers hold the last value written, without any
    hardware-side change. *)
Record regfile (A : Type) : Type := RegFile { reg_get : A -> Z }.
Arguments RegFile {A} reg_get.
Arguments reg_get {A} r a.

Definition reg_set {A : Type} `{EqDecision A} (a : A) (v : Z) (r : regfile A)
  : regfile A :=
  RegFile (fun x => if decide (x = a) then v else reg_get r x).

#[global] Instance regfile_bus (A : Type) `{EqDecision A}
  : Bus A (regfile A) := {
  bus_read a r := (reg_get r a, r);
  bus_write a v r := reg_set a (u32 v) r;
  bus_delay _ r := r
}.

(** ** Observations on traces *)

Definition is_read_of {A : Type} `{EqDecision A} (a : A) (e : event A)
  : bool :=
  match e with
  | EvRead x _ => bool_decide (x = a)
  | _ => false
  end.

Definition is_write_of {A : Type} `{EqDecision A} (a : A) (e : event A)
  : bool :=
  match e with
  | EvWrite x _ => bool_decide (x = a)
  | _ => false
  end.

Definition is_delay {A : Type} (e : event A) : bool :=
  match e with
  | EvDelay _ => true
  | _ => false
  end.

(** An access, read or write, to register [a]. *)
Definition touches {A : Type} `{EqDecision A} (a : A) (e : event A) : bool :=
  is_read_of a e || is_write_of a e.

(** Number of events of a trace that satisfy [p]. *)
Definition count_events {A : Type} (p : event A -> bool)
  (tr : list (event A)) : nat :=
  length (List.filter p tr).

(** * Statistics accumulator (osi/core/eqos_mmc.c) *)

Module EqosMmc.

(** Members of [struct osi_mmc_counters] that eqos_mmc.c names, each an
    [unsigned long]. *)
Inductive mmc_field : Type :=
  | mmc_tx_octetcount_gb | mmc_tx_framecount_gb | mmc_tx_broadcastframe_g
  | mmc_tx_multicastframe_g | mmc_tx_64_octets_gb
  | mmc_tx_65_to_127_octets_gb | mmc_tx_128_to_255_octets_gb
  | mmc_tx_256_to_511_octets_gb | mmc_tx_512_to_1023_octets_gb
  | mmc_tx_1024_to_max_octets_gb | mmc_tx_unicast_gb | mmc_tx_multicast_gb
  | mmc_tx_broadcast_gb | mmc_tx_underflow_error | mmc_tx_singlecol_g
  | mmc_tx_multicol_g | mmc_tx_deferred | mmc_tx_latecol | mmc_tx_exesscol
  | mmc_tx_carrier_error | mmc_tx_octetcount_g | mmc_tx_framecount_g
  | mmc_tx_excessdef | mmc_tx_pause_frame | mmc_tx_vlan_frame_g
  | mmc_tx_osize_frame_g | mmc_rx_framecount_gb | mmc_rx_octetcount_gb
  | mmc_rx_octetcount_g | mmc_rx_broadcastframe_g | mmc_rx_multicastframe_g
  | mmc_rx_crc_error | mmc_rx_align_error | mmc_rx_runt_error
  | mmc_rx_jabber_error | mmc_rx_undersize_g | mmc_rx_oversize_g
  | mmc_rx_64_octets_gb | mmc_rx_65_to_127_octets_gb
  | mmc_rx_128_to_255_octets_gb | mmc_rx_256_to_511_octets_gb
  | mmc_rx_512_to_1023_octets_gb | mmc_rx_1024_to_max_octets_gb
  | mmc_rx_unicast_g | mmc_rx_length_error | mmc_rx_outofrangetype
  | mmc_rx_pause_frames | mmc_rx_fifo_overflow | mmc_rx_vlan_frames_gb
  | mmc_rx_watchdog_error | mmc_rx_receive_error | mmc_rx_ctrl_frames_g
  | mmc_rx_ipv4_gd | mmc_rx_ipv4_hderr | mmc_rx_ipv4_nopay
  | mmc_rx_ipv4_frag | mmc_rx_ipv4_udsbl | mmc_rx_ipv6_gd_octets
  | mmc_rx_ipv6_hderr_octets | mmc_rx_ipv6_nopay_octets | mmc_rx_udp_gd
  | mmc_rx_udp_err | mmc_rx_tcp_gd | mmc_rx_tcp_err | mmc_rx_icmp_gd
  | mmc_rx_icmp_err | mmc_rx_ipv4_gd_octets | mmc_rx_ipv4_hderr_octets
  | mmc_rx_ipv4_nopay_octets | mmc_rx_ipv4_frag_octets
  | mmc_rx_ipv4_udsbl_octets | mmc_rx_udp_gd_octets | mmc_rx_ipv6_hderr
  | mmc_rx_ipv6_nopay | mmc_rx_udp_err_octets | mmc_rx_tcp_gd_octets
  | mmc_rx_tcp_err_octets | mmc_rx_icmp_gd_octets | mmc_rx_icmp_err_octets.

#[global] Instance mmc_field_eq_dec : EqDecision mmc_field.
Proof. solve_decision. Defined.

(** Register offsets that eqos_mmc.c names (values in eqos_mmc.h and
    eqos_core.h), kept symbolic. *)
Inductive core_reg : Type :=
  | EQOS_MMC_CNTRL | MMC_TXOCTETCOUNT_GB | MMC_TXPACKETCOUNT_GB
  | MMC_TXBROADCASTPACKETS_G | MMC_TXMULTICASTPACKETS_G | MMC_TX64OCTETS_GB
  | MMC_TX65TO127OCTETS_GB | MMC_TX128TO255OCTETS_GB
  | MMC_TX256TO511OCTETS_GB | MMC_TX512TO1023OCTETS_GB
  | MMC_TX1024TOMAXOCTETS_GB | MMC_TXUNICASTPACKETS_GB
  | MMC_TXMULTICASTPACKETS_GB | MMC_TXBROADCASTPACKETS_GB
  | MMC_TXUNDERFLOWERROR | MMC_TXSINGLECOL_G | MMC_TXMULTICOL_G
  | MMC_TXDEFERRED | MMC_TXLATECOL | MMC_TXEXESSCOL | MMC_TXCARRIERERROR
  | MMC_TXOCTETCOUNT_G | MMC_TXPACKETSCOUNT_G | MMC_TXEXCESSDEF
  | MMC_TXPAUSEPACKETS | MMC_TXVLANPACKETS_G | MMC_TXOVERSIZE_G
  | MMC_RXPACKETCOUNT_GB | MMC_RXOCTETCOUNT_GB | MMC_RXOCTETCOUNT_G
  | MMC_RXBROADCASTPACKETS_G | MMC_RXMULTICASTPACKETS_G | MMC_RXCRCERROR
  | MMC_RXALIGNMENTERROR | MMC_RXRUNTERROR | MMC_RXJABBERERROR
  | MMC_RXUNDERSIZE_G | MMC_RXOVERSIZE_G | MMC_RX64OCTETS_GB
  | MMC_RX65TO127OCTETS_GB | MMC_RX128TO255OCTETS_GB
  | MMC_RX256TO511OCTETS_GB | MMC_RX512TO1023OCTETS_GB
  | MMC_RX1024TOMAXOCTETS_GB | MMC_RXUNICASTPACKETS_G | MMC_RXLENGTHERROR
  | MMC_RXOUTOFRANGETYPE | MMC_RXPAUSEPACKETS | MMC_RXFIFOOVERFLOW
  | MMC_RXVLANPACKETS_GB | MMC_RXWATCHDOGERROR | MMC_RXRCVERROR
  | MMC_RXCTRLPACKETS_G | MMC_RXIPV4_GD_PKTS | MMC_RXIPV4_HDRERR_PKTS
  | MMC_RXIPV4_NOPAY_PKTS | MMC_RXIPV4_FRAG_PKTS | MMC_RXIPV4_UBSBL_PKTS
  | MMC_RXIPV6_GD_PKTS | MMC_RXIPV6_HDRERR_PKTS | MMC_RXIPV6_NOPAY_PKTS
  | MMC_RXUDP_GD_PKTS | MMC_RXUDP_ERR_PKTS | MMC_RXTCP_GD_PKTS
  | MMC_RXTCP_ERR_PKTS | MMC_RXICMP_GD_PKTS | MMC_RXICMP_ERR_PKTS
  | MMC_RXIPV4_GD_OCTETS | MMC_RXIPV4_HDRERR_OCTETS
  | MMC_RXIPV4_NOPAY_OCTETS | MMC_RXIPV4_FRAG_OCTETS
  | MMC_RXIPV4_UDSBL_OCTETS | MMC_RXIPV6_GD_OCTETS
  | MMC_RXIPV6_HDRERR_OCTETS | MMC_RXIPV6_NOPAY_OCTETS
  | MMC_RXUDP_GD_OCTETS | MMC_RXUDP_ERR_OCTETS | MMC_RXTCP_GD_OCTETS
  | MMC_RXTCP_ERR_OCTETS | MMC_RXICMP_GD_OCTETS | MMC_RXICMP_ERR_OCTETS.

#[global] Instance core_reg_eq_dec : EqDecision core_reg.
Proof. solve_decision. Defined.

(** [struct osi_mmc_counters]: one value per member. *)
Abbreviation osi_mmc_counters := (mmc_field -> Z).

Definition mmc_set (m : osi_mmc_counters) (f : mmc_field) (v : Z)
  : osi_mmc_counters :=
  fun g => if decide (g = f) then v else m g.

(** [osi_memset(&osi_core->mmc, 0U, sizeof(struct osi_mmc_counters))]. *)
Definition mmc_zero : osi_mmc_counters := fun _ => 0.

(** The statements of [eqos_read_mmc], in program order: the triple
    [(d, s, r)] stands for
    [mmc->d = update_mmc_val(osi_core, mmc->s, r);]. *)
Definition eqos_read_mmc_body : list (mmc_field * mmc_field * core_reg) :=
  [ (mmc_tx_octetcount_gb, mmc_tx_octetcount_gb, MMC_TXOCTETCOUNT_GB);
    (mmc_tx_framecount_gb, mmc_tx_framecount_gb, MMC_TXPACKETCOUNT_GB);
    (mmc_tx_broadcastframe_g, mmc_tx_broadcastframe_g, MMC_TXBROADCASTPACKETS_G);
    (mmc_tx_multicastframe_g, mmc_tx_multicastframe_g, MMC_TXMULTICASTPACKETS_G);
    (mmc_tx_64_octets_gb, mmc_tx_64_octets_gb, MMC_TX64OCTETS_GB);
    (mmc_tx_65_to_127_octets_gb, mmc_tx_65_to_127_octets_gb, MMC_TX65TO127OCTETS_GB);
    (mmc_tx_128_to_255_octets_gb, mmc_tx_128_to_255_octets_gb, MMC_TX128TO255OCTETS_GB);
    (mmc_tx_256_to_511_octets_gb, mmc_tx_256_to_511_octets_gb, MMC_TX256TO511OCTETS_GB);
    (mmc_tx_512_to_1023_octets_gb, mmc_tx_512_to_1023_octets_gb, MMC_TX512TO1023OCTETS_GB);
    (mmc_tx_1024_to_max_octets_gb, mmc_tx_1024_to_max_octets_gb, MMC_TX1024TOMAXOCTETS_GB);
    (mmc_tx_unicast_gb, mmc_tx_unicast_gb, MMC_TXUNICASTPACKETS_GB);
    (mmc_tx_multicast_gb, mmc_tx_multicast_gb, MMC_TXMULTICASTPACKETS_GB);
    (mmc_tx_broadcast_gb, mmc_tx_broadcast_gb, MMC_TXBROADCASTPACKETS_GB);
    (mmc_tx_underflow_error, mmc_tx_underflow_error, MMC_TXUNDERFLOWERROR);
    (mmc_tx_singlecol_g, mmc_tx_singlecol_g, MMC_TXSINGLECOL_G);
    (mmc_tx_multicol_g, mmc_tx_multicol_g, MMC_TXMULTICOL_G);
    (mmc_tx_deferred, mmc_tx_deferred, MMC_TXDEFERRED);
    (mmc_tx_latecol, mmc_tx_latecol, MMC_TXLATECOL);
    (mmc_tx_exesscol, mmc_tx_exesscol, MMC_TXEXESSCOL);
    (mmc_tx_carrier_error, mmc_tx_exesscol, MMC_TXCARRIERERROR);
    (mmc_tx_octetcount_g, mmc_tx_octetcount_g, MMC_TXOCTETCOUNT_G);
    (mmc_tx_framecount_g, mmc_tx_framecount_g, MMC_TXPACKETSCOUNT_G);
    (mmc_tx_excessdef, mmc_tx_excessdef, MMC_TXEXCESSDEF);
    (mmc_tx_pause_frame, mmc_tx_pause_frame, MMC_TXPAUSEPACKETS);
    (mmc_tx_vlan_frame_g, mmc_tx_vlan_frame_g, MMC_TXVLANPACKETS_G);
    (mmc_tx_osize_frame_g, mmc_tx_osize_frame_g, MMC_TXOVERSIZE_G);
    (mmc_rx_framecount_gb, mmc_rx_framecount_gb, MMC_RXPACKETCOUNT_GB);
    (mmc_rx_octetcount_gb, mmc_rx_octetcount_gb, MMC_RXOCTETCOUNT_GB);
    (mmc_rx_octetcount_g, mmc_rx_octetcount_g, MMC_RXOCTETCOUNT_G);
    (mmc_rx_broadcastframe_g, mmc_rx_broadcastframe_g, MMC_RXBROADCASTPACKETS_G);
    (mmc_rx_multicastframe_g, mmc_rx_multicastframe_g, MMC_RXMULTICASTPACKETS_G);
    (mmc_rx_crc_error, mmc_rx_crc_error, MMC_RXCRCERROR);
    (mmc_rx_align_error, mmc_rx_align_error, MMC_RXALIGNMENTERROR);
    (mmc_rx_runt_error, mmc_rx_runt_error, MMC_RXRUNTERROR);
    (mmc_rx_jabber_error, mmc_rx_jabber_error, MMC_RXJABBERERROR);
    (mmc_rx_undersize_g, mmc_rx_undersize_g, MMC_RXUNDERSIZE_G);
    (mmc_rx_oversize_g, mmc_rx_oversize_g, MMC_RXOVERSIZE_G);
    (mmc_rx_64_octets_gb, mmc_rx_64_octets_gb, MMC_RX64OCTETS_GB);
    (mmc_rx_65_to_127_octets_gb, mmc_rx_65_to_127_octets_gb, MMC_RX65TO127OCTETS_GB);
    (mmc_rx_128_to_255_octets_gb, mmc_rx_128_to_255_octets_gb, MMC_RX128TO255OCTETS_GB);
    (mmc_rx_256_to_511_octets_gb, mmc_rx_256_to_511_octets_gb, MMC_RX256TO511OCTETS_GB);
    (mmc_rx_512_to_1023_octets_gb, mmc_rx_512_to_1023_octets_gb, MMC_RX512TO1023OCTETS_GB);
    (mmc_rx_1024_to_max_octets_gb, mmc_rx_1024_to_max_octets_gb, MMC_RX1024TOMAXOCTETS_GB);
    (mmc_rx_unicast_g, mmc_rx_unicast_g, MMC_RXUNICASTPACKETS_G);
    (mmc_rx_length_error, mmc_rx_length_error, MMC_RXLENGTHERROR);
    (mmc_rx_outofrangetype, mmc_rx_outofrangetype, MMC_RXOUTOFRANGETYPE);
    (mmc_rx_pause_frames, mmc_rx_pause_frames, MMC_RXPAUSEPACKETS);
    (mmc_rx_fifo_overflow, mmc_rx_fifo_overflow, MMC_RXFIFOOVERFLOW);
    (mmc_rx_vlan_frames_gb, mmc_rx_vlan_frames_gb, MMC_RXVLANPACKETS_GB);
    (mmc_rx_watchdog_error, mmc_rx_watchdog_error, MMC_RXWATCHDOGERROR);
    (mmc_rx_receive_error, mmc_rx_receive_error, MMC_RXRCVERROR);
    (mmc_rx_ctrl_frames_g, mmc_rx_ctrl_frames_g, MMC_RXCTRLPACKETS_G);
    (mmc_rx_ipv4_gd, mmc_rx_ipv4_gd, MMC_RXIPV4_GD_PKTS);
    (mmc_rx_ipv4_hderr, mmc_rx_ipv4_hderr, MMC_RXIPV4_HDRERR_PKTS);
    (mmc_rx_ipv4_nopay, mmc_rx_ipv4_nopay, MMC_RXIPV4_NOPAY_PKTS);
    (mmc_rx_ipv4_frag, mmc_rx_ipv4_frag, MMC_RXIPV4_FRAG_PKTS);
    (mmc_rx_ipv4_udsbl, mmc_rx_ipv4_udsbl, MMC_RXIPV4_UBSBL_PKTS);
    (mmc_rx_ipv6_gd_octets, mmc_rx_ipv6_gd_octets, MMC_RXIPV6_GD_PKTS);
    (mmc_rx_ipv6_hderr_octets, mmc_rx_ipv6_hderr_octets, MMC_RXIPV6_HDRERR_PKTS);
    (mmc_rx_ipv6_nopay_octets, mmc_rx_ipv6_nopay_octets, MMC_RXIPV6_NOPAY_PKTS);
    (mmc_rx_udp_gd, mmc_rx_udp_gd, MMC_RXUDP_GD_PKTS);
    (mmc_rx_udp_err, mmc_rx_udp_err, MMC_RXUDP_ERR_PKTS);
    (mmc_rx_tcp_gd, mmc_rx_tcp_gd, MMC_RXTCP_GD_PKTS);
    (mmc_rx_tcp_err, mmc_rx_tcp_err, MMC_RXTCP_ERR_PKTS);
    (mmc_rx_icmp_gd, mmc_rx_icmp_gd, MMC_RXICMP_GD_PKTS);
    (mmc_rx_icmp_err, mmc_rx_icmp_err, MMC_RXICMP_ERR_PKTS);
    (mmc_rx_ipv4_gd_octets, mmc_rx_ipv4_gd_octets, MMC_RXIPV4_GD_OCTETS);
    (mmc_rx_ipv4_hderr_octets, mmc_rx_ipv4_hderr_octets, MMC_RXIPV4_HDRERR_OCTETS);
    (mmc_rx_ipv4_nopay_octets, mmc_rx_ipv4_nopay_octets, MMC_RXIPV4_NOPAY_OCTETS);
    (mmc_rx_ipv4_frag_octets, mmc_rx_ipv4_frag_octets, MMC_RXIPV4_FRAG_OCTETS);
    (mmc_rx_ipv4_udsbl_octets, mmc_rx_ipv4_udsbl_octets, MMC_RXIPV4_UDSBL_OCTETS);
    (mmc_rx_udp_gd_octets, mmc_rx_udp_gd_octets, MMC_RXIPV6_GD_OCTETS);
    (mmc_rx_ipv6_hderr, mmc_rx_ipv6_hderr, MMC_RXIPV6_HDRERR_OCTETS);
    (mmc_rx_ipv6_nopay, mmc_rx_ipv6_nopay, MMC_RXIPV6_NOPAY_OCTETS);
    (mmc_rx_udp_gd_octets, mmc_rx_udp_gd_octets, MMC_RXUDP_GD_OCTETS);
    (mmc_rx_udp_err_octets, mmc_rx_udp_err_octets, MMC_RXUDP_ERR_OCTETS);
    (mmc_rx_tcp_gd_octets, mmc_rx_tcp_gd_octets, MMC_RXTCP_GD_OCTETS);
    (mmc_rx_tcp_err_octets, mmc_rx_tcp_err_octets, MMC_RXTCP_ERR_OCTETS);
    (mmc_rx_icmp_gd_octets, mmc_rx_icmp_gd_octets, MMC_RXICMP_GD_OCTETS);
    (mmc_rx_icmp_err_octets, mmc_rx_icmp_err_octets, MMC_RXICMP_ERR_OCTETS) ].


Section Accumulator.

(** Width in bits of [unsigned long] on the target: 64 on LP64, where the
    running totals are 64-bit, 32 on ILP32.  [unsigned long long] is 64
    bits wide, and [ULONG_MAX] is the largest [unsigned long]. *)
Variable LONG_BIT : Z.

(** Reset bit of the MMC control register (eqos_core.h). *)
Variable EQOS_MMC_CNTRL_CNTRST : Z.

Context {D : Type} {bus : Bus core_reg D}.

Abbreviation prog := (M core_reg (machine D osi_mmc_counters)).

Definition ULONG_MAX : Z := 2 ^ LONG_BIT - 1.

(** Conversion to [unsigned long]. *)
Definition ulong (x : Z) : Z := x mod 2 ^ LONG_BIT.

Definition eqos_reset_mmc : prog unit :=
  do value <- osi_readl EQOS_MMC_CNTRL;
  let value := Z.lor value EQOS_MMC_CNTRL_CNTRST in
  run osi_writel value EQOS_MMC_CNTRL;
  put_sw mmc_zero.

Definition update_mmc_val (last_value : Z) (offset : core_reg) : prog Z :=
  do value <- osi_readl offset;
  let temp := u64 last_value in
  let temp := u64 (temp + u64 value) in
  if temp >? ULONG_MAX then
    run osd_log "Value overflow for offset = 0x%x resetting  all counters"
                (Some offset);
    run eqos_reset_mmc;
    ret 0
  else
    ret (ulong temp).

(** One statement [mmc->d = update_mmc_val(osi_core, mmc->s, r);]: the
    argument is read before the call, the member is stored after it. *)
Definition mmc_statement (st : mmc_field * mmc_field * core_reg) : prog unit :=
  let '(d, s, r) := st in
  do mmc <- get_sw;
  do v <- update_mmc_val (mmc s) r;
  do mmc' <- get_sw;
  put_sw (mmc_set mmc' d v).

Fixpoint mmc_statements (l : list (mmc_field * mmc_field * core_reg))
  : prog unit :=
  match l with
  | [] => ret tt
  | st :: l' => run mmc_statement st; mmc_statements l'
  end.

Definition eqos_read_mmc : prog unit := mmc_statements eqos_read_mmc_body.

(** A write to the MMC control register with the reset bit set. *)
Definition is_counter_reset (e : event core_reg) : bool :=
  match e with
  | EvWrite EQOS_MMC_CNTRL v =>
      negb (Z.land v EQOS_MMC_CNTRL_CNTRST =? 0)
  | _ => false
  end.

End Accumulator.

(** ** Concrete runs on a 64-bit target *)

(** Registers in which only the transmit octet counter holds a value. *)
Definition octets_2_regs : regfile core_reg :=
  RegFile (fun r => if decide (r = MMC_TXOCTETCOUNT_GB) then 2 else 0).

(** Counters in which the transmit octet total is at its 64-bit maximum. *)
Definition octets_max_mmc : osi_mmc_counters :=
  mmc_set mmc_zero mmc_tx_octetcount_gb (2 ^ 64 - 1).

Definition octets_max_machine : machine (regfile core_reg) osi_mmc_counters :=
  Machine octets_2_regs octets_max_mmc.

(** Registers in which only the IPv6 good-octets counter holds a value. *)
Definition ipv6_7_regs : regfile core_reg :=
  RegFile (fun r => if decide (r = MMC_RXIPV6_GD_OCTETS) then 7 else 0).

(** Counters with distinct excessive-collision and carrier-error totals. *)
Definition carrier_mmc : osi_mmc_counters :=
  mmc_set (mmc_set mmc_zero mmc_tx_exesscol 5) mmc_tx_carrier_error 100.

Definition carrier_machine : machine (regfile core_reg) osi_mmc_counters :=
  Machine ipv6_7_regs carrier_mmc.

End EqosMmc.

(** * XPCS bring-up (osi/core/xpcs.c) *)

Module Xpcs.

(** XPCS registers that xpcs.c names (addresses in xpcs.h), kept
    symbolic. *)
Inductive xpcs_reg : Type :=
| XPCS_SR_MII_CTRL
| XPCS_VR_MII_AN_INTR_STS
| XPCS_VR_XS_PCS_DIG_CTRL1
| XPCS_SR_XS_PCS_STS1.

#[global] Instance xpcs_reg_eq_dec : EqDecision xpcs_reg.
Proof. solve_decision. Defined.

(** Bit masks and field encodings of xpcs.h that xpcs_start and its helpers
    use. *)
Class xpcs_h : Type := {
  XPCS_SR_MII_CTRL_AN_ENABLE : Z;
  XPCS_SR_MII_CTRL_SS5 : Z;
  XPCS_SR_MII_CTRL_SS6 : Z;
  XPCS_SR_MII_CTRL_SS13 : Z;
  XPCS_VR_MII_AN_INTR_STS_CL37_ANCMPLT_INTR : Z;
  XPCS_USXG_AN_STS_SPEED_MASK : Z;
  XPCS_USXG_AN_STS_SPEED_2500 : Z;
  XPCS_USXG_AN_STS_SPEED_5000 : Z;
  XPCS_USXG_AN_STS_SPEED_10000 : Z;
  XPCS_VR_XS_PCS_DIG_CTRL1_USRA_RST : Z;
  XPCS_SR_XS_PCS_STS1_RLU : Z
}.

Section Bringup.
Context {D : Type} {bus : Bus xpcs_reg D} {hdr : xpcs_h}.

Abbreviation prog := (M xpcs_reg (machine D unit)).

(** Modelled from the spec: [xpcs_read] and [xpcs_write] of xpcs.h, the
    register facade's read32 and write32 on the XPCS block. *)
Definition xpcs_read (reg_addr : xpcs_reg) : prog Z := osi_readl reg_addr.

Definition xpcs_write (reg_addr : xpcs_reg) (val : Z) : prog unit :=
  osi_writel val reg_addr.

(** The [while (cond == 1)] loop of [xpcs_poll_for_an_complete]; it falls
    through with [status]. *)
Fixpoint an_complete_loop (fuel : nat) (retry count : Z) : prog (ctl Z) :=
  match fuel with
  | O => undefined
  | S fuel' =>
      if count >? retry then
        run osd_log "XPCS AN completion timed out" None;
        ret (Returned (-1))
      else
        let count := u32 (count + 1) in
        do status <- xpcs_read XPCS_VR_MII_AN_INTR_STS;
        if Z.land status XPCS_VR_MII_AN_INTR_STS_CL37_ANCMPLT_INTR =? 0 then
          run osd_udelay 1000;
          an_complete_loop fuel' retry count
        else
          let status :=
            Z.land status (u32_not XPCS_VR_MII_AN_INTR_STS_CL37_ANCMPLT_INTR) in
          run xpcs_write XPCS_VR_MII_AN_INTR_STS status;
          ret (Fallthrough status)
  end.

(** Returns the [int] result and the value of [*an_status] on return. *)
Definition xpcs_poll_for_an_complete (fuel : nat) (an_status : Z)
  : prog (Z * Z) :=
  let retry := 1000 in
  do r <- an_complete_loop fuel retry 0;
  match r with
  | Returned v => ret (v, an_status)
  | Fallthrough status =>
      if Z.land status XPCS_USXG_AN_STS_SPEED_MASK =? 0 then
        run osd_log "XPCS AN completed with zero speed" None;
        ret (-1, an_status)
      else
        ret (0, status)
  end.

(** The [switch (speed)] of [xpcs_set_speed]: the new value of [ctrl]. *)
Definition speed_select (speed ctrl : Z) : Z :=
  if speed =? XPCS_USXG_AN_STS_SPEED_2500 then
    let ctrl := Z.lor ctrl XPCS_SR_MII_CTRL_SS5 in
    Z.land ctrl (u32_not (Z.lor XPCS_SR_MII_CTRL_SS6 XPCS_SR_MII_CTRL_SS13))
  else if speed =? XPCS_USXG_AN_STS_SPEED_5000 then
    let ctrl := Z.lor ctrl (Z.lor XPCS_SR_MII_CTRL_SS5 XPCS_SR_MII_CTRL_SS13) in
    Z.land ctrl (u32_not XPCS_SR_MII_CTRL_SS6)
  else
    let ctrl := Z.lor ctrl (Z.lor XPCS_SR_MII_CTRL_SS6 XPCS_SR_MII_CTRL_SS13) in
    Z.land ctrl (u32_not XPCS_SR_MII_CTRL_SS5).

Definition xpcs_set_speed (status : Z) : prog unit :=
  let speed := Z.land status XPCS_USXG_AN_STS_SPEED_MASK in
  do ctrl <- xpcs_read XPCS_SR_MII_CTRL;
  let ctrl := speed_select speed ctrl in
  xpcs_write XPCS_SR_MII_CTRL ctrl.

(** First loop of [xpcs_start]: wait for the rate-adaptor reset bit to
    clear. *)
Fixpoint usra_rst_loop (fuel : nat) (retry count : Z) : prog (ctl unit) :=
  match fuel with
  | O => undefined
  | S fuel' =>
      if count >? retry then ret (Returned (-1))
      else
        let count := u32 (count + 1) in
        do ctrl <- xpcs_read XPCS_VR_XS_PCS_DIG_CTRL1;
        if Z.land ctrl XPCS_VR_XS_PCS_DIG_CTRL1_USRA_RST =? 0 then
          ret (Fallthrough tt)
        else
          run osd_udelay 1000;
          usra_rst_loop fuel' retry count
  end.

(** Second loop of [xpcs_start]: wait for receive link up. *)
Fixpoint rx_link_up_loop (fuel : nat) (retry count : Z) : prog (ctl unit) :=
  match fuel with
  | O => undefined
  | S fuel' =>
      if count >? retry then ret (Returned (-1))
      else
        let count := u32 (count + 1) in
        do ctrl <- xpcs_read XPCS_SR_XS_PCS_STS1;
        if Z.land ctrl XPCS_SR_XS_PCS_STS1_RLU =? XPCS_SR_XS_PCS_STS1_RLU then
          ret (Fallthrough tt)
        else
          run osd_udelay 1000;
          rx_link_up_loop fuel' retry count
  end.

Definition xpcs_start (fuel : nat) : prog Z :=
  let an_status := 0 in
  let retry := 1000 in
  let count := 0 in
  do ctrl <- xpcs_read XPCS_SR_MII_CTRL;
  let ctrl := Z.lor ctrl XPCS_SR_MII_CTRL_AN_ENABLE in
  run xpcs_write XPCS_SR_MII_CTRL ctrl;
  do ' (r, an_status) <- xpcs_poll_for_an_complete fuel an_status;
  if r <? 0 then ret r
  else
    run xpcs_set_speed an_status;
    do ctrl <- xpcs_read XPCS_VR_XS_PCS_DIG_CTRL1;
    let ctrl := Z.lor ctrl XPCS_VR_XS_PCS_DIG_CTRL1_USRA_RST in
    run xpcs_write XPCS_VR_XS_PCS_DIG_CTRL1 ctrl;
    do r <- usra_rst_loop fuel retry count;
    match r with
    | Returned v => ret v
    | Fallthrough _ =>
        let count := 0 in
        do r <- rx_link_up_loop fuel retry count;
        match r with
        | Returned v => ret v
        | Fallthrough _ => ret 0
        end
    end.

End Bringup.

(** Fuel that lets every poll loop of xpcs.c run to its retry ceiling. *)
Definition poll_fuel : nat := 1002.

(** The speed-select bits of a control-register value. *)
Definition ss_pattern `{xpcs_h} (ctrl : Z) : Z * Z * Z :=
  (Z.land ctrl XPCS_SR_MII_CTRL_SS5,
   Z.land ctrl XPCS_SR_MII_CTRL_SS6,
   Z.land ctrl XPCS_SR_MII_CTRL_SS13).

(** What the code relies on from xpcs.h: the three speed-select masks are
    non-empty [unsigned int] masks without a common bit, and the three
    [case] labels of [xpcs_set_speed] are different (a C [switch] does not
    compile otherwise). *)
Definition ss_masks_ok `{xpcs_h} : Prop :=
  0 < XPCS_SR_MII_CTRL_SS5 < 2 ^ 32 /\
  0 < XPCS_SR_MII_CTRL_SS6 < 2 ^ 32 /\
  0 < XPCS_SR_MII_CTRL_SS13 < 2 ^ 32 /\
  Z.land XPCS_SR_MII_CTRL_SS5 XPCS_SR_MII_CTRL_SS6 = 0 /\
  Z.land XPCS_SR_MII_CTRL_SS5 XPCS_SR_MII_CTRL_SS13 = 0 /\
  Z.land XPCS_SR_MII_CTRL_SS6 XPCS_SR_MII_CTRL_SS13 = 0.

Definition speed_labels_distinct `{xpcs_h} : Prop :=
  XPCS_USXG_AN_STS_SPEED_2500 <> XPCS_USXG_AN_STS_SPEED_5000 /\
  XPCS_USXG_AN_STS_SPEED_2500 <> XPCS_USXG_AN_STS_SPEED_10000 /\
  XPCS_USXG_AN_STS_SPEED_5000 <> XPCS_USXG_AN_STS_SPEED_10000.

(** Every read of the AN interrupt status in the trace has the
    AN-complete bit clear. *)
Definition an_never_complete `{xpcs_h} (t : list (event xpcs_reg)) : Prop :=
  forall v, In (EvRead XPCS_VR_MII_AN_INTR_STS v) t ->
            Z.land v XPCS_VR_MII_AN_INTR_STS_CL37_ANCMPLT_INTR = 0.

Definition an_never_completeb `{xpcs_h} (t : list (event xpcs_reg)) : bool :=
  forallb (fun e => match e with
                    | EvRead XPCS_VR_MII_AN_INTR_STS v =>
                        Z.land v XPCS_VR_MII_AN_INTR_STS_CL37_ANCMPLT_INTR =? 0
                    | _ => true
                    end) t.

(** ** A concrete XPCS

    Bit assignments of the DesignWare XPCS in USXGMII mode, to run the
    model: AN enable is bit 12, SS5, SS6 and SS13 are bits 5, 6 and 13 of
    SR_MII_CTRL, AN complete is bit 0 and the speed field bits 12:10 of
    VR_MII_AN_INTR_STS, the rate-adaptor reset is bit 10 of
    VR_XS_PCS_DIG_CTRL1 and receive link up is bit 2 of SR_XS_PCS_STS1. *)
Definition dwc_xpcs_h : xpcs_h := {|
  XPCS_SR_MII_CTRL_AN_ENABLE := 0x1000;
  XPCS_SR_MII_CTRL_SS5 := 0x20;
  XPCS_SR_MII_CTRL_SS6 := 0x40;
  XPCS_SR_MII_CTRL_SS13 := 0x2000;
  XPCS_VR_MII_AN_INTR_STS_CL37_ANCMPLT_INTR := 0x1;
  XPCS_USXG_AN_STS_SPEED_MASK := 0x1C00;
  XPCS_USXG_AN_STS_SPEED_2500 := 0x1000;
  XPCS_USXG_AN_STS_SPEED_5000 := 0x1400;
  XPCS_USXG_AN_STS_SPEED_10000 := 0xC00;
  XPCS_VR_XS_PCS_DIG_CTRL1_USRA_RST := 0x400;
  XPCS_SR_XS_PCS_STS1_RLU := 0x4
|}.

(** A link partner that never answers: every register reads 0. *)
Definition silent_regs : regfile xpcs_reg := RegFile (fun _ => 0).

(** Autonegotiation complete, speed field 0. *)
Definition zero_speed_regs : regfile xpcs_reg :=
  RegFile (fun r => if decide (r = XPCS_VR_MII_AN_INTR_STS) then 0x1 else 0).

(** A device whose registers are read-only and hold fixed values. *)
Record fixed_regs : Type := FixedRegs { fixed_val : xpcs_reg -> Z }.

#[global] Instance fixed_regs_bus : Bus xpcs_reg fixed_regs := {
  bus_read a d := (fixed_val d a, d);
  bus_write _ _ d := d;
  bus_delay _ d := d
}.

(** Autonegotiation complete at 10G, rate adaptor out of reset, receive
    link up. *)
Definition link_up_regs : fixed_regs :=
  FixedRegs (fun r => match r with
                      | XPCS_SR_MII_CTRL => 0
                      | XPCS_VR_MII_AN_INTR_STS => 0xC01
                      | XPCS_VR_XS_PCS_DIG_CTRL1 => 0
                      | XPCS_SR_XS_PCS_STS1 => 0x4
                      end).

End Xpcs.

(** * DMA safety shadow and slot scheduling (osi/dma/eqos_dma.c) *)

Module EqosDma.

(** The null pointer, and the two values of an enable/disable argument
    (osi_common.h; xpcs.c documents them as enable - 1, disable - 0). *)
Definition OSI_NULL : Z := 0.
Definition OSI_ENABLE : Z := 1.
Definition OSI_DISABLE : Z := 0.

(** Constants and register-offset macros of eqos_dma.h and dma_local.h that
    the modelled functions use. *)
Class eqos_dma_h : Type := {
  EQOS_MAX_DMA_SAFETY_REGS : Z;
  EQOS_DMA_CH0_CTRL_IDX : Z;
  EQOS_DMA_CH0_TX_CTRL_IDX : Z;
  EQOS_DMA_CH0_RX_CTRL_IDX : Z;
  EQOS_DMA_CH0_TDRL_IDX : Z;
  EQOS_DMA_CH0_RDRL_IDX : Z;
  EQOS_DMA_CH0_INTR_ENA_IDX : Z;
  EQOS_DMA_CHX_CTRL : Z -> Z;
  EQOS_DMA_CHX_TX_CTRL : Z -> Z;
  EQOS_DMA_CHX_RX_CTRL : Z -> Z;
  EQOS_DMA_CHX_TDRL : Z -> Z;
  EQOS_DMA_CHX_RDRL : Z -> Z;
  EQOS_DMA_CHX_INTR_ENA : Z -> Z;
  EQOS_DMA_CHX_SLOT_CTRL : Z -> Z;
  EQOS_DMA_CHX_CTRL_MASK : Z;
  EQOS_DMA_CHX_TX_CTRL_MASK : Z;
  EQOS_DMA_CHX_RX_CTRL_MASK : Z;
  EQOS_DMA_CHX_TDRL_MASK : Z;
  EQOS_DMA_CHX_RDRL_MASK : Z;
  EQOS_DMA_CHX_INTR_ENA_MASK : Z;
  EQOS_DMA_CHX_SLOT_SIV_MASK : Z;
  EQOS_DMA_CHX_SLOT_SIV_SHIFT : Z;
  EQOS_DMA_CHX_SLOT_ESC : Z
}.

(** [struct dma_func_safety]: three parallel arrays of
    [EQOS_MAX_DMA_SAFETY_REGS] entries and the lock.  A register address is
    a pointer; [OSI_NULL] marks an unpopulated slot. *)
Record dma_func_safety : Type := DmaFuncSafety {
  reg_addr : list Z;
  reg_mask : list Z;
  reg_val : list Z;
  dma_safety_lock : bool
}.

(** The members of [struct osi_dma_priv_data] that the modelled functions
    read.  [safety_config] points to the static [eqos_dma_safety_config],
    which is the driver-private data of the machine. *)
Record osi_dma_priv_data : Type := OsiDmaPrivData {
  base : Z;
  num_dma_chans : Z;
  dma_chans : list Z
}.

Definition set_lock (b : bool) (c : dma_func_safety) : dma_func_safety :=
  DmaFuncSafety (reg_addr c) (reg_mask c) (reg_val c) b.

Section Dma.
Context {D : Type} {bus : Bus Z D} {hdr : eqos_dma_h}.

Abbreviation prog := (M Z (machine D dma_func_safety)).

(** [a[i]] as an rvalue; an index outside the array has no defined
    result. *)
Definition array_get (a : list Z) (i : Z) : prog Z :=
  if i <? 0 then undefined
  else match a !! Z.to_nat i with
       | Some x => ret x
       | None => undefined
       end.

(** [a[i] = x]; an index outside the array has no defined result. *)
Definition array_set (a : list Z) (i x : Z) : prog (list Z) :=
  if (i <? 0) || (Z.of_nat (length a) <=? i) then undefined
  else ret (<[Z.to_nat i := x]> a).

Definition set_reg_addr (i x : Z) : prog unit :=
  do c <- get_sw;
  do a <- array_set (reg_addr c) i x;
  put_sw (DmaFuncSafety a (reg_mask c) (reg_val c) (dma_safety_lock c)).

Definition set_reg_mask (i x : Z) : prog unit :=
  do c <- get_sw;
  do a <- array_set (reg_mask c) i x;
  put_sw (DmaFuncSafety (reg_addr c) a (reg_val c) (dma_safety_lock c)).

Definition set_reg_val (i x : Z) : prog unit :=
  do c <- get_sw;
  do a <- array_set (reg_val c) i x;
  put_sw (DmaFuncSafety (reg_addr c) (reg_mask c) a (dma_safety_lock c)).

(** Modelled from the spec: [osi_lock_init], [osi_lock_irq_enabled] and
    [osi_unlock_irq_enabled] of osi_common.h, the facade's lock_init,
    lock_acquire and lock_release.  Acquiring a lock that is held spins
    for ever in a sequential run. *)
Definition osi_lock_init : prog unit :=
  do c <- get_sw;
  put_sw (set_lock false c).

Definition osi_lock_irq_enabled : prog unit :=
  do c <- get_sw;
  if dma_safety_lock c then undefined
  else put_sw (set_lock true c).

Definition osi_unlock_irq_enabled : prog unit :=
  do c <- get_sw;
  put_sw (set_lock false c).

Definition eqos_dma_safety_writel (val addr idx : Z) : prog unit :=
  run osi_lock_irq_enabled;
  run osi_writel val addr;
  do config <- get_sw;
  do mask <- array_get (reg_mask config) idx;
  run set_reg_val idx (Z.land val mask);
  osi_unlock_irq_enabled.

(** [for (i = EQOS_DMA_CH0_CTRL_IDX; i < EQOS_MAX_DMA_SAFETY_REGS; i++)
    config->reg_addr[i] = OSI_NULL;] with [n] iterations left. *)
Fixpoint clear_addr_loop (n : nat) (i : Z) : prog unit :=
  match n with
  | O => ret tt
  | S n' => run set_reg_addr i OSI_NULL; clear_addr_loop n' (i + 1)
  end.

(** Body of the per-channel loop of [eqos_dma_safety_init]. *)
Definition populate_chan (osi_dma : osi_dma_priv_data) (i : Z) : prog unit :=
  do idx <- array_get (dma_chans osi_dma) i;
  run set_reg_addr (EQOS_DMA_CH0_CTRL_IDX + idx)
                   (base osi_dma + EQOS_DMA_CHX_CTRL idx);
  run set_reg_addr (EQOS_DMA_CH0_TX_CTRL_IDX + idx)
                   (base osi_dma + EQOS_DMA_CHX_TX_CTRL idx);
  run set_reg_addr (EQOS_DMA_CH0_RX_CTRL_IDX + idx)
                   (base osi_dma + EQOS_DMA_CHX_RX_CTRL idx);
  run set_reg_addr (EQOS_DMA_CH0_TDRL_IDX + idx)
                   (base osi_dma + EQOS_DMA_CHX_TDRL idx);
  run set_reg_addr (EQOS_DMA_CH0_RDRL_IDX + idx)
                   (base osi_dma + EQOS_DMA_CHX_RDRL idx);
  run set_reg_addr (EQOS_DMA_CH0_INTR_ENA_IDX + idx)
                   (base osi_dma + EQOS_DMA_CHX_INTR_ENA idx);
  run set_reg_mask (EQOS_DMA_CH0_CTRL_IDX + idx) EQOS_DMA_CHX_CTRL_MASK;
  run set_reg_mask (EQOS_DMA_CH0_TX_CTRL_IDX + idx) EQOS_DMA_CHX_TX_CTRL_MASK;
  run set_reg_mask (EQOS_DMA_CH0_RX_CTRL_IDX + idx) EQOS_DMA_CHX_RX_CTRL_MASK;
  run set_reg_mask (EQOS_DMA_CH0_TDRL_IDX + idx) EQOS_DMA_CHX_TDRL_MASK;
  run set_reg_mask (EQOS_DMA_CH0_RDRL_IDX + idx) EQOS_DMA_CHX_RDRL_MASK;
  set_reg_mask (EQOS_DMA_CH0_INTR_ENA_IDX + idx) EQOS_DMA_CHX_INTR_ENA_MASK.

Fixpoint populate_loop (osi_dma : osi_dma_priv_data) (n : nat) (i : Z)
  : prog unit :=
  match n with
  | O => ret tt
  | S n' => run populate_chan osi_dma i; populate_loop osi_dma n' (i + 1)
  end.

(** Seeding of the shadow values from the registers. *)
Fixpoint seed_loop (n : nat) (i : Z) : prog unit :=
  match n with
  | O => ret tt
  | S n' =>
      do config <- get_sw;
      do addr <- array_get (reg_addr config) i;
      if addr =? OSI_NULL then seed_loop n' (i + 1)
      else
        do val <- osi_readl addr;
        do mask <- array_get (reg_mask config) i;
        run set_reg_val i (Z.land val mask);
        seed_loop n' (i + 1)
  end.

Definition safety_regs_count : nat :=
  Z.to_nat (EQOS_MAX_DMA_SAFETY_REGS - EQOS_DMA_CH0_CTRL_IDX).

Definition eqos_dma_safety_init (osi_dma : osi_dma_priv_data) : prog unit :=
  run clear_addr_loop safety_regs_count EQOS_DMA_CH0_CTRL_IDX;
  run populate_loop osi_dma (Z.to_nat (num_dma_chans osi_dma)) 0;
  run seed_loop safety_regs_count EQOS_DMA_CH0_CTRL_IDX;
  osi_lock_init.

(** The loop of [eqos_validate_dma_regs], with [n] iterations left. *)
Fixpoint validate_loop (n : nat) (i : Z) : prog (ctl unit) :=
  match n with
  | O => ret (Fallthrough tt)
  | S n' =>
      do config <- get_sw;
      do addr <- array_get (reg_addr config) i;
      if addr =? OSI_NULL then validate_loop n' (i + 1)
      else
        do cur_val <- osi_readl addr;
        do mask <- array_get (reg_mask config) i;
        let cur_val := Z.land cur_val mask in
        do val <- array_get (reg_val config) i;
        if cur_val =? val then validate_loop n' (i + 1)
        else
          run osi_unlock_irq_enabled;
          ret (Returned (-1))
  end.

Definition eqos_validate_dma_regs : prog Z :=
  run osi_lock_irq_enabled;
  do r <- validate_loop safety_regs_count EQOS_DMA_CH0_CTRL_IDX;
  match r with
  | Returned v => ret v
  | Fallthrough _ =>
      run osi_unlock_irq_enabled;
      ret 0
  end.

Definition eqos_config_slot (osi_dma : osi_dma_priv_data)
  (chan set interval : Z) : prog unit :=
  if set =? OSI_ENABLE then
    do value <- osi_readl (base osi_dma + EQOS_DMA_CHX_SLOT_CTRL chan);
    let value := Z.land value (u32_not EQOS_DMA_CHX_SLOT_SIV_MASK) in
    let intr := Z.land interval EQOS_DMA_CHX_SLOT_SIV_MASK in
    let value := Z.lor value (u32_shl intr EQOS_DMA_CHX_SLOT_SIV_SHIFT) in
    let value := Z.lor value EQOS_DMA_CHX_SLOT_ESC in
    osi_writel value (base osi_dma + EQOS_DMA_CHX_SLOT_CTRL chan)
  else
    do value <- osi_readl (base osi_dma + EQOS_DMA_CHX_SLOT_CTRL chan);
    let value := Z.land value (u32_not EQOS_DMA_CHX_SLOT_ESC) in
    osi_writel value (base osi_dma + EQOS_DMA_CHX_SLOT_CTRL chan).

End Dma.

(** The table has its declared size and nobody holds the lock. *)
Definition config_wf `{eqos_dma_h} (c : dma_func_safety) : Prop :=
  length (reg_addr c) = Z.to_nat EQOS_MAX_DMA_SAFETY_REGS /\
  length (reg_mask c) = Z.to_nat EQOS_MAX_DMA_SAFETY_REGS /\
  length (reg_val c) = Z.to_nat EQOS_MAX_DMA_SAFETY_REGS /\
  dma_safety_lock c = false.

(** Every slot from index [lo] on is unpopulated. *)
Definition unpopulated_from (lo : nat) (c : dma_func_safety) : Prop :=
  forall (i : nat) (a : Z),
    (lo <= i)%nat -> reg_addr c !! i = Some a -> a = OSI_NULL.

(** Every populated slot from index [lo] on holds the masked value that
    its register currently reads. *)
Definition shadow_matches_from (lo : nat) (r : regfile Z)
  (c : dma_func_safety) : Prop :=
  forall (i : nat) (a m v : Z),
    (lo <= i)%nat ->
    reg_addr c !! i = Some a -> reg_mask c !! i = Some m ->
    reg_val c !! i = Some v ->
    a <> OSI_NULL -> Z.land (u32 (reg_get r a)) m = v.

Definition shadow_matches `{eqos_dma_h} (r : regfile Z) (c : dma_func_safety)
  : Prop :=
  shadow_matches_from (Z.to_nat EQOS_DMA_CH0_CTRL_IDX) r c.

(** A read of the register of a populated slot. *)
Definition populated_read (r : regfile Z) (c : dma_func_safety)
  (e : event Z) : Prop :=
  exists (i : nat) (a : Z),
    reg_addr c !! i = Some a /\ a <> OSI_NULL /\
    e = EvRead a (u32 (reg_get r a)).

(** The slot-interval field of the slot-control register. *)
Definition slot_siv_field `{eqos_dma_h} : Z :=
  u32_shl EQOS_DMA_CHX_SLOT_SIV_MASK EQOS_DMA_CHX_SLOT_SIV_SHIFT.

(** ** A concrete DMA block

    Eight channels, six monitored register classes of eight slots each,
    channel registers 0x80 apart from 0x1100; the slot-interval field is
    12 bits wide at bit 4 and the enable bit ESC is bit 0. *)
Definition eqos_dma_8ch : eqos_dma_h := {|
  EQOS_MAX_DMA_SAFETY_REGS := 48;
  EQOS_DMA_CH0_CTRL_IDX := 0;
  EQOS_DMA_CH0_TX_CTRL_IDX := 8;
  EQOS_DMA_CH0_RX_CTRL_IDX := 16;
  EQOS_DMA_CH0_TDRL_IDX := 24;
  EQOS_DMA_CH0_RDRL_IDX := 32;
  EQOS_DMA_CH0_INTR_ENA_IDX := 40;
  EQOS_DMA_CHX_CTRL := fun x => 0x0080 * x + 0x1100;
  EQOS_DMA_CHX_TX_CTRL := fun x => 0x0080 * x + 0x1104;
  EQOS_DMA_CHX_RX_CTRL := fun x => 0x0080 * x + 0x1108;
  EQOS_DMA_CHX_TDRL := fun x => 0x0080 * x + 0x112C;
  EQOS_DMA_CHX_RDRL := fun x => 0x0080 * x + 0x1130;
  EQOS_DMA_CHX_INTR_ENA := fun x => 0x0080 * x + 0x1134;
  EQOS_DMA_CHX_SLOT_CTRL := fun x => 0x0080 * x + 0x113C;
  EQOS_DMA_CHX_CTRL_MASK := 0x11D3FFF;
  EQOS_DMA_CHX_TX_CTRL_MASK := 0xF3F9010;
  EQOS_DMA_CHX_RX_CTRL_MASK := 0x8F3F7FE0;
  EQOS_DMA_CHX_TDRL_MASK := 0x3FF;
  EQOS_DMA_CHX_RDRL_MASK := 0x3FF;
  EQOS_DMA_CHX_INTR_ENA_MASK := 0xFFC7;
  EQOS_DMA_CHX_SLOT_SIV_MASK := 0xFFF;
  EQOS_DMA_CHX_SLOT_SIV_SHIFT := 4;
  EQOS_DMA_CHX_SLOT_ESC := 0x1
|}.

(** A table of 48 slots before [eqos_dma_safety_init] has run. *)
Definition blank_config : dma_func_safety :=
  DmaFuncSafety (replicate 48 0) (replicate 48 0) (replicate 48 0) false.

(** A MAC at [0x2490000] with DMA channels 0 and 1 in use. *)
Definition two_chan_dma : osi_dma_priv_data :=
  OsiDmaPrivData 0x2490000 2 [0; 1].

(** A MAC with no DMA channel in use. *)
Definition no_chan_dma : osi_dma_priv_data :=
  OsiDmaPrivData 0x2490000 0 [].

(** Registers that read 0 until written. *)
Definition zero_regs : regfile Z := RegFile (fun _ => 0).

(** The table that [eqos_dma_safety_init] builds for channels 0 and 1 on
    registers that read 0. *)
Definition two_chan_config : dma_func_safety :=
  Eval vm_compute in
    match eqos_dma_safety_init (hdr := eqos_dma_8ch) two_chan_dma
            (Machine zero_regs blank_config) with
    | Some (_, m, _) => sw m
    | None => blank_config
    end.

(** Runs [m], then [k] on the machine that [m] leaves, and gives the
    result and the trace of [k]. *)
Definition and_then {A W R R' : Type} (m : M A W R) (k : M A W R')
  (w : W) : option (R' * list (event A)) :=
  match m w with
  | Some (_, w', _) =>
      match k w' with
      | Some (r, _, t) => Some (r, t)
      | None => None
      end
  | None => None
  end.

End EqosDma.

(** * Further observations and the remaining functions *)

(** ** Observations on the statements of [eqos_read_mmc] *)

Module EqosMmcObs.
Import EqosMmc.

(** The register an event reads, if it is a read. *)
Definition read_reg (e : event core_reg) : option core_reg :=
  match e with
  | EvRead r _ => Some r
  | _ => None
  end.

(** Number of statements of [l] that assign the member [f]. *)
Definition assignments_of (f : mmc_field)
  (l : list (mmc_field * mmc_field * core_reg)) : nat :=
  length (List.filter (fun st => bool_decide (fst (fst st) = f)) l).

(** Every running total fits a 32-bit [unsigned long]. *)
Definition counters_in_range (m : osi_mmc_counters) : Prop :=
  forall f, 0 <= m f <= 2 ^ 32 - 1.

End EqosMmcObs.

(** ** The poll loops of xpcs.c

    The loops of [xpcs_start] and [xpcs_init] that wait for a bit have one
    shape: give up with -1 once [count > retry], otherwise count, read the
    register, leave the loop when the value is as awaited and delay 1000
    microseconds when it is not. *)

Module Polling.

Section Poll.
Context {A D St : Type} {bus : Bus A D}.

Fixpoint poll_until (reg : A) (done : Z -> bool) (fuel : nat)
  (retry count : Z) : M A (machine D St) (ctl unit) :=
  match fuel with
  | O => undefined
  | S fuel' =>
      if count >? retry then ret (Returned (-1))
      else
        let count := u32 (count + 1) in
        do ctrl <- osi_readl reg;
        if done ctrl then ret (Fallthrough tt)
        else
          run osd_udelay 1000;
          poll_until reg done fuel' retry count
  end.

End Poll.

(** The events of polls of [reg] that read the values [vs] and went on
    waiting. *)
Definition polls {A : Type} (reg : A) (vs : list Z) : list (event A) :=
  flat_map (fun v => [EvRead reg v; EvDelay 1000]) vs.

(** The delays of a trace, in microseconds. *)
Definition delays {A : Type} (t : list (event A)) : list Z :=
  flat_map (fun e => match e with EvDelay u => [u] | _ => [] end) t.

(** Time that a trace spends in delays, in microseconds. *)
Definition delay_total {A : Type} (t : list (event A)) : Z :=
  fold_right Z.add 0 (delays t).

(** Every read of register [a] in the trace has a value that satisfies
    [p]. *)
Definition reads_satisfy {A : Type} `{EqDecision A} (a : A) (p : Z -> bool)
  (t : list (event A)) : bool :=
  forallb (fun e => match e with
                    | EvRead x v => if decide (x = a) then p v else true
                    | _ => true
                    end) t.

End Polling.

(** ** Further XPCS blocks to run [xpcs_start] on *)

Module XpcsBlocks.
Import Xpcs.

(** Autonegotiation complete at 10G; the rate-adaptor reset bit stays
    set. *)
Definition usra_stuck_regs : fixed_regs :=
  FixedRegs (fun r => match r with
                      | XPCS_SR_MII_CTRL => 0
                      | XPCS_VR_MII_AN_INTR_STS => 0xC01
                      | XPCS_VR_XS_PCS_DIG_CTRL1 => 0x400
                      | XPCS_SR_XS_PCS_STS1 => 0x4
                      end).

(** Autonegotiation complete at 10G, rate adaptor out of reset; the
    receive link stays down. *)
Definition link_down_regs : fixed_regs :=
  FixedRegs (fun r => match r with
                      | XPCS_SR_MII_CTRL => 0
                      | XPCS_VR_MII_AN_INTR_STS => 0xC01
                      | XPCS_VR_XS_PCS_DIG_CTRL1 => 0
                      | XPCS_SR_XS_PCS_STS1 => 0
                      end).

End XpcsBlocks.

(** ** XPCS initialisation and EEE (osi/core/xpcs.c) *)

Module XpcsInit.

(** XPCS registers that [xpcs_init] and [xpcs_eee] name. *)
Inductive xpcs_reg : Type :=
| XPCS_SR_XS_PCS_CTRL2
| XPCS_VR_XS_PCS_DIG_CTRL1
| XPCS_SR_AN_CTRL
| XPCS_VR_XS_PCS_EEE_MCTRL0.

#[global] Instance xpcs_reg_eq_dec : EqDecision xpcs_reg.
Proof. solve_decision. Defined.

(** Bit masks of xpcs.h that [xpcs_init] and [xpcs_eee] use. *)
Class xpcs_init_h : Type := {
  XPCS_SR_XS_PCS_CTRL2_PCS_TYPE_SEL_BASE_R : Z;
  XPCS_VR_XS_PCS_DIG_CTRL1_USXG_EN : Z;
  XPCS_VR_XS_PCS_DIG_CTRL1_VR_RST : Z;
  XPCS_VR_XS_PCS_DIG_CTRL1_CL37_BP : Z;
  XPCS_SR_AN_CTRL_AN_EN : Z;
  XPCS_VR_XS_PCS_EEE_MCTRL0_LTX_EN : Z;
  XPCS_VR_XS_PCS_EEE_MCTRL0_LRX_EN : Z
}.

Section Init.
Context {D : Type} {bus : Bus xpcs_reg D} {hdr : xpcs_init_h}.

Abbreviation prog := (M xpcs_reg (machine D unit)).

(** Modelled from the spec: [xpcs_read] and [xpcs_write] of xpcs.h, the
    register facade's read32 and write32 on the XPCS block. *)
Definition xpcs_read (reg_addr : xpcs_reg) : prog Z := osi_readl reg_addr.

Definition xpcs_write (reg_addr : xpcs_reg) (val : Z) : prog unit :=
  osi_writel val reg_addr.

(** The loop of [xpcs_init]: wait for the vendor-specific software reset
    bit to clear. *)
Fixpoint vr_rst_loop (fuel : nat) (retry count : Z) : prog (ctl unit) :=
  match fuel with
  | O => undefined
  | S fuel' =>
      if count >? retry then ret (Returned (-1))
      else
        let count := u32 (count + 1) in
        do ctrl <- xpcs_read XPCS_VR_XS_PCS_DIG_CTRL1;
        if Z.land ctrl XPCS_VR_XS_PCS_DIG_CTRL1_VR_RST =? 0 then
          ret (Fallthrough tt)
        else
          run osd_udelay 1000;
          vr_rst_loop fuel' retry count
  end.

Definition xpcs_init (fuel : nat) : prog Z :=
  let retry := 1000 in
  do ctrl <- xpcs_read XPCS_SR_XS_PCS_CTRL2;
  let ctrl := Z.lor ctrl XPCS_SR_XS_PCS_CTRL2_PCS_TYPE_SEL_BASE_R in
  run xpcs_write XPCS_SR_XS_PCS_CTRL2 ctrl;
  do ctrl <- xpcs_read XPCS_VR_XS_PCS_DIG_CTRL1;
  let ctrl := Z.lor ctrl XPCS_VR_XS_PCS_DIG_CTRL1_USXG_EN in
  let ctrl := Z.lor ctrl XPCS_VR_XS_PCS_DIG_CTRL1_VR_RST in
  run xpcs_write XPCS_VR_XS_PCS_DIG_CTRL1 ctrl;
  let count := 0 in
  do r <- vr_rst_loop fuel retry count;
  match r with
  | Returned v => ret v
  | Fallthrough _ =>
      do ctrl <- xpcs_read XPCS_SR_AN_CTRL;
      let ctrl := Z.land ctrl (u32_not XPCS_SR_AN_CTRL_AN_EN) in
      run xpcs_write XPCS_SR_AN_CTRL ctrl;
      do ctrl <- xpcs_read XPCS_VR_XS_PCS_DIG_CTRL1;
      let ctrl := Z.lor ctrl XPCS_VR_XS_PCS_DIG_CTRL1_CL37_BP in
      run xpcs_write XPCS_VR_XS_PCS_DIG_CTRL1 ctrl;
      ret 0
  end.

Definition xpcs_eee (en_dis : Z) : prog Z :=
  if negb (en_dis =? EqosDma.OSI_ENABLE)
     && negb (en_dis =? EqosDma.OSI_DISABLE) then ret (-1)
  else if en_dis =? EqosDma.OSI_DISABLE then
    do val <- xpcs_read XPCS_VR_XS_PCS_EEE_MCTRL0;
    let val := Z.land val (u32_not XPCS_VR_XS_PCS_EEE_MCTRL0_LTX_EN) in
    let val := Z.land val (u32_not XPCS_VR_XS_PCS_EEE_MCTRL0_LRX_EN) in
    run xpcs_write XPCS_VR_XS_PCS_EEE_MCTRL0 val;
    ret 0
  else
    do val <- xpcs_read XPCS_VR_XS_PCS_EEE_MCTRL0;
    let val := Z.land val (u32_not XPCS_VR_XS_PCS_EEE_MCTRL0_LTX_EN) in
    let val := Z.land val (u32_not XPCS_VR_XS_PCS_EEE_MCTRL0_LRX_EN) in
    let val := Z.lor val (Z.lor XPCS_VR_XS_PCS_EEE_MCTRL0_LTX_EN
                                XPCS_VR_XS_PCS_EEE_MCTRL0_LRX_EN) in
    run xpcs_write XPCS_VR_XS_PCS_EEE_MCTRL0 val;
    ret 0.

End Init.

(** The value that [xpcs_eee] writes back when it has read [v]. *)
Definition eee_value `{xpcs_init_h} (en_dis v : Z) : Z :=
  let val := Z.land v (u32_not XPCS_VR_XS_PCS_EEE_MCTRL0_LTX_EN) in
  let val := Z.land val (u32_not XPCS_VR_XS_PCS_EEE_MCTRL0_LRX_EN) in
  if en_dis =? EqosDma.OSI_DISABLE then val
  else Z.lor val (Z.lor XPCS_VR_XS_PCS_EEE_MCTRL0_LTX_EN
                        XPCS_VR_XS_PCS_EEE_MCTRL0_LRX_EN).

(** The two EEE enable bits are [unsigned int] masks. *)
Definition eee_masks_ok `{xpcs_init_h} : Prop :=
  0 <= XPCS_VR_XS_PCS_EEE_MCTRL0_LTX_EN < 2 ^ 32 /\
  0 <= XPCS_VR_XS_PCS_EEE_MCTRL0_LRX_EN < 2 ^ 32.

(** Bit assignments of the DesignWare XPCS, to run the model: BASE-R is
    PCS type 0, USXG_EN, VR_RST and CL37_BP are bits 9, 15 and 12 of
    VR_XS_PCS_DIG_CTRL1, AN_EN is bit 12 of SR_AN_CTRL, LTX_EN and LRX_EN
    are bits 0 and 1 of VR_XS_PCS_EEE_MCTRL0. *)
Definition dwc_xpcs_init_h : xpcs_init_h := {|
  XPCS_SR_XS_PCS_CTRL2_PCS_TYPE_SEL_BASE_R := 0x0;
  XPCS_VR_XS_PCS_DIG_CTRL1_USXG_EN := 0x200;
  XPCS_VR_XS_PCS_DIG_CTRL1_VR_RST := 0x8000;
  XPCS_VR_XS_PCS_DIG_CTRL1_CL37_BP := 0x1000;
  XPCS_SR_AN_CTRL_AN_EN := 0x1000;
  XPCS_VR_XS_PCS_EEE_MCTRL0_LTX_EN := 0x1;
  XPCS_VR_XS_PCS_EEE_MCTRL0_LRX_EN := 0x2
|}.

(** What [xpcs_init] relies on from xpcs.h: [unsigned int] masks, a reset
    bit that exists, and USXG_EN and CL37_BP apart from it in
    VR_XS_PCS_DIG_CTRL1. *)
Definition init_masks_ok `{xpcs_init_h} : Prop :=
  0 <= XPCS_SR_XS_PCS_CTRL2_PCS_TYPE_SEL_BASE_R < 2 ^ 32 /\
  0 <= XPCS_VR_XS_PCS_DIG_CTRL1_USXG_EN < 2 ^ 32 /\
  0 < XPCS_VR_XS_PCS_DIG_CTRL1_VR_RST < 2 ^ 32 /\
  0 <= XPCS_VR_XS_PCS_DIG_CTRL1_CL37_BP < 2 ^ 32 /\
  0 <= XPCS_SR_AN_CTRL_AN_EN < 2 ^ 32 /\
  Z.land XPCS_VR_XS_PCS_DIG_CTRL1_USXG_EN XPCS_VR_XS_PCS_DIG_CTRL1_VR_RST = 0 /\
  Z.land XPCS_VR_XS_PCS_DIG_CTRL1_CL37_BP XPCS_VR_XS_PCS_DIG_CTRL1_VR_RST = 0.

(** A block whose registers hold what is written, except that the
    vendor-specific reset bit of VR_XS_PCS_DIG_CTRL1 reads as set for the
    first [busy] milliseconds of delay and as clear from then on. *)
Record resetting_xpcs : Type := ResettingXpcs {
  xregs : regfile xpcs_reg;
  busy : Z
}.

#[global] Instance resetting_xpcs_bus `{xpcs_init_h}
  : Bus xpcs_reg resetting_xpcs := {
  bus_read a d :=
    (match a with
     | XPCS_VR_XS_PCS_DIG_CTRL1 =>
         if 0 <? busy d
         then Z.lor (reg_get (xregs d) a) XPCS_VR_XS_PCS_DIG_CTRL1_VR_RST
         else Z.land (reg_get (xregs d) a)
                     (u32_not XPCS_VR_XS_PCS_DIG_CTRL1_VR_RST)
     | _ => reg_get (xregs d) a
     end, d);
  bus_write a v d := ResettingXpcs (reg_set a (u32 v) (xregs d)) (busy d);
  bus_delay usec d := ResettingXpcs (xregs d) (busy d - usec / 1000)
}.

(** All registers 0. *)
Definition xpcs_zero_regs : regfile xpcs_reg := RegFile (fun _ => 0).

End XpcsInit.

(** ** DMA channel configuration (osi/dma/eqos_dma.c) *)

Module EqosDmaChan.
Import EqosDma.

(** Further constants and register-offset macros of eqos_dma.h and
    osi_common.h, those that [eqos_configure_dma_channel] uses.  All are
    [unsigned int] constants; the two divisors are not zero. *)
Class eqos_dma_chan_h : Type := {
  EQOS_DMA_CHX_INTR_TIE : Z;
  EQOS_DMA_CHX_INTR_RIE : Z;
  EQOS_DMA_CHX_CTRL_PBLX8 : Z;
  EQOS_DMA_CHX_TX_CTRL_OSF : Z;
  EQOS_DMA_CHX_TX_CTRL_TXPBL_RECOMMENDED : Z;
  EQOS_DMA_CHX_TX_CTRL_TSE : Z;
  EQOS_DMA_CHX_RBSZ_MASK : Z;
  EQOS_DMA_CHX_RBSZ_SHIFT : Z;
  EQOS_DMA_CHX_RX_CTRL_RXPBL_RECOMMENDED : Z;
  EQOS_DMA_CHX_RX_WDT : Z -> Z;
  EQOS_DMA_CHX_RX_WDT_RWT_MASK : Z;
  EQOS_DMA_CHX_RX_WDT_RWTU_MASK : Z;
  EQOS_DMA_CHX_RX_WDT_RWTU : Z;
  EQOS_DMA_CHX_RX_WDT_RWTU_512_CYCLE : Z;
  EQOS_AXI_CLK_FREQ : Z;
  OSI_ONE_MEGA_HZ : Z
}.

Definition UINT_MAX : Z := 2 ^ 32 - 1.

(** The members of [struct osi_dma_priv_data] that
    [eqos_configure_dma_channel] reads besides [base]. *)
Record osi_dma_rx_data : Type := OsiDmaRxData {
  rx_buf_len : Z;
  use_riwt : Z;
  rx_riwt : Z
}.

Section Chan.
Context {D : Type} {bus : Bus Z D} {hdr : eqos_dma_h}
        {chdr : eqos_dma_chan_h}.

Abbreviation prog := (M Z (machine D dma_func_safety)).

Definition eqos_configure_dma_channel (chan : Z)
  (osi_dma : osi_dma_priv_data) (rx : osi_dma_rx_data) : prog unit :=
  do value <- osi_readl (base osi_dma + EQOS_DMA_CHX_INTR_ENA chan);
  let value :=
    Z.lor value (Z.lor EQOS_DMA_CHX_INTR_TIE EQOS_DMA_CHX_INTR_RIE) in
  run eqos_dma_safety_writel value
        (base osi_dma + EQOS_DMA_CHX_INTR_ENA chan)
        (EQOS_DMA_CH0_INTR_ENA_IDX + chan);
  do value <- osi_readl (base osi_dma + EQOS_DMA_CHX_CTRL chan);
  let value := Z.lor value EQOS_DMA_CHX_CTRL_PBLX8 in
  run eqos_dma_safety_writel value
        (base osi_dma + EQOS_DMA_CHX_CTRL chan)
        (EQOS_DMA_CH0_CTRL_IDX + chan);
  do value <- osi_readl (base osi_dma + EQOS_DMA_CHX_TX_CTRL chan);
  let value := Z.lor value EQOS_DMA_CHX_TX_CTRL_OSF in
  let value := Z.lor value EQOS_DMA_CHX_TX_CTRL_TXPBL_RECOMMENDED in
  let value := Z.lor value EQOS_DMA_CHX_TX_CTRL_TSE in
  run eqos_dma_safety_writel value
        (base osi_dma + EQOS_DMA_CHX_TX_CTRL chan)
        (EQOS_DMA_CH0_TX_CTRL_IDX + chan);
  do value <- osi_readl (base osi_dma + EQOS_DMA_CHX_RX_CTRL chan);
  let value := Z.land value (u32_not EQOS_DMA_CHX_RBSZ_MASK) in
  let value :=
    Z.lor value (u32_shl (rx_buf_len rx) EQOS_DMA_CHX_RBSZ_SHIFT) in
  let value := Z.lor value EQOS_DMA_CHX_RX_CTRL_RXPBL_RECOMMENDED in
  run eqos_dma_safety_writel value
        (base osi_dma + EQOS_DMA_CHX_RX_CTRL chan)
        (EQOS_DMA_CH0_RX_CTRL_IDX + chan);
  if (use_riwt rx =? OSI_ENABLE) && (rx_riwt rx <? UINT_MAX) then
    do value <- osi_readl (base osi_dma + EQOS_DMA_CHX_RX_WDT chan);
    let value :=
      Z.land value (u32_not (Z.lor EQOS_DMA_CHX_RX_WDT_RWT_MASK
                                   EQOS_DMA_CHX_RX_WDT_RWTU_MASK)) in
    let value :=
      Z.lor value
        (Z.land (u32 (rx_riwt rx * (EQOS_AXI_CLK_FREQ / OSI_ONE_MEGA_HZ))
                 / EQOS_DMA_CHX_RX_WDT_RWTU)
                EQOS_DMA_CHX_RX_WDT_RWT_MASK) in
    let value := Z.lor value EQOS_DMA_CHX_RX_WDT_RWTU_512_CYCLE in
    osi_writel value (base osi_dma + EQOS_DMA_CHX_RX_WDT chan)
  else ret tt.

(** The loop of [eqos_init_dma_channel], with [n] iterations left. *)
Fixpoint configure_loop (osi_dma : osi_dma_priv_data) (rx : osi_dma_rx_data)
  (n : nat) (chinx : Z) : prog unit :=
  match n with
  | O => ret tt
  | S n' =>
      do chan <- array_get (dma_chans osi_dma) chinx;
      run eqos_configure_dma_channel chan osi_dma rx;
      configure_loop osi_dma rx n' (chinx + 1)
  end.

Definition eqos_init_dma_channel (osi_dma : osi_dma_priv_data)
  (rx : osi_dma_rx_data) : prog Z :=
  run eqos_dma_safety_init osi_dma;
  run configure_loop osi_dma rx (Z.to_nat (num_dma_chans osi_dma)) 0;
  ret 0.

End Chan.

(** *** The layout of the safety table *)

(** The six monitored register classes: slot index of channel 0, register
    offset, mask; in the order in which [eqos_dma_safety_init] goes through
    them. *)
Definition safety_classes `{eqos_dma_h} : list (Z * (Z -> Z) * Z) :=
  [(EQOS_DMA_CH0_CTRL_IDX, EQOS_DMA_CHX_CTRL, EQOS_DMA_CHX_CTRL_MASK);
   (EQOS_DMA_CH0_TX_CTRL_IDX, EQOS_DMA_CHX_TX_CTRL, EQOS_DMA_CHX_TX_CTRL_MASK);
   (EQOS_DMA_CH0_RX_CTRL_IDX, EQOS_DMA_CHX_RX_CTRL, EQOS_DMA_CHX_RX_CTRL_MASK);
   (EQOS_DMA_CH0_TDRL_IDX, EQOS_DMA_CHX_TDRL, EQOS_DMA_CHX_TDRL_MASK);
   (EQOS_DMA_CH0_RDRL_IDX, EQOS_DMA_CHX_RDRL, EQOS_DMA_CHX_RDRL_MASK);
   (EQOS_DMA_CH0_INTR_ENA_IDX, EQOS_DMA_CHX_INTR_ENA,
    EQOS_DMA_CHX_INTR_ENA_MASK)].

(** A slot of the table: index, register address, mask. *)
Definition slot : Type := Z * Z * Z.
Definition slot_idx (s : slot) : Z := fst (fst s).
Definition slot_addr (s : slot) : Z := snd (fst s).
Definition slot_mask (s : slot) : Z := snd s.

(** The slots of channel [chan]. *)
Definition chan_slots `{eqos_dma_h} (osi_dma : osi_dma_priv_data) (chan : Z)
  : list slot :=
  map (fun c : Z * (Z -> Z) * Z =>
         (fst (fst c) + chan, base osi_dma + snd (fst c) chan, snd c))
      safety_classes.

(** The array [a] after the assignments [a[slot_idx s] = f s], for the
    slots [s] of [l] in order. *)
Definition write_slots (f : slot -> Z) (l : list slot) (a : list Z)
  : list Z :=
  fold_left (fun a s => <[Z.to_nat (slot_idx s) := f s]> a) l a.

(** The channels in use: the first [num_dma_chans] entries of
    [dma_chans]. *)
Definition used_chans (osi_dma : osi_dma_priv_data) : list Z :=
  take (Z.to_nat (num_dma_chans osi_dma)) (dma_chans osi_dma).

Definition slots_of `{eqos_dma_h} (osi_dma : osi_dma_priv_data)
  : list slot :=
  flat_map (chan_slots osi_dma) (used_chans osi_dma).

(** What the functions rely on from eqos_dma.h and from the caller: the
    indices of the table start inside it, [dma_chans] has the
    [num_dma_chans] entries that are read, the slot of every channel in
    use lies in the table and has a non-null register address, and two
    slots have the same index exactly when they have the same address. *)
Definition layout_ok `{eqos_dma_h} (osi_dma : osi_dma_priv_data) : Prop :=
  0 <= EQOS_DMA_CH0_CTRL_IDX <= EQOS_MAX_DMA_SAFETY_REGS /\
  0 <= num_dma_chans osi_dma <= Z.of_nat (length (dma_chans osi_dma)) /\
  Forall (fun s => EQOS_DMA_CH0_CTRL_IDX <= slot_idx s
                     < EQOS_MAX_DMA_SAFETY_REGS /\
                   slot_addr s <> OSI_NULL) (slots_of osi_dma) /\
  Forall (fun s1 =>
            Forall (fun s2 => slot_idx s1 = slot_idx s2
                              <-> slot_addr s1 = slot_addr s2)
                   (slots_of osi_dma)) (slots_of osi_dma).

(** The table has its declared size, whoever holds the lock. *)
Definition table_sized `{eqos_dma_h} (c : dma_func_safety) : Prop :=
  length (reg_addr c) = Z.to_nat EQOS_MAX_DMA_SAFETY_REGS /\
  length (reg_mask c) = Z.to_nat EQOS_MAX_DMA_SAFETY_REGS /\
  length (reg_val c) = Z.to_nat EQOS_MAX_DMA_SAFETY_REGS.

(** Every populated slot of the table is the slot of a channel in use. *)
Definition populated_in_layout `{eqos_dma_h} (osi_dma : osi_dma_priv_data)
  (c : dma_func_safety) : Prop :=
  forall (i : nat) (a : Z),
    (Z.to_nat EQOS_DMA_CH0_CTRL_IDX <= i)%nat ->
    reg_addr c !! i = Some a -> a <> OSI_NULL ->
    exists s, In s (slots_of osi_dma) /\
              Z.to_nat (slot_idx s) = i /\ slot_addr s = a.

(** A read of a non-null register address held by the table. *)
Definition slot_read (c : dma_func_safety) (e : event Z) : Prop :=
  exists a v, e = EvRead a v /\ a <> OSI_NULL /\ In a (reg_addr c).

(** The table is in step with the registers: well-formed, every populated
    slot holds the masked value that its register reads, and every
    populated slot is the slot of a channel in use. *)
Definition in_sync `{eqos_dma_h} (osi_dma : osi_dma_priv_data)
  (r : regfile Z) (c : dma_func_safety) : Prop :=
  config_wf c /\ shadow_matches r c /\ populated_in_layout osi_dma c.

(** The constants written by [eqos_configure_dma_channel] are
    [unsigned int] values, and the watchdog register of a channel in use
    is not a monitored register. *)
Definition chan_consts_ok `{eqos_dma_h} `{eqos_dma_chan_h}
  (osi_dma : osi_dma_priv_data) : Prop :=
  Forall (fun x => 0 <= x < 2 ^ 32)
         [EQOS_DMA_CHX_INTR_TIE; EQOS_DMA_CHX_INTR_RIE;
          EQOS_DMA_CHX_CTRL_PBLX8; EQOS_DMA_CHX_TX_CTRL_OSF;
          EQOS_DMA_CHX_TX_CTRL_TXPBL_RECOMMENDED; EQOS_DMA_CHX_TX_CTRL_TSE;
          EQOS_DMA_CHX_RX_CTRL_RXPBL_RECOMMENDED] /\
  Forall (fun chan =>
            Forall (fun s => slot_addr s
                             <> base osi_dma + EQOS_DMA_CHX_RX_WDT chan)
                   (slots_of osi_dma)) (used_chans osi_dma).

(** *** A concrete channel configuration

    Bit assignments to run the model: TIE and RIE are bits 0 and 6 of the
    interrupt enable, PBLx8 is bit 16 of the control register, OSF, TSE
    and a transmit burst length of 32 are bits 4, 12 and 21 of the
    transmit control, the receive buffer size is 14 bits wide at bit 1
    and a receive burst length of 12 sits at bit 16 of the receive
    control; the watchdog register is at offset 0x38 of the channel, with
    an 8-bit count and a unit field at bits 17:16. *)
Definition eqos_chan_8ch : eqos_dma_chan_h := {|
  EQOS_DMA_CHX_INTR_TIE := 0x1;
  EQOS_DMA_CHX_INTR_RIE := 0x40;
  EQOS_DMA_CHX_CTRL_PBLX8 := 0x10000;
  EQOS_DMA_CHX_TX_CTRL_OSF := 0x10;
  EQOS_DMA_CHX_TX_CTRL_TXPBL_RECOMMENDED := 0x200000;
  EQOS_DMA_CHX_TX_CTRL_TSE := 0x1000;
  EQOS_DMA_CHX_RBSZ_MASK := 0x7FFE;
  EQOS_DMA_CHX_RBSZ_SHIFT := 1;
  EQOS_DMA_CHX_RX_CTRL_RXPBL_RECOMMENDED := 0xC0000;
  EQOS_DMA_CHX_RX_WDT := fun x => 0x0080 * x + 0x1138;
  EQOS_DMA_CHX_RX_WDT_RWT_MASK := 0xFF;
  EQOS_DMA_CHX_RX_WDT_RWTU_MASK := 0x30000;
  EQOS_DMA_CHX_RX_WDT_RWTU := 512;
  EQOS_DMA_CHX_RX_WDT_RWTU_512_CYCLE := 0x10000;
  EQOS_AXI_CLK_FREQ := 125000000;
  OSI_ONE_MEGA_HZ := 1000000
|}.

(** Receive buffers of 2048 bytes, receive watchdog at 256 microseconds. *)
Definition rx_2k_riwt : osi_dma_rx_data := OsiDmaRxData 2048 OSI_ENABLE 256.

(** Receive buffers of 2048 bytes, no receive watchdog. *)
Definition rx_2k_no_riwt : osi_dma_rx_data :=
  OsiDmaRxData 2048 OSI_DISABLE 0.

End EqosDmaChan.

(** * Properties *)

(** ** Bit-level facts about [unsigned int] masks *)

Section Bits.

Lemma u32_bound (x : Z) : 0 <= u32 x < 2 ^ 32.
Proof. unfold u32. apply Z.mod_pos_bound. lia. Qed.

Lemma u64_bound (x : Z) : 0 <= u64 x < 2 ^ 64.
Proof. unfold u64. apply Z.mod_pos_bound. lia. Qed.

Lemma u64_u32 (x : Z) : u64 (u32 x) = u32 x.
Proof.
  unfold u64. apply Z.mod_small.
  pose proof (u32_bound x). lia.
Qed.

Lemma u32_small (x : Z) : 0 <= x < 2 ^ 32 -> u32 x = x.
Proof. intros Hx. unfold u32. apply Z.mod_small. exact Hx. Qed.

Lemma testbit_u32_not (x i : Z) :
  0 <= i -> Z.testbit (u32_not x) i = xorb (Z.testbit x i) (i <? 32).
Proof.
  intros Hi. unfold u32_not.
  rewrite Z.lxor_spec, Z.testbit_ones_nonneg by lia.
  destruct (Z.ltb_spec i 32); destruct (Z.leb_spec 0 i); try lia; reflexivity.
Qed.

Lemma testbit_above_u32 (x i : Z) :
  0 <= x < 2 ^ 32 -> 32 <= i -> Z.testbit x i = false.
Proof.
  intros Hx Hi.
  rewrite <- (Z.mod_small x (2 ^ 32)) by exact Hx.
  apply Z.mod_pow2_bits_high. lia.
Qed.

Lemma land_zero_bits (a b i : Z) :
  Z.land a b = 0 -> Z.testbit a i && Z.testbit b i = false.
Proof.
  intros Hab. rewrite <- Z.land_spec, Hab. apply Z.bits_0.
Qed.

(** [(a & ~b) & b == 0]. *)
Lemma land_u32_not_clear (a b : Z) :
  0 <= b < 2 ^ 32 -> Z.land (Z.land a (u32_not b)) b = 0.
Proof.
  intros Hb. apply Z.bits_inj'. intros i Hi.
  rewrite !Z.land_spec, testbit_u32_not, Z.bits_0 by exact Hi.
  destruct (Z.ltb_spec i 32) as [Hlt|Hge].
  - destruct (Z.testbit a i), (Z.testbit b i); reflexivity.
  - rewrite (testbit_above_u32 b i Hb Hge).
    rewrite !andb_false_r. reflexivity.
Qed.

(** [(a & ~b) & s == a & s] for a mask [s] that shares no bit with [b]. *)
Lemma land_u32_not_keep (a b s : Z) :
  0 <= s < 2 ^ 32 -> Z.land b s = 0 ->
  Z.land (Z.land a (u32_not b)) s = Z.land a s.
Proof.
  intros Hs Hbs. apply Z.bits_inj'. intros i Hi.
  rewrite !Z.land_spec, testbit_u32_not by exact Hi.
  pose proof (land_zero_bits b s i Hbs) as Hd.
  destruct (Z.ltb_spec i 32) as [Hlt|Hge].
  - destruct (Z.testbit a i), (Z.testbit b i), (Z.testbit s i);
      simpl in *; congruence.
  - rewrite (testbit_above_u32 s i Hs Hge).
    rewrite !andb_false_r. reflexivity.
Qed.

(** [(a | m) & s == s] for a mask [s] inside [m]. *)
Lemma land_lor_set (a m s : Z) :
  Z.land m s = s -> Z.land (Z.lor a m) s = s.
Proof.
  intros Hms. apply Z.bits_inj'. intros i Hi.
  rewrite Z.land_spec, Z.lor_spec.
  assert (Hb : Z.testbit m i && Z.testbit s i = Z.testbit s i)
    by (rewrite <- Z.land_spec, Hms; reflexivity).
  destruct (Z.testbit a i), (Z.testbit m i), (Z.testbit s i);
    simpl in *; congruence.
Qed.

Lemma land_lor_self_l (s t : Z) : Z.land (Z.lor s t) s = s.
Proof.
  apply Z.bits_inj'. intros i Hi.
  rewrite Z.land_spec, Z.lor_spec.
  destruct (Z.testbit s i), (Z.testbit t i); reflexivity.
Qed.

Lemma land_lor_self_r (s t : Z) : Z.land (Z.lor s t) t = t.
Proof. rewrite Z.lor_comm. apply land_lor_self_l. Qed.

(** A mask inside a cleared mask is cleared. *)
Lemma land_zero_sub (c m s : Z) :
  Z.land c m = 0 -> Z.land m s = s -> Z.land c s = 0.
Proof.
  intros Hcm Hms. rewrite <- Hms, Z.land_assoc, Hcm. apply Z.land_0_l.
Qed.

Lemma land_lor_zero (b s t : Z) :
  Z.land b s = 0 -> Z.land b t = 0 -> Z.land (Z.lor s t) b = 0.
Proof.
  intros Hs Ht. rewrite Z.land_comm, Z.land_lor_distr_r, Hs, Ht. reflexivity.
Qed.

Lemma lor_u32_bound (a b : Z) :
  0 <= a < 2 ^ 32 -> 0 <= b < 2 ^ 32 -> 0 <= Z.lor a b < 2 ^ 32.
Proof.
  intros Ha Hb.
  assert (Hm : Z.lor a b = Z.lor a b mod 2 ^ 32).
  { apply Z.bits_inj'. intros i Hi.
    destruct (Z.ltb_spec i 32) as [Hlt|Hge].
    - rewrite Z.mod_pow2_bits_low by lia. reflexivity.
    - rewrite Z.mod_pow2_bits_high by lia.
      rewrite Z.lor_spec, (testbit_above_u32 a i Ha Hge),
        (testbit_above_u32 b i Hb Hge). reflexivity. }
  rewrite Hm. apply Z.mod_pos_bound. lia.
Qed.

End Bits.

(** ** Running programs: inversion of [bind] and of the primitives *)

Section MonadFacts.
Context {A D S : Type} {bus : Bus A D}.

Lemma bind_Some {R R' : Type} (m : M A (machine D S) R)
  (k : R -> M A (machine D S) R') w r' w'' t :
  bind m k w = Some (r', w'', t) ->
  exists r w' t1 t2,
    m w = Some (r, w', t1) /\ k r w' = Some (r', w'', t2) /\ t = t1 ++ t2.
Proof.
  unfold bind. intros Hb.
  destruct (m w) as [[[r w'] t1]|]; [|discriminate].
  destruct (k r w') as [[[r2 w2] t2]|] eqn:Hk; [|discriminate].
  inversion Hb; subst. exists r, w', t1, t2. auto.
Qed.

Lemma osi_readl_Some (a : A) (w w' : machine D S) v t :
  osi_readl a w = Some (v, w', t) ->
  v = u32 (fst (bus_read a (hw w))) /\
  w' = Machine (snd (bus_read a (hw w))) (sw w) /\
  t = [EvRead a v].
Proof.
  unfold osi_readl. destruct (bus_read a (hw w)) as [x d].
  intros Hr. inversion Hr; subst. auto.
Qed.

Lemma osi_readl_total (a : A) (w : machine D S) :
  exists v w', osi_readl a w = Some (v, w', [EvRead a v]).
Proof.
  unfold osi_readl. destruct (bus_read a (hw w)) as [x d]. eauto.
Qed.

Lemma osi_writel_Some (a : A) (v : Z) (w w' : machine D S) u t :
  osi_writel v a w = Some (u, w', t) ->
  w' = Machine (bus_write a v (hw w)) (sw w) /\ t = [EvWrite a v].
Proof. unfold osi_writel. intros Hr. inversion Hr; subst. auto. Qed.

Lemma osd_udelay_Some (n : Z) (w w' : machine D S) u t :
  osd_udelay n w = Some (u, w', t) ->
  w' = Machine (bus_delay n (hw w)) (sw w) /\ t = [EvDelay n].
Proof. unfold osd_udelay. intros Hr. inversion Hr; subst. auto. Qed.

Lemma ret_Some {R : Type} (r r' : R) (w w' : machine D S)
  (t : list (event A)) :
  ret r w = Some (r', w', t) -> r' = r /\ w' = w /\ t = [].
Proof. unfold ret. intros Hr. inversion Hr; subst. auto. Qed.

Lemma count_events_app (p : event A -> bool) (t1 t2 : list (event A)) :
  count_events p (t1 ++ t2) = (count_events p t1 + count_events p t2)%nat.
Proof.
  unfold count_events. rewrite List.filter_app, List.length_app. reflexivity.
Qed.

Lemma count_events_zero (p : event A -> bool) (t : list (event A)) :
  count_events p t = 0%nat <-> (forall e, In e t -> p e = false).
Proof.
  unfold count_events. induction t as [|e t IH]; simpl.
  - split; [intros _ e []|reflexivity].
  - destruct (p e) eqn:Hp; simpl.
    + split; [discriminate|].
      intros Hall. specialize (Hall e (or_introl eq_refl)). congruence.
    + rewrite IH. split.
      * intros Hall x [->|Hx]; auto.
      * intros Hall x Hx. apply Hall. auto.
Qed.

End MonadFacts.

(** ** Statistics accumulator *)

Section AccumulatorFacts.
Import EqosMmc.
Context {D : Type} {bus : Bus core_reg D}.
Variable CNTRST : Z.

(** With a 64-bit [unsigned long] the comparison [temp > ULONG_MAX] of
    [update_mmc_val] is never true: the sum has already been reduced
    modulo [2 ^ 64], so the function returns that reduced sum, reads one
    register, logs nothing and resets nothing. *)
Lemma update_mmc_val_lp64 (last_value : Z) (offset : core_reg)
  (w : machine D osi_mmc_counters) :
  update_mmc_val 64 CNTRST last_value offset w =
  Some (u64 (u64 last_value + u32 (fst (bus_read offset (hw w)))),
        Machine (snd (bus_read offset (hw w))) (sw w),
        [EvRead offset (u32 (fst (bus_read offset (hw w))))]).
Proof.
  unfold update_mmc_val, bind, osi_readl.
  destruct (bus_read offset (hw w)) as [v d]; cbn [fst snd].
  rewrite u64_u32.
  pose proof (u64_bound (u64 last_value + u32 v)) as Hb.
  replace (u64 (u64 last_value + u32 v) >? ULONG_MAX 64) with false.
  - unfold ret, ulong. cbn [app].
    rewrite Z.mod_small by exact Hb. reflexivity.
  - symmetry. rewrite Z.gtb_ltb. apply Z.ltb_ge. unfold ULONG_MAX. lia.
Qed.

(** With a 32-bit [unsigned long] the check does what its comment says:
    a sum inside the range is returned unchanged. *)
Lemma update_mmc_val_ilp32_in_range (last_value : Z) (offset : core_reg)
  (w : machine D osi_mmc_counters) :
  0 <= last_value ->
  last_value + u32 (fst (bus_read offset (hw w))) <= 2 ^ 32 - 1 ->
  update_mmc_val 32 CNTRST last_value offset w =
  Some (last_value + u32 (fst (bus_read offset (hw w))),
        Machine (snd (bus_read offset (hw w))) (sw w),
        [EvRead offset (u32 (fst (bus_read offset (hw w))))]).
Proof.
  intros Hl Hs.
  unfold update_mmc_val, bind, osi_readl.
  destruct (bus_read offset (hw w)) as [v d]; cbn [fst snd] in *.
  rewrite u64_u32.
  pose proof (u32_bound v) as Hv.
  assert (Hlast : u64 last_value = last_value)
    by (unfold u64; apply Z.mod_small; lia).
  rewrite Hlast.
  assert (Hsum : u64 (last_value + u32 v) = last_value + u32 v)
    by (unfold u64; apply Z.mod_small; lia).
  rewrite Hsum.
  replace (last_value + u32 v >? ULONG_MAX 32) with false.
  - unfold ret, ulong. cbn [app].
    rewrite Z.mod_small by lia. reflexivity.
  - symmetry. rewrite Z.gtb_ltb. apply Z.ltb_ge. unfold ULONG_MAX. lia.
Qed.

(** ... and a sum outside the range resets the block: the control
    register is written once with the reset bit, every counter is zeroed
    and 0 is returned. *)
Lemma update_mmc_val_ilp32_overflow (last_value : Z) (offset : core_reg)
  (w : machine D osi_mmc_counters) :
  0 <= last_value < 2 ^ 32 ->
  2 ^ 32 - 1 < last_value + u32 (fst (bus_read offset (hw w))) ->
  exists d ctl_val,
    update_mmc_val 32 CNTRST last_value offset w =
    Some (0, Machine d mmc_zero,
          [EvRead offset (u32 (fst (bus_read offset (hw w))));
           EvLog "Value overflow for offset = 0x%x resetting  all counters"
                 (Some offset);
           EvRead EQOS_MMC_CNTRL ctl_val;
           EvWrite EQOS_MMC_CNTRL (Z.lor ctl_val CNTRST)]).
Proof.
  intros Hl Hs.
  unfold update_mmc_val, bind, osi_readl.
  destruct (bus_read offset (hw w)) as [v d]; cbn [fst snd] in *.
  rewrite u64_u32.
  pose proof (u32_bound v) as Hv.
  assert (Hlast : u64 last_value = last_value)
    by (unfold u64; apply Z.mod_small; lia).
  rewrite Hlast.
  assert (Hsum : u64 (last_value + u32 v) = last_value + u32 v)
    by (unfold u64; apply Z.mod_small; lia).
  rewrite Hsum.
  replace (last_value + u32 v >? ULONG_MAX 32) with true.
  - unfold osd_log, emit, eqos_reset_mmc, bind, osi_readl, osi_writel,
      put_sw, ret. cbn [hw sw].
    destruct (bus_read EQOS_MMC_CNTRL d) as [c d'].
    cbn [hw sw app]. eauto.
  - symmetry. apply Z.gtb_lt. unfold ULONG_MAX. lia.
Qed.

Lemma update_mmc_val_total (LONG_BIT last_value : Z) (offset : core_reg)
  (w : machine D osi_mmc_counters) :
  exists v w' t, update_mmc_val LONG_BIT CNTRST last_value offset w
                 = Some (v, w', t).
Proof.
  unfold update_mmc_val, bind, osi_readl.
  destruct (bus_read offset (hw w)) as [v d].
  destruct (_ >? _).
  - unfold osd_log, emit, eqos_reset_mmc, bind, osi_readl, osi_writel,
      put_sw, ret. cbn [hw sw].
    destruct (bus_read EQOS_MMC_CNTRL d) as [c d']. eauto.
  - unfold ret. eauto.
Qed.

(** [eqos_read_mmc] always returns. *)
Lemma eqos_read_mmc_total (LONG_BIT : Z) (w : machine D osi_mmc_counters) :
  exists w' t, eqos_read_mmc LONG_BIT CNTRST w = Some (tt, w', t).
Proof.
  unfold eqos_read_mmc. revert w.
  induction eqos_read_mmc_body as [|[[d s] r] l IH]; intros w.
  - cbn. unfold ret. eauto.
  - cbn [mmc_statements]. unfold bind at 1.
    assert (Hst : exists w1 t1,
               mmc_statement LONG_BIT CNTRST (d, s, r) w = Some (tt, w1, t1)).
    { unfold mmc_statement, bind, get_sw. cbv beta iota.
      destruct (update_mmc_val_total LONG_BIT (sw w s) r w)
        as (v & w1 & t1 & ->).
      unfold put_sw. eauto. }
    destruct Hst as (w1 & t1 & ->).
    destruct (IH w1) as (w2 & t2 & ->). eauto.
Qed.

(** On a 64-bit target no run of [eqos_read_mmc] logs or writes anything:
    its trace is the 80 counter reads, whatever the counters and the
    registers hold. *)
Lemma mmc_statements_lp64_only_read
  (l : list (mmc_field * mmc_field * core_reg))
  (w : machine D osi_mmc_counters) :
  exists w' t,
    mmc_statements 64 CNTRST l w = Some (tt, w', t) /\
    length t = length l /\
    forall e, In e t -> exists r v, e = EvRead r v.
Proof.
  revert w. induction l as [|[[d s] r] l IH]; intros w.
  - exists w, []. cbn. unfold ret. split; [reflexivity|].
    split; [reflexivity|intros e []].
  - cbn [mmc_statements]. unfold bind at 1.
    unfold mmc_statement. unfold bind at 1, get_sw.
    unfold bind at 1. rewrite update_mmc_val_lp64.
    cbv [bind get_sw put_sw hw sw].
    match goal with
    | |- context [mmc_statements 64 CNTRST l ?w1] =>
        destruct (IH w1) as (w' & t & -> & Hlen & Hall)
    end.
    eexists _, _. split; [reflexivity|]. cbn [app length].
    split; [rewrite Hlen; reflexivity|].
    intros e [<-|He]; [eauto|auto].
Qed.

(** The statements of [eqos_read_mmc]: 80 of them over 80 registers, each
    register read by one statement. *)
Lemma eqos_read_mmc_body_registers :
  length eqos_read_mmc_body = 80%nat /\
  NoDup (map snd eqos_read_mmc_body).
Proof.
  split; [reflexivity|].
  apply (bool_decide_unpack _). vm_compute. exact I.
Qed.

(** One statement takes its previous value from another member than the
    one it assigns. *)
Lemma eqos_read_mmc_body_foreign_source :
  List.filter (fun st => negb (bool_decide (fst (fst st) = snd (fst st))))
              eqos_read_mmc_body
  = [(mmc_tx_carrier_error, mmc_tx_exesscol, MMC_TXCARRIERERROR)].
Proof. vm_compute. reflexivity. Qed.

(** One member is assigned by two statements, from two registers. *)
Lemma eqos_read_mmc_body_double_target :
  List.filter (fun st => bool_decide (fst (fst st) = mmc_rx_udp_gd_octets))
              eqos_read_mmc_body
  = [(mmc_rx_udp_gd_octets, mmc_rx_udp_gd_octets, MMC_RXIPV6_GD_OCTETS);
     (mmc_rx_udp_gd_octets, mmc_rx_udp_gd_octets, MMC_RXUDP_GD_OCTETS)].
Proof. vm_compute. reflexivity. Qed.

End AccumulatorFacts.

(** ** The accumulator on concrete counters *)

Section AccumulatorRuns.
Import EqosMmc.

(** C1.  [update_mmc_val] does not keep a wrapped sum out of the counter
    when [unsigned long] is 64 bits wide: called with the previous total
    [2 ^ 64 - 1] on a register that reads 2, it returns 1, the sum reduced
    modulo [2 ^ 64], which is below the previous total; it logs nothing,
    does not touch the control register and leaves the counters as they
    were. *)
Theorem update_mmc_val_commits_wrapped_sum :
  update_mmc_val 64 1 (octets_max_mmc mmc_tx_octetcount_gb)
                 MMC_TXOCTETCOUNT_GB octets_max_machine
  = Some (1, octets_max_machine, [EvRead MMC_TXOCTETCOUNT_GB 2])
  /\ 1 < octets_max_mmc mmc_tx_octetcount_gb.
Proof.
  split.
  - rewrite update_mmc_val_lp64. reflexivity.
  - vm_compute. reflexivity.
Qed.

(** C2.  One call of [eqos_read_mmc] in which the addition for the
    transmit octet counter exceeds 64 bits: on return that counter holds 1
    (not 0) and the reset bit of the control register was never written. *)
Theorem eqos_read_mmc_overflow_without_reset :
  match eqos_read_mmc 64 1 octets_max_machine with
  | Some (_, m, t) =>
      sw m mmc_tx_octetcount_gb = 1 /\
      count_events (is_counter_reset 1) t = 0%nat /\
      count_events (is_write_of EQOS_MMC_CNTRL) t = 0%nat
  | None => False
  end.
Proof. vm_compute. repeat split. Qed.

(** C3.  One call of [eqos_read_mmc] with every register but the IPv6
    good-octets register reading 0: the carrier-error total, 100 before
    the call, is replaced by the excessive-collision total 5, and the UDP
    good-octets total takes the 7 of the IPv6 good-octets register
    although its own register read 0. *)
Theorem eqos_read_mmc_cross_wired_counters :
  match eqos_read_mmc 64 1 carrier_machine with
  | Some (_, m, t) =>
      sw m mmc_tx_exesscol = 5 /\
      sw m mmc_tx_carrier_error = 5 /\
      sw m mmc_rx_udp_gd_octets = 7 /\
      In (EvRead MMC_TXCARRIERERROR 0) t /\
      In (EvRead MMC_RXUDP_GD_OCTETS 0) t
  | None => False
  end.
Proof.
  vm_compute. repeat split; auto 200.
Qed.

(** Whatever the width of [unsigned long], the carrier-error total is not
    monotonic: with a 32-bit [unsigned long] too, the same call takes it
    from 100 down to 5 without any reset. *)
Lemma eqos_read_mmc_carrier_error_decreases :
  match eqos_read_mmc 32 1 carrier_machine with
  | Some (_, m, t) =>
      sw m mmc_tx_carrier_error = 5 /\
      5 < carrier_mmc mmc_tx_carrier_error /\
      count_events (is_write_of EQOS_MMC_CNTRL) t = 0%nat
  | None => False
  end.
Proof. vm_compute. repeat split. Qed.

End AccumulatorRuns.

(** ** XPCS bring-up *)

Section XpcsFacts.
Import Xpcs.
Context {D : Type} {bus : Bus xpcs_reg D} {hdr : xpcs_h}.

Lemma an_complete_loop_total (fuel : nat) (retry count : Z)
  (w : machine D unit) :
  0 <= count -> retry < 2 ^ 32 - 1 ->
  (Z.to_nat (retry + 1 - count) < fuel)%nat ->
  exists r w' t, an_complete_loop fuel retry count w = Some (r, w', t).
Proof.
  revert count w. induction fuel as [|fuel IH]; intros count w Hc Hr Hf.
  - lia.
  - cbn [an_complete_loop].
    destruct (Z.gtb_spec count retry) as [Hgt|Hle].
    + unfold bind, osd_log, emit, ret. eauto.
    + rewrite u32_small by lia.
      unfold bind at 1, xpcs_read.
      destruct (osi_readl_total XPCS_VR_MII_AN_INTR_STS w) as (v & w1 & ->).
      destruct (_ =? 0).
      * unfold bind at 1, osd_udelay.
        destruct (IH (count + 1) (Machine (bus_delay 1000 (hw w1)) (sw w1)))
          as (r & w2 & t & ->); [lia|lia|lia|].
        eauto.
      * unfold bind, xpcs_write, osi_writel, ret. eauto.
Qed.

Lemma an_never_complete_app (t1 t2 : list (event xpcs_reg)) :
  an_never_complete (t1 ++ t2) <->
  an_never_complete t1 /\ an_never_complete t2.
Proof.
  unfold an_never_complete. split.
  - intros Hall. split; intros v Hv; apply Hall, in_or_app; auto.
  - intros [H1 H2] v Hv. apply in_app_or in Hv as [Hv|Hv]; auto.
Qed.

(** What one run of the AN poll loop does, by the way it leaves. *)
Lemma an_complete_loop_spec (fuel : nat) (retry count : Z)
  (w w' : machine D unit) (r : ctl Z) (t : list (event xpcs_reg)) :
  an_complete_loop fuel retry count w = Some (r, w', t) ->
  0 <= count <= retry + 1 -> retry < 2 ^ 32 - 1 ->
  (forall e, In e t -> touches XPCS_VR_XS_PCS_DIG_CTRL1 e = false) /\
  match r with
  | Returned v =>
      v = -1 /\
      an_never_complete t /\
      count_events (is_read_of XPCS_VR_MII_AN_INTR_STS) t
        = Z.to_nat (retry + 1 - count) /\
      count_events is_delay t = Z.to_nat (retry + 1 - count) /\
      (forall u, In (EvDelay u) t -> u = 1000) /\
      last t = Some (EvLog "XPCS AN completion timed out" None)
  | Fallthrough status =>
      exists t0 v0,
        t = t0 ++ [EvRead XPCS_VR_MII_AN_INTR_STS v0;
                   EvWrite XPCS_VR_MII_AN_INTR_STS status] /\
        status
          = Z.land v0 (u32_not XPCS_VR_MII_AN_INTR_STS_CL37_ANCMPLT_INTR) /\
        Z.land v0 XPCS_VR_MII_AN_INTR_STS_CL37_ANCMPLT_INTR <> 0 /\
        an_never_complete t0
  end.
Proof.
  revert count w w' r t.
  induction fuel as [|fuel IH]; intros count w w' r t Hrun Hc Hr.
  - discriminate.
  - cbn [an_complete_loop] in Hrun.
    destruct (Z.gtb_spec count retry) as [Hgt|Hle].
    + unfold bind, osd_log, emit, ret in Hrun.
      inversion Hrun; subst; clear Hrun. cbn [app].
      split.
      { intros e [<-|[]]. reflexivity. }
      replace (retry + 1 - count) with 0 by lia.
      repeat split.
      * intros v [Hv|[]]. discriminate.
      * intros u [Hu|[]]. discriminate.
    + rewrite u32_small in Hrun by lia.
      apply bind_Some in Hrun as (v & w1 & t1 & t2 & Hrd & Hk & ->).
      apply osi_readl_Some in Hrd as (_ & _ & ->).
      destruct (Z.eqb_spec
                  (Z.land v XPCS_VR_MII_AN_INTR_STS_CL37_ANCMPLT_INTR) 0)
        as [Hclr|Hset].
      * apply bind_Some in Hk as (u & w2 & t3 & t4 & Hd & Hk & ->).
        apply osd_udelay_Some in Hd as (_ & ->).
        apply IH in Hk as [Htouch Hk]; [|lia|lia].
        split.
        { intros e [<-|[<-|He]]; [reflexivity|reflexivity|auto]. }
        destruct r as [x|status].
        -- destruct Hk as (-> & Hnc & Hreads & Hdelays & Hus & Hlast).
           split; [reflexivity|].
           split.
           { intros v' [Hv|[Hv|Hv]].
             - inversion Hv; subst. exact Hclr.
             - discriminate.
             - apply Hnc. exact Hv. }
           split.
           { change ([EvRead XPCS_VR_MII_AN_INTR_STS v] ++ [EvDelay 1000] ++ t4)
               with ([EvRead XPCS_VR_MII_AN_INTR_STS v; EvDelay 1000] ++ t4).
             rewrite count_events_app, Hreads.
             unfold count_events at 1. cbn.
             rewrite bool_decide_eq_true_2 by reflexivity. cbn. lia. }
           split.
           { change ([EvRead XPCS_VR_MII_AN_INTR_STS v] ++ [EvDelay 1000] ++ t4)
               with ([EvRead XPCS_VR_MII_AN_INTR_STS v; EvDelay 1000] ++ t4).
             rewrite count_events_app, Hdelays.
             unfold count_events at 1. cbn. lia. }
           split.
           { intros u' [Hu|[Hu|Hu]].
             - discriminate.
             - inversion Hu; subst. reflexivity.
             - apply Hus. exact Hu. }
           change ([EvRead XPCS_VR_MII_AN_INTR_STS v] ++ [EvDelay 1000] ++ t4)
             with ([EvRead XPCS_VR_MII_AN_INTR_STS v; EvDelay 1000] ++ t4).
           destruct t4 as [|e4 t4]; [discriminate|].
           rewrite last_app. rewrite Hlast. reflexivity.
        -- destruct Hk as (t0 & v0 & -> & -> & Hset & Hnc).
           exists ([EvRead XPCS_VR_MII_AN_INTR_STS v; EvDelay 1000] ++ t0), v0.
           split; [reflexivity|]. split; [reflexivity|]. split; [exact Hset|].
           intros v' [Hv|[Hv|Hv]].
           ++ inversion Hv; subst. exact Hclr.
           ++ discriminate.
           ++ apply Hnc. exact Hv.
      * apply bind_Some in Hk as (u & w2 & t3 & t4 & Hw & Hk & ->).
        apply osi_writel_Some in Hw as (_ & ->).
        apply ret_Some in Hk as (-> & _ & ->).
        split.
        { intros e [<-|[<-|[]]]; reflexivity. }
        exists [], v. cbn [app].
        split; [reflexivity|]. split; [reflexivity|]. split; [exact Hset|].
        intros v' [].
Qed.

(** The rate-adaptor and link-up loops return with enough fuel, can only
    return -1, and never read the AN interrupt status. *)
Lemma usra_rst_loop_total (fuel : nat) (retry count : Z)
  (w : machine D unit) :
  0 <= count -> retry < 2 ^ 32 - 1 ->
  (Z.to_nat (retry + 1 - count) < fuel)%nat ->
  exists r w' t,
    usra_rst_loop fuel retry count w = Some (r, w', t) /\
    (forall e, In e t -> is_read_of XPCS_VR_MII_AN_INTR_STS e = false) /\
    match r with Returned v => v = -1 | Fallthrough _ => True end.
Proof.
  revert count w. induction fuel as [|fuel IH]; intros count w Hc Hr Hf.
  - lia.
  - cbn [usra_rst_loop].
    destruct (Z.gtb_spec count retry) as [Hgt|Hle].
    + unfold ret. exists (Returned (-1)), w, [].
      split; [reflexivity|]. split; [intros e []|reflexivity].
    + rewrite u32_small by lia.
      unfold bind at 1, xpcs_read.
      destruct (osi_readl_total XPCS_VR_XS_PCS_DIG_CTRL1 w) as (v & w1 & ->).
      destruct (_ =? 0).
      * unfold ret.
        exists (Fallthrough tt), w1,
          ([EvRead XPCS_VR_XS_PCS_DIG_CTRL1 v] ++ []).
        split; [reflexivity|]. split; [|exact I].
        intros e [<-|[]]. reflexivity.
      * unfold bind at 1, osd_udelay.
        destruct (IH (count + 1) (Machine (bus_delay 1000 (hw w1)) (sw w1)))
          as (r & w2 & t & -> & Hno & Hret); [lia|lia|lia|].
        exists r, w2,
          ([EvRead XPCS_VR_XS_PCS_DIG_CTRL1 v] ++ [EvDelay 1000] ++ t).
        split; [reflexivity|]. split; [|exact Hret].
        intros e [<-|[<-|He]]; [reflexivity|reflexivity|auto].
Qed.

Lemma rx_link_up_loop_total (fuel : nat) (retry count : Z)
  (w : machine D unit) :
  0 <= count -> retry < 2 ^ 32 - 1 ->
  (Z.to_nat (retry + 1 - count) < fuel)%nat ->
  exists r w' t,
    rx_link_up_loop fuel retry count w = Some (r, w', t) /\
    (forall e, In e t -> is_read_of XPCS_VR_MII_AN_INTR_STS e = false) /\
    match r with Returned v => v = -1 | Fallthrough _ => True end.
Proof.
  revert count w. induction fuel as [|fuel IH]; intros count w Hc Hr Hf.
  - lia.
  - cbn [rx_link_up_loop].
    destruct (Z.gtb_spec count retry) as [Hgt|Hle].
    + unfold ret. exists (Returned (-1)), w, [].
      split; [reflexivity|]. split; [intros e []|reflexivity].
    + rewrite u32_small by lia.
      unfold bind at 1, xpcs_read.
      destruct (osi_readl_total XPCS_SR_XS_PCS_STS1 w) as (v & w1 & ->).
      destruct (_ =? _).
      * unfold ret.
        exists (Fallthrough tt), w1, ([EvRead XPCS_SR_XS_PCS_STS1 v] ++ []).
        split; [reflexivity|]. split; [|exact I].
        intros e [<-|[]]. reflexivity.
      * unfold bind at 1, osd_udelay.
        destruct (IH (count + 1) (Machine (bus_delay 1000 (hw w1)) (sw w1)))
          as (r & w2 & t & -> & Hno & Hret); [lia|lia|lia|].
        exists r, w2, ([EvRead XPCS_SR_XS_PCS_STS1 v] ++ [EvDelay 1000] ++ t).
        split; [reflexivity|]. split; [|exact Hret].
        intros e [<-|[<-|He]]; [reflexivity|reflexivity|auto].
Qed.

(** [xpcs_set_speed] reads the control register once and writes it once,
    with the value chosen by the [switch]. *)
Lemma xpcs_set_speed_run (status : Z) (w : machine D unit) :
  exists c w',
    xpcs_set_speed status w =
    Some (tt, w',
          [EvRead XPCS_SR_MII_CTRL c;
           EvWrite XPCS_SR_MII_CTRL
             (speed_select (Z.land status XPCS_USXG_AN_STS_SPEED_MASK) c)]).
Proof.
  unfold xpcs_set_speed, bind, xpcs_read, xpcs_write.
  destruct (osi_readl_total XPCS_SR_MII_CTRL w) as (c & w1 & ->).
  unfold osi_writel. cbn [app]. eauto.
Qed.

(** The shape of every run of [xpcs_start]: the AN enable, the AN poll
    loop, and what follows it. *)
Lemma xpcs_start_run (fuel : nat) (w : machine D unit) :
  (poll_fuel <= fuel)%nat ->
  exists r w' c w2 rp wp tp ta,
    xpcs_start fuel w =
    Some (r, w',
          [EvRead XPCS_SR_MII_CTRL c;
           EvWrite XPCS_SR_MII_CTRL (Z.lor c XPCS_SR_MII_CTRL_AN_ENABLE)]
          ++ tp ++ ta) /\
    an_complete_loop fuel 1000 0 w2 = Some (rp, wp, tp) /\
    match rp with
    | Returned _ => r = -1 /\ ta = []
    | Fallthrough status =>
        if Z.land status XPCS_USXG_AN_STS_SPEED_MASK =? 0 then
          r = -1 /\ ta = [EvLog "XPCS AN completed with zero speed" None]
        else
          forall e, In e ta -> is_read_of XPCS_VR_MII_AN_INTR_STS e = false
    end.
Proof.
  intros Hf. unfold poll_fuel in Hf.
  destruct (osi_readl_total XPCS_SR_MII_CTRL w) as (c & w1 & Hrd).
  set (w2 := Machine (bus_write XPCS_SR_MII_CTRL
                        (Z.lor c XPCS_SR_MII_CTRL_AN_ENABLE) (hw w1)) (sw w1)).
  destruct (an_complete_loop_total fuel 1000 0 w2) as (rp & wp & tp & Hloop);
    [lia|lia|lia|].
  pose proof (an_complete_loop_spec fuel 1000 0 w2 wp rp tp Hloop
                ltac:(lia) ltac:(lia)) as [_ Hspec].
  unfold xpcs_start.
  unfold bind at 1, xpcs_read. rewrite Hrd.
  unfold bind at 1, xpcs_write, osi_writel. fold w2.
  unfold bind at 1, xpcs_poll_for_an_complete.
  unfold bind at 1. rewrite Hloop.
  destruct rp as [v|status].
  - destruct Hspec as (-> & _).
    unfold ret. cbn [Z.ltb Z.compare].
    exists (-1), wp, c, w2, (Returned (-1)), wp, tp, [].
    split; [|split; [exact Hloop|split; reflexivity]].
    cbn [app]. rewrite !app_nil_r. reflexivity.
  - destruct (Z.land status XPCS_USXG_AN_STS_SPEED_MASK =? 0) eqn:Hsp.
    + unfold bind, osd_log, emit, ret. cbn [Z.ltb Z.compare].
      exists (-1), wp, c, w2, (Fallthrough status), wp, tp,
        [EvLog "XPCS AN completed with zero speed" None].
      split; [|split; [exact Hloop|rewrite Hsp; split; reflexivity]].
      cbn [app]. rewrite !app_nil_r. reflexivity.
    + unfold ret at 1. cbn [Z.ltb Z.compare].
      destruct (xpcs_set_speed_run status wp) as (c1 & w3 & Hss).
      unfold bind at 1. rewrite Hss.
      destruct (osi_readl_total XPCS_VR_XS_PCS_DIG_CTRL1 w3)
        as (c2 & w4 & Hrd2).
      unfold bind at 1. rewrite Hrd2.
      unfold bind at 1.
      set (w5 := Machine (bus_write XPCS_VR_XS_PCS_DIG_CTRL1
                   (Z.lor c2 XPCS_VR_XS_PCS_DIG_CTRL1_USRA_RST) (hw w4))
                   (sw w4)).
      destruct (usra_rst_loop_total fuel 1000 0 w5)
        as (r1 & w6 & t1 & Hl1 & Hno1 & Hret1); [lia|lia|lia|].
      unfold bind at 1. rewrite Hl1.
      rewrite (app_nil_r tp).
      destruct r1 as [v1|[]].
      * subst v1. unfold ret. cbn [app]. rewrite !app_nil_r.
        eexists _, _, c, w2, _, wp, tp, _.
        split; [reflexivity|]. split; [exact Hloop|]. cbv beta iota.
        rewrite Hsp. intros e He.
        repeat (destruct He as [<-|He]; [reflexivity|]).
        auto.
      * destruct (rx_link_up_loop_total fuel 1000 0 w6)
          as (r2 & w7 & t2 & Hl2 & Hno2 & Hret2); [lia|lia|lia|].
        unfold bind at 1. rewrite Hl2.
        assert (Hfin : exists r,
                   match r2 with
                   | Returned v => ret v
                   | Fallthrough _ => ret 0
                   end w7 = Some (r, w7, @nil (event xpcs_reg))).
        { destruct r2; unfold ret; eauto. }
        destruct Hfin as (r & ->).
        cbn [app]. rewrite !app_nil_r.
        eexists _, _, c, w2, _, wp, tp, _.
        split; [reflexivity|]. split; [exact Hloop|]. cbv beta iota.
        rewrite Hsp. intros e He.
        repeat (destruct He as [<-|He]; [reflexivity|]).
        apply in_app_or in He as [He|He]; auto.
Qed.

(** The three arms of the [switch] of [xpcs_set_speed]. *)
Lemma speed_select_2500 (c : Z) :
  ss_masks_ok ->
  ss_pattern (speed_select XPCS_USXG_AN_STS_SPEED_2500 c)
  = (XPCS_SR_MII_CTRL_SS5, 0, 0).
Proof.
  intros (H5 & H6 & H13 & H56 & H513 & H613).
  unfold speed_select, ss_pattern. rewrite Z.eqb_refl.
  assert (Hb : 0 <= Z.lor XPCS_SR_MII_CTRL_SS6 XPCS_SR_MII_CTRL_SS13 < 2 ^ 32)
    by (apply lor_u32_bound; lia).
  pose proof (land_u32_not_clear (Z.lor c XPCS_SR_MII_CTRL_SS5) _ Hb) as Hclr.
  f_equal; [f_equal|].
  - rewrite land_u32_not_keep; [|lia|apply land_lor_zero; assumption].
    apply land_lor_set, Z.land_diag.
  - eapply land_zero_sub; [exact Hclr|apply land_lor_self_l].
  - eapply land_zero_sub; [exact Hclr|apply land_lor_self_r].
Qed.

Lemma speed_select_5000 (c : Z) :
  ss_masks_ok -> speed_labels_distinct ->
  ss_pattern (speed_select XPCS_USXG_AN_STS_SPEED_5000 c)
  = (XPCS_SR_MII_CTRL_SS5, 0, XPCS_SR_MII_CTRL_SS13).
Proof.
  intros (H5 & H6 & H13 & H56 & H513 & H613) (Hd1 & Hd2 & Hd3).
  unfold speed_select, ss_pattern.
  rewrite (proj2 (Z.eqb_neq _ _)) by congruence. rewrite Z.eqb_refl.
  f_equal; [f_equal|].
  - rewrite land_u32_not_keep; [|lia|rewrite Z.land_comm; assumption].
    apply land_lor_set, land_lor_self_l.
  - apply land_u32_not_clear. lia.
  - rewrite land_u32_not_keep; [|lia|assumption].
    apply land_lor_set, land_lor_self_r.
Qed.

Lemma speed_select_default (speed c : Z) :
  ss_masks_ok ->
  speed <> XPCS_USXG_AN_STS_SPEED_2500 ->
  speed <> XPCS_USXG_AN_STS_SPEED_5000 ->
  ss_pattern (speed_select speed c)
  = (0, XPCS_SR_MII_CTRL_SS6, XPCS_SR_MII_CTRL_SS13).
Proof.
  intros (H5 & H6 & H13 & H56 & H513 & H613) Hn1 Hn2.
  unfold speed_select, ss_pattern.
  rewrite !(proj2 (Z.eqb_neq _ _)) by assumption.
  f_equal; [f_equal|].
  - apply land_u32_not_clear. lia.
  - rewrite land_u32_not_keep; [|lia|assumption].
    apply land_lor_set, land_lor_self_l.
  - rewrite land_u32_not_keep; [|lia|assumption].
    apply land_lor_set, land_lor_self_r.
Qed.

Lemma an_never_completeb_sound (t : list (event xpcs_reg)) :
  an_never_completeb t = true -> an_never_complete t.
Proof.
  unfold an_never_completeb, an_never_complete.
  rewrite forallb_forall. intros Hall v Hv.
  specialize (Hall _ Hv). cbn in Hall. apply Z.eqb_eq. exact Hall.
Qed.

(** C5.  A run of [xpcs_start] in which every read of the AN interrupt
    status has the AN-complete bit clear returns -1 after the message
    that AN completion timed out, and has by then read the status
    register 1001 times, the first poll and the 1000 retries, each read
    followed by a delay of 1000 microseconds: the loop gives up when
    [count > retry], not when [count >= retry]. *)
Theorem xpcs_start_an_timeout_after_1001_polls (fuel : nat)
  (w : machine D unit) :
  (poll_fuel <= fuel)%nat ->
  exists r w' t,
    xpcs_start fuel w = Some (r, w', t) /\
    (an_never_complete t ->
     r = -1 /\
     count_events (is_read_of XPCS_VR_MII_AN_INTR_STS) t = 1001%nat /\
     count_events is_delay t = 1001%nat /\
     (forall u, In (EvDelay u) t -> u = 1000) /\
     last t = Some (EvLog "XPCS AN completion timed out" None)).
Proof.
  intros Hf.
  destruct (xpcs_start_run fuel w Hf)
    as (r & w' & c & w2 & rp & wp & tp & ta & Hrun & Hloop & Hcase).
  exists r, w', ([EvRead XPCS_SR_MII_CTRL c;
                  EvWrite XPCS_SR_MII_CTRL
                    (Z.lor c XPCS_SR_MII_CTRL_AN_ENABLE)] ++ tp ++ ta).
  split; [exact Hrun|]. intros Hnc.
  apply an_never_complete_app in Hnc as [_ Hnc].
  apply an_never_complete_app in Hnc as [Hnc _].
  pose proof (an_complete_loop_spec fuel 1000 0 w2 wp rp tp Hloop
                ltac:(lia) ltac:(lia)) as [_ Hspec].
  destruct rp as [v|status].
  - destruct Hcase as [-> ->].
    destruct Hspec as (_ & _ & Hreads & Hdelays & Hus & Hlast).
    rewrite app_nil_r.
    split; [reflexivity|].
    rewrite !count_events_app, Hreads, Hdelays.
    split; [reflexivity|]. split; [reflexivity|]. split.
    + intros u [Hu|[Hu|Hu]]; [discriminate|discriminate|auto].
    + rewrite last_app, Hlast. reflexivity.
  - destruct Hspec as (t0 & v0 & -> & _ & Hset & _).
    exfalso. apply Hset, Hnc, in_or_app. right. left. reflexivity.
Qed.

(** C6.  A run of [xpcs_start] in which a read of the AN interrupt status
    has the AN-complete bit set and, once that bit is cleared, a zero
    speed field returns -1 with the message that AN completed with zero
    speed as its last event, and neither reads nor writes the register
    that holds the rate-adaptor reset bit. *)
Theorem xpcs_start_zero_speed_skips_rate_adaptor (fuel : nat)
  (w : machine D unit) :
  (poll_fuel <= fuel)%nat ->
  exists r w' t,
    xpcs_start fuel w = Some (r, w', t) /\
    (forall v,
       In (EvRead XPCS_VR_MII_AN_INTR_STS v) t ->
       Z.land v XPCS_VR_MII_AN_INTR_STS_CL37_ANCMPLT_INTR <> 0 ->
       Z.land (Z.land v (u32_not XPCS_VR_MII_AN_INTR_STS_CL37_ANCMPLT_INTR))
              XPCS_USXG_AN_STS_SPEED_MASK = 0 ->
       r = -1 /\
       last t = Some (EvLog "XPCS AN completed with zero speed" None) /\
       count_events (touches XPCS_VR_XS_PCS_DIG_CTRL1) t = 0%nat).
Proof.
  intros Hf.
  destruct (xpcs_start_run fuel w Hf)
    as (r & w' & c & w2 & rp & wp & tp & ta & Hrun & Hloop & Hcase).
  exists r, w', ([EvRead XPCS_SR_MII_CTRL c;
                  EvWrite XPCS_SR_MII_CTRL
                    (Z.lor c XPCS_SR_MII_CTRL_AN_ENABLE)] ++ tp ++ ta).
  split; [exact Hrun|]. intros v Hin Hset Hzero.
  pose proof (an_complete_loop_spec fuel 1000 0 w2 wp rp tp Hloop
                ltac:(lia) ltac:(lia)) as [Htouch Hspec].
  destruct Hin as [Hin|[Hin|Hin]]; [discriminate|discriminate|].
  cbn [app] in Hin.
  destruct rp as [x|status].
  - destruct Hcase as [-> ->]. rewrite app_nil_r in Hin.
    destruct Hspec as (_ & Hnc & _). exfalso. apply Hset, Hnc, Hin.
  - destruct Hspec as (t0 & v0 & -> & -> & Hset0 & Hnc).
    destruct (Z.eqb_spec
                (Z.land (Z.land v0
                   (u32_not XPCS_VR_MII_AN_INTR_STS_CL37_ANCMPLT_INTR))
                   XPCS_USXG_AN_STS_SPEED_MASK) 0) as [Hz|Hnz].
    + destruct Hcase as [-> ->].
      split; [reflexivity|]. split.
      * rewrite !last_app. reflexivity.
      * apply count_events_zero. intros e He.
        destruct He as [<-|[<-|He]]; [reflexivity|reflexivity|].
        cbn [app] in He. apply in_app_or in He. destruct He as [He|He].
        -- apply Htouch, He.
        -- destruct He as [<-|[]]. reflexivity.
    + exfalso. apply Hnz.
      assert (Hv : v = v0).
      { apply in_app_or in Hin as [Hin|Hin].
        - apply in_app_or in Hin as [Hin|[Hin|[Hin|[]]]].
          + exfalso. apply Hset, Hnc, Hin.
          + inversion Hin. reflexivity.
          + discriminate.
        - specialize (Hcase _ Hin). cbn in Hcase.
          rewrite bool_decide_eq_true_2 in Hcase by reflexivity.
          discriminate. }
      subst v0. exact Hzero.
Qed.

(** C7.  For three status words that carry the 2.5G, the 5G and the 10G
    encoding, [xpcs_set_speed] writes control values whose speed-select
    bits are (SS5, -, -), (SS5, -, SS13) and (-, SS6, SS13): three
    different patterns. *)
Theorem xpcs_set_speed_patterns_distinct (s2500 s5000 s10000 : Z)
  (w1 w2 w3 : machine D unit) :
  ss_masks_ok -> speed_labels_distinct ->
  Z.land s2500 XPCS_USXG_AN_STS_SPEED_MASK = XPCS_USXG_AN_STS_SPEED_2500 ->
  Z.land s5000 XPCS_USXG_AN_STS_SPEED_MASK = XPCS_USXG_AN_STS_SPEED_5000 ->
  Z.land s10000 XPCS_USXG_AN_STS_SPEED_MASK = XPCS_USXG_AN_STS_SPEED_10000 ->
  exists c2500 c5000 c10000,
    (exists c w', xpcs_set_speed s2500 w1 =
       Some (tt, w', [EvRead XPCS_SR_MII_CTRL c;
                      EvWrite XPCS_SR_MII_CTRL c2500])) /\
    (exists c w', xpcs_set_speed s5000 w2 =
       Some (tt, w', [EvRead XPCS_SR_MII_CTRL c;
                      EvWrite XPCS_SR_MII_CTRL c5000])) /\
    (exists c w', xpcs_set_speed s10000 w3 =
       Some (tt, w', [EvRead XPCS_SR_MII_CTRL c;
                      EvWrite XPCS_SR_MII_CTRL c10000])) /\
    ss_pattern c2500 = (XPCS_SR_MII_CTRL_SS5, 0, 0) /\
    ss_pattern c5000 = (XPCS_SR_MII_CTRL_SS5, 0, XPCS_SR_MII_CTRL_SS13) /\
    ss_pattern c10000 = (0, XPCS_SR_MII_CTRL_SS6, XPCS_SR_MII_CTRL_SS13) /\
    ss_pattern c2500 <> ss_pattern c5000 /\
    ss_pattern c2500 <> ss_pattern c10000 /\
    ss_pattern c5000 <> ss_pattern c10000.
Proof.
  intros Hok Hd E1 E2 E3.
  destruct (xpcs_set_speed_run s2500 w1) as (c1 & w1' & R1).
  destruct (xpcs_set_speed_run s5000 w2) as (c2 & w2' & R2).
  destruct (xpcs_set_speed_run s10000 w3) as (c3 & w3' & R3).
  rewrite E1 in R1. rewrite E2 in R2. rewrite E3 in R3.
  pose proof (speed_select_2500 c1 Hok) as P1.
  pose proof (speed_select_5000 c2 Hok Hd) as P2.
  assert (P3 : ss_pattern (speed_select XPCS_USXG_AN_STS_SPEED_10000 c3)
               = (0, XPCS_SR_MII_CTRL_SS6, XPCS_SR_MII_CTRL_SS13)).
  { destruct Hd as (Hd1 & Hd2 & Hd3).
    apply speed_select_default; [exact Hok|congruence|congruence]. }
  exists (speed_select XPCS_USXG_AN_STS_SPEED_2500 c1),
         (speed_select XPCS_USXG_AN_STS_SPEED_5000 c2),
         (speed_select XPCS_USXG_AN_STS_SPEED_10000 c3).
  destruct Hok as (H5 & H6 & H13 & _).
  repeat split; eauto.
  - rewrite P1, P2. intros Heq. inversion Heq. lia.
  - rewrite P1, P3. intros Heq. inversion Heq. lia.
  - rewrite P2, P3. intros Heq. inversion Heq. lia.
Qed.

(** C10.  For a status word whose speed field is neither the 2.5G nor the
    5G encoding, whatever else it is, [xpcs_set_speed] writes the control
    register with SS6 and SS13 set and SS5 clear; there is no encoding for
    which it returns without that write. *)
Theorem xpcs_set_speed_other_encodings_program_10g (status : Z)
  (w : machine D unit) :
  ss_masks_ok ->
  Z.land status XPCS_USXG_AN_STS_SPEED_MASK <> XPCS_USXG_AN_STS_SPEED_2500 ->
  Z.land status XPCS_USXG_AN_STS_SPEED_MASK <> XPCS_USXG_AN_STS_SPEED_5000 ->
  exists c c' w',
    xpcs_set_speed status w =
    Some (tt, w', [EvRead XPCS_SR_MII_CTRL c; EvWrite XPCS_SR_MII_CTRL c']) /\
    Z.land c' XPCS_SR_MII_CTRL_SS6 = XPCS_SR_MII_CTRL_SS6 /\
    Z.land c' XPCS_SR_MII_CTRL_SS13 = XPCS_SR_MII_CTRL_SS13 /\
    Z.land c' XPCS_SR_MII_CTRL_SS5 = 0.
Proof.
  intros Hok Hn1 Hn2.
  destruct (xpcs_set_speed_run status w) as (c & w' & Hrun).
  pose proof (speed_select_default _ c Hok Hn1 Hn2) as Hp.
  unfold ss_pattern in Hp. inversion Hp as [[Hp5 Hp6 Hp13]].
  exists c, (speed_select (Z.land status XPCS_USXG_AN_STS_SPEED_MASK) c), w'.
  rewrite Hp5, Hp6, Hp13. auto.
Qed.

End XpcsFacts.

(** ** XPCS bring-up on the concrete XPCS *)

Section XpcsRuns.
Import Xpcs.
Local Existing Instance dwc_xpcs_h.

Lemma dwc_ss_masks_ok : ss_masks_ok.
Proof. unfold ss_masks_ok. cbn. repeat split; lia. Qed.

Lemma dwc_speed_labels_distinct : speed_labels_distinct.
Proof. unfold speed_labels_distinct. cbn. repeat split; discriminate. Qed.

(** A complete bring-up: autonegotiation done at 10G on the first poll,
    rate adaptor out of reset and link up on the first poll each. *)
Example xpcs_start_link_up :
  xpcs_start poll_fuel (Machine link_up_regs tt)
  = Some (0, Machine link_up_regs tt,
          [EvRead XPCS_SR_MII_CTRL 0; EvWrite XPCS_SR_MII_CTRL 0x1000;
           EvRead XPCS_VR_MII_AN_INTR_STS 0xC01;
           EvWrite XPCS_VR_MII_AN_INTR_STS 0xC00;
           EvRead XPCS_SR_MII_CTRL 0; EvWrite XPCS_SR_MII_CTRL 0x2040;
           EvRead XPCS_VR_XS_PCS_DIG_CTRL1 0;
           EvWrite XPCS_VR_XS_PCS_DIG_CTRL1 0x400;
           EvRead XPCS_VR_XS_PCS_DIG_CTRL1 0;
           EvRead XPCS_SR_XS_PCS_STS1 0x4]).
Proof. vm_compute. reflexivity. Qed.

(** On the silent link partner every read of the AN interrupt status has
    the AN-complete bit clear and the run returns -1, but it has polled,
    and slept, 1001 times, not 1000. *)
Lemma xpcs_start_timeout_not_at_1000_polls :
  match xpcs_start poll_fuel (Machine silent_regs tt) with
  | Some (r, _, t) =>
      an_never_completeb t = true /\
      r = -1 /\
      count_events (is_read_of XPCS_VR_MII_AN_INTR_STS) t = 1001%nat /\
      count_events (is_read_of XPCS_VR_MII_AN_INTR_STS) t <> 1000%nat /\
      count_events is_delay t <> 1000%nat
  | None => False
  end.
Proof.
  assert (Hrun :
    match xpcs_start poll_fuel (Machine silent_regs tt) with
    | Some (r, _, t) =>
        an_never_completeb t = true /\
        r = -1 /\
        count_events (is_read_of XPCS_VR_MII_AN_INTR_STS) t = 1001%nat /\
        count_events is_delay t = 1001%nat
    | None => False
    end).
  { vm_compute. repeat split. }
  destruct (xpcs_start poll_fuel (Machine silent_regs tt))
    as [[[r w'] t]|]; [|exact Hrun].
  destruct Hrun as (Hb & Hr & Hreads & Hdelays).
  rewrite Hreads, Hdelays. repeat split; auto; lia.
Qed.

Lemma xpcs_start_an_timeout_after_1001_polls_witness :
  exists w' t,
    xpcs_start poll_fuel (Machine silent_regs tt) = Some (-1, w', t) /\
    an_never_complete t /\
    count_events (is_read_of XPCS_VR_MII_AN_INTR_STS) t = 1001%nat.
Proof.
  destruct (xpcs_start_an_timeout_after_1001_polls poll_fuel
              (Machine silent_regs tt) (le_n poll_fuel))
    as (r & w' & t & Hrun & Himp).
  assert (Hb : match xpcs_start poll_fuel (Machine silent_regs tt) with
               | Some (_, _, t) => an_never_completeb t
               | None => false
               end = true) by (vm_compute; reflexivity).
  rewrite Hrun in Hb. apply an_never_completeb_sound in Hb.
  destruct (Himp Hb) as (-> & Hreads & _).
  exists w', t. auto.
Defined.

Lemma xpcs_start_zero_speed_skips_rate_adaptor_witness :
  exists w' t,
    xpcs_start poll_fuel (Machine zero_speed_regs tt) = Some (-1, w', t) /\
    In (EvRead XPCS_VR_MII_AN_INTR_STS 1) t /\
    count_events (touches XPCS_VR_XS_PCS_DIG_CTRL1) t = 0%nat.
Proof.
  destruct (xpcs_start_zero_speed_skips_rate_adaptor poll_fuel
              (Machine zero_speed_regs tt) (le_n poll_fuel))
    as (r & w' & t & Hrun & Himp).
  assert (Hb : match xpcs_start poll_fuel (Machine zero_speed_regs tt) with
               | Some (_, _, t) =>
                   existsb (fun e =>
                     match e with
                     | EvRead XPCS_VR_MII_AN_INTR_STS v => v =? 1
                     | _ => false
                     end) t
               | None => false
               end = true) by (vm_compute; reflexivity).
  rewrite Hrun in Hb. apply existsb_exists in Hb as (e & He & Hv).
  destruct e as [[] v| | |]; try discriminate.
  apply Z.eqb_eq in Hv. subst v.
  destruct (Himp 1 He) as (-> & _ & Hcount).
  - cbn. discriminate.
  - reflexivity.
  - exists w', t. auto.
Defined.

Lemma xpcs_set_speed_patterns_distinct_witness :
  exists c2500 c5000 c10000,
    ss_pattern c2500 = (0x20, 0, 0) /\
    ss_pattern c5000 = (0x20, 0, 0x2000) /\
    ss_pattern c10000 = (0, 0x40, 0x2000).
Proof.
  destruct (xpcs_set_speed_patterns_distinct 0x1001 0x1401 0xC01
              (Machine silent_regs tt) (Machine silent_regs tt)
              (Machine silent_regs tt)
              dwc_ss_masks_ok dwc_speed_labels_distinct
              eq_refl eq_refl eq_refl)
    as (c1 & c2 & c3 & _ & _ & _ & P1 & P2 & P3 & _).
  exists c1, c2, c3. auto.
Defined.

(** The reserved encoding 0x1C00 is programmed as 10G. *)
Lemma xpcs_set_speed_other_encodings_program_10g_witness :
  exists c c' w',
    xpcs_set_speed 0x1C01 (Machine silent_regs tt) =
    Some (tt, w', [EvRead XPCS_SR_MII_CTRL c; EvWrite XPCS_SR_MII_CTRL c']) /\
    Z.land c' 0x40 = 0x40 /\ Z.land c' 0x2000 = 0x2000 /\ Z.land c' 0x20 = 0.
Proof.
  apply (xpcs_set_speed_other_encodings_program_10g 0x1C01
           (Machine silent_regs tt) dwc_ss_masks_ok).
  - cbn. discriminate.
  - cbn. discriminate.
Defined.

End XpcsRuns.

(** ** DMA safety shadow and slot scheduling *)

Section DmaFacts.
Import EqosDma.
Context {D : Type} {bus : Bus Z D} {hdr : eqos_dma_h}.

Lemma array_get_Some (a : list Z) (i x : Z) (w : machine D dma_func_safety) :
  0 <= i -> a !! Z.to_nat i = Some x ->
  array_get a i w = Some (x, w, []).
Proof.
  intros Hi Hx. unfold array_get.
  rewrite (proj2 (Z.ltb_ge i 0)) by lia. rewrite Hx. reflexivity.
Qed.

Lemma array_set_Some (a : list Z) (i x : Z) (w : machine D dma_func_safety) :
  0 <= i -> (Z.to_nat i < length a)%nat ->
  array_set a i x w = Some (<[Z.to_nat i := x]> a, w, []).
Proof.
  intros Hi Hl. unfold array_set.
  rewrite (proj2 (Z.ltb_ge i 0)) by lia.
  rewrite (proj2 (Z.leb_gt _ _)) by lia. reflexivity.
Qed.

(** A table whose slots are all unpopulated is walked without a single
    register access. *)
Lemma validate_loop_unpopulated (n : nat) (i : Z)
  (w : machine D dma_func_safety) :
  0 <= i ->
  (Z.to_nat i + n <= length (reg_addr (sw w)))%nat ->
  unpopulated_from (Z.to_nat i) (sw w) ->
  validate_loop n i w = Some (Fallthrough tt, w, []).
Proof.
  revert i. induction n as [|n IH]; intros i Hi Hlen Hun.
  - reflexivity.
  - cbn [validate_loop].
    destruct (lookup_lt_is_Some_2 (reg_addr (sw w)) (Z.to_nat i)) as [a Ha];
      [lia|].
    assert (a = OSI_NULL) by (eapply Hun; [reflexivity|exact Ha]). subst a.
    unfold bind at 1, get_sw. unfold bind at 1.
    rewrite (array_get_Some _ _ _ _ Hi Ha).
    cbn [Z.eqb OSI_NULL].
    rewrite IH.
    + reflexivity.
    + lia.
    + lia.
    + intros j a Hj. apply Hun. lia.
Qed.

(** [eqos_validate_dma_regs] on a table without a populated slot:
    success, no register access, table and device untouched. *)
Lemma eqos_validate_dma_regs_unpopulated (d : D) (c : dma_func_safety) :
  0 <= EQOS_DMA_CH0_CTRL_IDX <= EQOS_MAX_DMA_SAFETY_REGS ->
  config_wf c ->
  unpopulated_from (Z.to_nat EQOS_DMA_CH0_CTRL_IDX) c ->
  eqos_validate_dma_regs (Machine d c) = Some (0, Machine d c, []).
Proof.
  intros Hidx (Hla & Hlm & Hlv & Hlock) Hun.
  unfold eqos_validate_dma_regs.
  unfold bind at 1, osi_lock_irq_enabled.
  unfold bind at 1, get_sw. cbn [sw]. rewrite Hlock.
  unfold put_sw. cbn [hw sw].
  unfold bind at 1. rewrite validate_loop_unpopulated.
  - cbv [bind osi_unlock_irq_enabled get_sw put_sw ret hw sw].
    cbn [app]. destruct c as [a m v l]. cbn in Hlock. subst l. reflexivity.
  - lia.
  - cbn [sw reg_addr set_lock]. unfold safety_regs_count. lia.
  - exact Hun.
Qed.

(** [clear_addr_loop] stores [OSI_NULL] in [n] slots from [i] on and
    changes nothing else. *)
Lemma clear_addr_loop_run (n : nat) (i : Z) (d : D) (c : dma_func_safety) :
  0 <= i -> (Z.to_nat i + n <= length (reg_addr c))%nat ->
  exists addrs,
    clear_addr_loop n i (Machine d c)
    = Some (tt, Machine d (DmaFuncSafety addrs (reg_mask c) (reg_val c)
                             (dma_safety_lock c)), []) /\
    length addrs = length (reg_addr c) /\
    (forall j a, (Z.to_nat i <= j)%nat -> (j < Z.to_nat i + n)%nat ->
                 addrs !! j = Some a -> a = OSI_NULL) /\
    (forall j, (j < Z.to_nat i)%nat \/ (Z.to_nat i + n <= j)%nat ->
               addrs !! j = reg_addr c !! j).
Proof.
  revert i c. induction n as [|n IH]; intros i c Hi Hlen.
  - exists (reg_addr c). cbn [clear_addr_loop]. unfold ret.
    destruct c as [a m v l]. cbn.
    split; [reflexivity|]. split; [reflexivity|]. split; [lia|auto].
  - cbn [clear_addr_loop].
    unfold bind at 1, set_reg_addr. unfold bind at 1, get_sw. cbn [sw].
    unfold bind at 1. rewrite array_set_Some by lia.
    unfold put_sw. cbn [hw sw].
    set (c1 := DmaFuncSafety (<[Z.to_nat i := OSI_NULL]> (reg_addr c))
                 (reg_mask c) (reg_val c) (dma_safety_lock c)).
    destruct (IH (i + 1) c1) as (addrs & Hrun & Hl & Hnull & Hrest).
    + lia.
    + cbn [reg_addr c1]. rewrite length_insert. lia.
    + rewrite Hrun. exists addrs. cbn [reg_mask reg_val dma_safety_lock c1 app].
      split; [reflexivity|].
      cbn [reg_addr c1] in Hl, Hrest. rewrite length_insert in Hl.
      split; [exact Hl|]. split.
      * intros j a Hj1 Hj2 Ha.
        destruct (Nat.eq_dec j (Z.to_nat i)) as [->|Hne].
        -- rewrite Hrest in Ha by lia.
           rewrite list_lookup_insert_eq in Ha by lia. congruence.
        -- apply (Hnull j a); [lia|lia|exact Ha].
      * intros j Hj. rewrite Hrest by lia.
        apply list_lookup_insert_ne. lia.
Qed.

(** On a table without a populated slot, the seeding loop of
    [eqos_dma_safety_init] reads no register and stores nothing. *)
Lemma seed_loop_unpopulated (n : nat) (i : Z)
  (w : machine D dma_func_safety) :
  0 <= i ->
  (Z.to_nat i + n <= length (reg_addr (sw w)))%nat ->
  unpopulated_from (Z.to_nat i) (sw w) ->
  seed_loop n i w = Some (tt, w, []).
Proof.
  revert i. induction n as [|n IH]; intros i Hi Hlen Hun.
  - reflexivity.
  - cbn [seed_loop].
    destruct (lookup_lt_is_Some_2 (reg_addr (sw w)) (Z.to_nat i)) as [a Ha];
      [lia|].
    assert (a = OSI_NULL) by (eapply Hun; [reflexivity|exact Ha]). subst a.
    unfold bind at 1, get_sw. unfold bind at 1.
    rewrite (array_get_Some _ _ _ _ Hi Ha).
    cbn [Z.eqb OSI_NULL].
    rewrite IH.
    + reflexivity.
    + lia.
    + lia.
    + intros j a Hj. apply Hun. lia.
Qed.

(** With no DMA channel in use, [eqos_dma_safety_init] leaves a table
    without a populated slot, and the lock free. *)
Lemma eqos_dma_safety_init_no_channels (osi_dma : osi_dma_priv_data)
  (d : D) (c : dma_func_safety) :
  0 <= EQOS_DMA_CH0_CTRL_IDX <= EQOS_MAX_DMA_SAFETY_REGS ->
  length (reg_addr c) = Z.to_nat EQOS_MAX_DMA_SAFETY_REGS ->
  length (reg_mask c) = Z.to_nat EQOS_MAX_DMA_SAFETY_REGS ->
  length (reg_val c) = Z.to_nat EQOS_MAX_DMA_SAFETY_REGS ->
  num_dma_chans osi_dma = 0 ->
  exists c',
    eqos_dma_safety_init osi_dma (Machine d c) = Some (tt, Machine d c', [])
    /\ config_wf c'
    /\ unpopulated_from (Z.to_nat EQOS_DMA_CH0_CTRL_IDX) c'.
Proof.
  intros Hidx Hla Hlm Hlv Hn.
  destruct (clear_addr_loop_run safety_regs_count EQOS_DMA_CH0_CTRL_IDX d c)
    as (addrs & Hrun & Hl & Hnull & _).
  - lia.
  - unfold safety_regs_count. lia.
  - set (c1 := DmaFuncSafety addrs (reg_mask c) (reg_val c)
                 (dma_safety_lock c)) in *.
    assert (Hun : unpopulated_from (Z.to_nat EQOS_DMA_CH0_CTRL_IDX) c1).
    { intros j a Hj Ha. cbn [reg_addr c1] in Ha.
      apply (Hnull j a); [exact Hj| |exact Ha].
      apply lookup_lt_Some in Ha. unfold safety_regs_count. lia. }
    exists (set_lock false c1).
    unfold eqos_dma_safety_init.
    unfold bind at 1. rewrite Hrun.
    rewrite Hn. change (Z.to_nat 0) with 0%nat. cbn [populate_loop].
    unfold bind at 1, ret at 1.
    unfold bind at 1. rewrite seed_loop_unpopulated.
    + split.
      * cbv [osi_lock_init bind get_sw put_sw hw sw]. reflexivity.
      * split.
        -- unfold config_wf. cbn [reg_addr reg_mask reg_val dma_safety_lock
                                 set_lock c1].
           repeat split; congruence.
        -- exact Hun.
    + lia.
    + cbn [sw reg_addr c1]. unfold safety_regs_count. lia.
    + exact Hun.
Qed.

(** [eqos_config_slot] with [set] other than [OSI_ENABLE]: one read of the
    slot-control register and one write of the value read with the ESC
    bit cleared. *)
Lemma eqos_config_slot_disable_run (osi_dma : osi_dma_priv_data)
  (chan set interval : Z) (w : machine D dma_func_safety) :
  set <> OSI_ENABLE ->
  exists value w',
    eqos_config_slot osi_dma chan set interval w =
    Some (tt, w',
          [EvRead (base osi_dma + EQOS_DMA_CHX_SLOT_CTRL chan) value;
           EvWrite (base osi_dma + EQOS_DMA_CHX_SLOT_CTRL chan)
                   (Z.land value (u32_not EQOS_DMA_CHX_SLOT_ESC))]) /\
    sw w' = sw w /\ 0 <= value < 2 ^ 32.
Proof.
  intros Hset. unfold eqos_config_slot.
  rewrite (proj2 (Z.eqb_neq set OSI_ENABLE) Hset).
  unfold bind, osi_readl, osi_writel.
  destruct (bus_read (base osi_dma + EQOS_DMA_CHX_SLOT_CTRL chan) (hw w))
    as [x d].
  cbn [hw sw app]. eexists _, _. split; [reflexivity|].
  split; [reflexivity|apply u32_bound].
Qed.

End DmaFacts.

(** ** The validator on registers that hold their values *)

Section DmaRegfileFacts.
Import EqosDma.
Context {hdr : eqos_dma_h}.

Lemma set_lock_false_true (c : dma_func_safety) :
  dma_safety_lock c = false -> set_lock false (set_lock true c) = c.
Proof. destruct c as [a m v l]. cbn. intros ->. reflexivity. Qed.

Lemma shadow_matches_from_S (lo : nat) (r : regfile Z) (c : dma_func_safety) :
  shadow_matches_from lo r c -> shadow_matches_from (S lo) r c.
Proof.
  intros Hm i a m v Hi. apply Hm. lia.
Qed.

Lemma shadow_matches_from_step (lo : nat) (r : regfile Z)
  (c : dma_func_safety) (a m v : Z) :
  reg_addr c !! lo = Some a -> reg_mask c !! lo = Some m ->
  reg_val c !! lo = Some v ->
  (a <> OSI_NULL -> Z.land (u32 (reg_get r a)) m = v) ->
  shadow_matches_from (S lo) r c ->
  shadow_matches_from lo r c.
Proof.
  intros Ha Hm Hv Hok Hrest i a' m' v' Hi Ha' Hm' Hv' Hnn.
  destruct (Nat.eq_dec i lo) as [->|Hne].
  - rewrite Ha in Ha'. rewrite Hm in Hm'. rewrite Hv in Hv'.
    inversion Ha'; inversion Hm'; inversion Hv'; subst. auto.
  - apply (Hrest i a' m' v'); auto. lia.
Qed.

(** One iteration of the loop of [eqos_validate_dma_regs] on registers
    that hold their values: an unpopulated slot, a slot that matches, a
    slot that does not. *)
Lemma validate_loop_skip (n : nat) (i : Z) (r : regfile Z)
  (c : dma_func_safety) res w' t :
  0 <= i -> reg_addr c !! Z.to_nat i = Some OSI_NULL ->
  validate_loop n (i + 1) (Machine r c) = Some (res, w', t) ->
  validate_loop (S n) i (Machine r c) = Some (res, w', t).
Proof.
  intros Hi Ha Hrun. cbn [validate_loop].
  unfold bind at 1, get_sw. cbn [sw].
  unfold bind at 1. rewrite (array_get_Some _ _ _ _ Hi Ha).
  cbn [Z.eqb OSI_NULL]. rewrite Hrun. reflexivity.
Qed.

Lemma validate_loop_match (n : nat) (i : Z) (r : regfile Z)
  (c : dma_func_safety) (a m v : Z) res w' t :
  0 <= i ->
  reg_addr c !! Z.to_nat i = Some a -> reg_mask c !! Z.to_nat i = Some m ->
  reg_val c !! Z.to_nat i = Some v ->
  a <> OSI_NULL -> Z.land (u32 (reg_get r a)) m = v ->
  validate_loop n (i + 1) (Machine r c) = Some (res, w', t) ->
  validate_loop (S n) i (Machine r c)
  = Some (res, w', EvRead a (u32 (reg_get r a)) :: t).
Proof.
  intros Hi Ha Hm Hv Hpop Heq Hrun. cbn [validate_loop].
  unfold bind at 1, get_sw. cbn [sw].
  unfold bind at 1. rewrite (array_get_Some _ _ _ _ Hi Ha).
  rewrite (proj2 (Z.eqb_neq a OSI_NULL) Hpop).
  unfold bind at 1, osi_readl. cbn [bus_read regfile_bus hw sw].
  unfold bind at 1. rewrite (array_get_Some _ _ _ _ Hi Hm).
  unfold bind at 1. rewrite (array_get_Some _ _ _ _ Hi Hv).
  rewrite (proj2 (Z.eqb_eq _ _) Heq). rewrite Hrun. reflexivity.
Qed.

Lemma validate_loop_mismatch (n : nat) (i : Z) (r : regfile Z)
  (c : dma_func_safety) (a m v : Z) :
  0 <= i ->
  reg_addr c !! Z.to_nat i = Some a -> reg_mask c !! Z.to_nat i = Some m ->
  reg_val c !! Z.to_nat i = Some v ->
  a <> OSI_NULL -> Z.land (u32 (reg_get r a)) m <> v ->
  validate_loop (S n) i (Machine r c)
  = Some (Returned (-1), Machine r (set_lock false c),
          [EvRead a (u32 (reg_get r a))]).
Proof.
  intros Hi Ha Hm Hv Hpop Hne. cbn [validate_loop].
  unfold bind at 1, get_sw. cbn [sw].
  unfold bind at 1. rewrite (array_get_Some _ _ _ _ Hi Ha).
  rewrite (proj2 (Z.eqb_neq a OSI_NULL) Hpop).
  unfold bind at 1, osi_readl. cbn [bus_read regfile_bus hw sw].
  unfold bind at 1. rewrite (array_get_Some _ _ _ _ Hi Hm).
  unfold bind at 1. rewrite (array_get_Some _ _ _ _ Hi Hv).
  rewrite (proj2 (Z.eqb_neq _ _) Hne). reflexivity.
Qed.

(** The whole loop: it falls through when every populated slot from [i]
    on matches, and returns -1 with the lock released when one does
    not. *)
Lemma validate_loop_regfile (n : nat) (i : Z) (r : regfile Z)
  (c : dma_func_safety) :
  0 <= i ->
  (Z.to_nat i + n = length (reg_addr c))%nat ->
  length (reg_mask c) = length (reg_addr c) ->
  length (reg_val c) = length (reg_addr c) ->
  exists t,
    (forall e, In e t -> populated_read r c e) /\
    ((shadow_matches_from (Z.to_nat i) r c /\
      validate_loop n i (Machine r c)
      = Some (Fallthrough tt, Machine r c, t))
     \/
     (~ shadow_matches_from (Z.to_nat i) r c /\
      validate_loop n i (Machine r c)
      = Some (Returned (-1), Machine r (set_lock false c), t))).
Proof.
  revert i. induction n as [|n IH]; intros i Hi Hlen Hlm Hlv.
  - exists []. split; [intros e []|]. left. split; [|reflexivity].
    intros j a m v Hj Ha. apply lookup_lt_Some in Ha. lia.
  - destruct (lookup_lt_is_Some_2 (reg_addr c) (Z.to_nat i)) as [a Ha];
      [lia|].
    destruct (lookup_lt_is_Some_2 (reg_mask c) (Z.to_nat i)) as [m Hm];
      [lia|].
    destruct (lookup_lt_is_Some_2 (reg_val c) (Z.to_nat i)) as [v Hv];
      [lia|].
    assert (Hnext : Z.to_nat (i + 1) = S (Z.to_nat i)) by lia.
    destruct (Z.eq_dec a OSI_NULL) as [Hnull|Hpop].
    + subst a.
      destruct (IH (i + 1)) as [t [Hreads [[Hrest Hrun]|[Hrest Hrun]]]];
        [lia|lia|exact Hlm|exact Hlv| |]; rewrite Hnext in Hrest;
        exists t; (split; [exact Hreads|]); [left|right]; split.
      * eapply shadow_matches_from_step; eauto. congruence.
      * apply validate_loop_skip; assumption.
      * intros Hall. apply Hrest, shadow_matches_from_S, Hall.
      * apply validate_loop_skip; assumption.
    + assert (Hthis : populated_read r c (EvRead a (u32 (reg_get r a))))
        by (exists (Z.to_nat i), a; auto).
      destruct (Z.eq_dec (Z.land (u32 (reg_get r a)) m) v) as [Heq|Hne].
      * destruct (IH (i + 1)) as [t [Hreads [[Hrest Hrun]|[Hrest Hrun]]]];
          [lia|lia|exact Hlm|exact Hlv| |]; rewrite Hnext in Hrest;
          exists (EvRead a (u32 (reg_get r a)) :: t);
          (split; [intros e [<-|He]; auto|]); [left|right]; split.
        -- eapply shadow_matches_from_step; eauto.
        -- eapply validate_loop_match; eassumption.
        -- intros Hall. apply Hrest, shadow_matches_from_S, Hall.
        -- eapply validate_loop_match; eassumption.
      * exists [EvRead a (u32 (reg_get r a))].
        split; [intros e [<-|[]]; exact Hthis|].
        right. split.
        -- intros Hall. apply Hne.
           apply (Hall (Z.to_nat i) a m v); auto.
        -- eapply validate_loop_mismatch; eassumption.
Qed.

(** [eqos_validate_dma_regs] around its loop: the lock is taken before
    and is free after, on both ways out. *)
Lemma eqos_validate_dma_regs_run (r : regfile Z) (c c' : dma_func_safety)
  (res : ctl unit) (t : list (event Z)) :
  dma_safety_lock c = false ->
  validate_loop safety_regs_count EQOS_DMA_CH0_CTRL_IDX
                (Machine r (set_lock true c))
  = Some (res, Machine r c', t) ->
  eqos_validate_dma_regs (Machine r c)
  = Some (match res with Returned v => v | Fallthrough _ => 0 end,
          Machine r (match res with
                     | Returned _ => c'
                     | Fallthrough _ => set_lock false c'
                     end), t).
Proof.
  intros Hlock Hrun. unfold eqos_validate_dma_regs.
  unfold bind at 1, osi_lock_irq_enabled.
  unfold bind at 1, get_sw. cbn [sw]. rewrite Hlock.
  unfold put_sw. cbn [hw sw].
  unfold bind at 1. rewrite Hrun.
  destruct res as [v|[]].
  - cbv [ret]. cbn [app]. rewrite app_nil_r. reflexivity.
  - cbv [bind osi_unlock_irq_enabled get_sw put_sw ret hw sw].
    cbn [app]. rewrite !app_nil_r. reflexivity.
Qed.

(** [eqos_validate_dma_regs] on registers that hold their values: 0 when
    every populated slot matches, -1 otherwise; the registers and the
    table are as before and the lock is free again. *)
Lemma eqos_validate_dma_regs_regfile (r : regfile Z) (c : dma_func_safety) :
  0 <= EQOS_DMA_CH0_CTRL_IDX <= EQOS_MAX_DMA_SAFETY_REGS ->
  config_wf c ->
  exists t,
    (forall e, In e t -> populated_read r c e) /\
    ((shadow_matches r c /\
      eqos_validate_dma_regs (Machine r c) = Some (0, Machine r c, t))
     \/
     (~ shadow_matches r c /\
      eqos_validate_dma_regs (Machine r c) = Some (-1, Machine r c, t))).
Proof.
  intros Hidx (Hla & Hlm & Hlv & Hlock).
  unfold shadow_matches.
  destruct (validate_loop_regfile safety_regs_count EQOS_DMA_CH0_CTRL_IDX
              r (set_lock true c)) as [t [Hreads [[Hall Hrun]|[Hall Hrun]]]].
  - lia.
  - cbn [reg_addr set_lock]. unfold safety_regs_count. lia.
  - cbn [reg_addr reg_mask set_lock]. lia.
  - cbn [reg_addr reg_val set_lock]. lia.
  - exists t. split; [exact Hreads|]. left. split; [exact Hall|].
    rewrite (eqos_validate_dma_regs_run r c _ _ _ Hlock Hrun).
    rewrite (set_lock_false_true c Hlock). reflexivity.
  - exists t. split; [exact Hreads|]. right. split; [exact Hall|].
    rewrite (eqos_validate_dma_regs_run r c _ _ _ Hlock Hrun).
    rewrite (set_lock_false_true c Hlock). reflexivity.
Qed.

(** [eqos_dma_safety_writel]: the register write, the masked value stored
    in the slot, the lock free again. *)
Lemma eqos_dma_safety_writel_run (r : regfile Z) (c : dma_func_safety)
  (val addr idx m : Z) :
  config_wf c ->
  0 <= idx < EQOS_MAX_DMA_SAFETY_REGS ->
  reg_mask c !! Z.to_nat idx = Some m ->
  eqos_dma_safety_writel val addr idx (Machine r c)
  = Some (tt,
          Machine (reg_set addr (u32 val) r)
                  (DmaFuncSafety (reg_addr c) (reg_mask c)
                     (<[Z.to_nat idx := Z.land val m]> (reg_val c)) false),
          [EvWrite addr val]).
Proof.
  intros (Hla & Hlm & Hlv & Hlock) Hidx Hm.
  unfold eqos_dma_safety_writel.
  unfold bind at 1, osi_lock_irq_enabled.
  unfold bind at 1, get_sw. cbn [sw]. rewrite Hlock.
  unfold put_sw. cbn [hw sw].
  unfold bind at 1, osi_writel. cbn [hw sw bus_write regfile_bus].
  unfold bind at 1, get_sw. cbn [sw reg_mask set_lock].
  unfold bind at 1. rewrite array_get_Some with (x := m); [|lia|exact Hm].
  unfold bind at 1, set_reg_val.
  unfold bind at 1, get_sw. cbn [sw reg_val set_lock].
  unfold bind at 1. rewrite array_set_Some by lia.
  cbv [put_sw osi_unlock_irq_enabled bind get_sw hw sw set_lock
       reg_addr reg_mask reg_val dma_safety_lock].
  reflexivity.
Qed.

End DmaRegfileFacts.

(** ** Safety shadow and slot scheduling: main results *)

Section DmaResults.
Import EqosDma.
Context {D : Type} {bus : Bus Z D} {hdr : eqos_dma_h}.

(** C4.  On registers that hold their values, for a populated slot whose
    register no other populated slot shares and with every other
    populated slot matching its shadow: a write of [v] through
    [eqos_dma_safety_writel] followed by [eqos_validate_dma_regs] returns
    0; a write of [v] straight to the register followed by
    [eqos_validate_dma_regs] returns -1 exactly when [v], masked, differs
    from the shadow value of the slot, and 0 otherwise. *)
Theorem safety_write_validates_and_direct_write_is_caught_by_value
  (r : regfile Z) (c : dma_func_safety) (idx a m vs v : Z) :
  0 <= EQOS_DMA_CH0_CTRL_IDX <= EQOS_MAX_DMA_SAFETY_REGS ->
  config_wf c ->
  EQOS_DMA_CH0_CTRL_IDX <= idx < EQOS_MAX_DMA_SAFETY_REGS ->
  reg_addr c !! Z.to_nat idx = Some a ->
  reg_mask c !! Z.to_nat idx = Some m ->
  reg_val c !! Z.to_nat idx = Some vs ->
  a <> OSI_NULL ->
  0 <= v < 2 ^ 32 ->
  (forall (j : nat) (aj mj vj : Z),
     (Z.to_nat EQOS_DMA_CH0_CTRL_IDX <= j)%nat -> j <> Z.to_nat idx ->
     reg_addr c !! j = Some aj -> reg_mask c !! j = Some mj ->
     reg_val c !! j = Some vj -> aj <> OSI_NULL ->
     aj <> a /\ Z.land (u32 (reg_get r aj)) mj = vj) ->
  (exists t,
     and_then (eqos_dma_safety_writel v a idx) eqos_validate_dma_regs
              (Machine r c) = Some (0, t)) /\
  (exists res t,
     and_then (osi_writel v a) eqos_validate_dma_regs (Machine r c)
     = Some (res, t) /\
     (res = 0 \/ res = -1) /\
     (res = -1 <-> Z.land v m <> vs)).
Proof.
  intros Hhdr Hwf Hidx Ha Hm Hvs Hpop Hv Hother.
  pose proof Hwf as (Hla & Hlm & Hlv & Hlock).
  assert (Hread : forall x, reg_get (reg_set a (u32 v) r) x
                            = if decide (x = a) then v else reg_get r x).
  { intros x. cbn. rewrite (u32_small v Hv). reflexivity. }
  split.
  - unfold and_then.
    rewrite (eqos_dma_safety_writel_run r c v a idx m Hwf ltac:(lia) Hm).
    set (c1 := DmaFuncSafety (reg_addr c) (reg_mask c)
                 (<[Z.to_nat idx := Z.land v m]> (reg_val c)) false).
    assert (Hwf1 : config_wf c1).
    { unfold config_wf. cbn [c1 reg_addr reg_mask reg_val dma_safety_lock].
      rewrite length_insert. auto. }
    destruct (eqos_validate_dma_regs_regfile (reg_set a (u32 v) r) c1
                Hhdr Hwf1) as [t [_ [[_ ->]|[Hbad _]]]].
    + exists t. reflexivity.
    + exfalso. apply Hbad. intros j aj mj vj Hj Haj Hmj Hvj Hnn.
      cbn [c1 reg_addr reg_mask reg_val] in Haj, Hmj, Hvj.
      rewrite Hread.
      destruct (Nat.eq_dec j (Z.to_nat idx)) as [->|Hne].
      * rewrite list_lookup_insert_eq in Hvj by lia.
        rewrite Ha in Haj. rewrite Hm in Hmj.
        inversion Haj; inversion Hmj; inversion Hvj; subst.
        rewrite decide_True by reflexivity.
        rewrite (u32_small v Hv). reflexivity.
      * rewrite list_lookup_insert_ne in Hvj by congruence.
        destruct (Hother j aj mj vj Hj Hne Haj Hmj Hvj Hnn) as [Hna Hok].
        rewrite decide_False by exact Hna. exact Hok.
  - unfold and_then, osi_writel. cbn [hw sw bus_write regfile_bus].
    assert (Hiff : shadow_matches (reg_set a (u32 v) r) c
                   <-> Z.land v m = vs).
    { split.
      - intros Hall.
        specialize (Hall (Z.to_nat idx) a m vs ltac:(lia) Ha Hm Hvs Hpop).
        rewrite Hread, decide_True, (u32_small v Hv) in Hall by reflexivity.
        exact Hall.
      - intros Heq j aj mj vj Hj Haj Hmj Hvj Hnn. rewrite Hread.
        destruct (Nat.eq_dec j (Z.to_nat idx)) as [->|Hne].
        + rewrite Ha in Haj. rewrite Hm in Hmj. rewrite Hvs in Hvj.
          inversion Haj; inversion Hmj; inversion Hvj; subst.
          rewrite decide_True by reflexivity.
          rewrite (u32_small v Hv). reflexivity.
        + destruct (Hother j aj mj vj Hj Hne Haj Hmj Hvj Hnn) as [Hna Hok].
          rewrite decide_False by exact Hna. exact Hok. }
    destruct (eqos_validate_dma_regs_regfile (reg_set a (u32 v) r) c
                Hhdr Hwf) as [t [_ [[Hall ->]|[Hbad ->]]]].
    + exists 0, t. split; [reflexivity|]. split; [left; reflexivity|].
      split; [discriminate|]. intros Hne. exfalso. apply Hne, Hiff, Hall.
    + exists (-1), t. split; [reflexivity|]. split; [right; reflexivity|].
      split; [|reflexivity]. intros _ Heq. apply Hbad, Hiff, Heq.
Qed.

(** C8.  [eqos_config_slot] with [set] other than [OSI_ENABLE], for any
    channel and any interval: the value written to the slot-control
    register is the value read with the ESC bit cleared, so its
    slot-interval field and every other bit outside ESC are as read; the
    safety shadow is not touched. *)
Theorem eqos_config_slot_disable_keeps_interval
  (osi_dma : osi_dma_priv_data) (chan set interval : Z)
  (w : machine D dma_func_safety) :
  set <> OSI_ENABLE ->
  0 <= EQOS_DMA_CHX_SLOT_ESC < 2 ^ 32 ->
  Z.land EQOS_DMA_CHX_SLOT_ESC slot_siv_field = 0 ->
  exists value value' w',
    eqos_config_slot osi_dma chan set interval w =
    Some (tt, w',
          [EvRead (base osi_dma + EQOS_DMA_CHX_SLOT_CTRL chan) value;
           EvWrite (base osi_dma + EQOS_DMA_CHX_SLOT_CTRL chan) value']) /\
    sw w' = sw w /\
    Z.land value' slot_siv_field = Z.land value slot_siv_field /\
    Z.land value' EQOS_DMA_CHX_SLOT_ESC = 0 /\
    Z.land value' (u32_not EQOS_DMA_CHX_SLOT_ESC)
    = Z.land value (u32_not EQOS_DMA_CHX_SLOT_ESC).
Proof.
  intros Hset Hesc Hdisj.
  destruct (eqos_config_slot_disable_run osi_dma chan set interval w Hset)
    as (value & w' & Hrun & Hsw & Hval).
  exists value, (Z.land value (u32_not EQOS_DMA_CHX_SLOT_ESC)), w'.
  split; [exact Hrun|]. split; [exact Hsw|]. split; [|split].
  - apply land_u32_not_keep; [|exact Hdisj].
    unfold slot_siv_field, u32_shl. apply u32_bound.
  - apply land_u32_not_clear. exact Hesc.
  - rewrite <- Z.land_assoc, Z.land_diag. reflexivity.
Qed.

(** C9.  [eqos_validate_dma_regs] on a table without a populated slot
    returns 0 and accesses no register, on any device; on registers that
    hold their values it reads registers of populated slots only and
    returns 0 or -1, 0 exactly when every populated slot matches its
    shadow, slots with a null address putting no condition. *)
Theorem eqos_validate_dma_regs_skips_unpopulated (d : D) (r : regfile Z)
  (c : dma_func_safety) :
  0 <= EQOS_DMA_CH0_CTRL_IDX <= EQOS_MAX_DMA_SAFETY_REGS ->
  config_wf c ->
  (unpopulated_from (Z.to_nat EQOS_DMA_CH0_CTRL_IDX) c ->
   eqos_validate_dma_regs (Machine d c) = Some (0, Machine d c, [])) /\
  (exists res t,
     eqos_validate_dma_regs (Machine r c) = Some (res, Machine r c, t) /\
     (forall e, In e t -> populated_read r c e) /\
     (res = 0 \/ res = -1) /\
     (res = 0 <-> shadow_matches r c)).
Proof.
  intros Hhdr Hwf. split.
  - apply eqos_validate_dma_regs_unpopulated; assumption.
  - destruct (eqos_validate_dma_regs_regfile r c Hhdr Hwf)
      as [t [Hreads [[Hall Hrun]|[Hbad Hrun]]]].
    + exists 0, t. split; [exact Hrun|]. split; [exact Hreads|].
      split; [left; reflexivity|]. split; auto.
    + exists (-1), t. split; [exact Hrun|]. split; [exact Hreads|].
      split; [right; reflexivity|].
      split; [discriminate|]. intros Hall. exfalso. apply Hbad, Hall.
Qed.

End DmaResults.

(** ** The DMA block on concrete registers *)

Section DmaRuns.
Import EqosDma.
Local Existing Instance eqos_dma_8ch.

Lemma eqos_dma_8ch_bounds :
  0 <= EQOS_DMA_CH0_CTRL_IDX <= EQOS_MAX_DMA_SAFETY_REGS.
Proof. cbn. lia. Qed.

Lemma two_chan_config_wf : config_wf two_chan_config.
Proof. unfold config_wf. cbn. auto. Qed.

Lemma blank_config_wf : config_wf blank_config.
Proof. unfold config_wf. cbn. auto. Qed.

Lemma blank_config_unpopulated : unpopulated_from 0 blank_config.
Proof.
  intros i a _ Ha. cbn [reg_addr blank_config] in Ha.
  apply lookup_replicate in Ha as [-> _]. reflexivity.
Qed.

(** The table built by [eqos_dma_safety_init] is the one above, and it
    validates. *)
Example init_then_validate :
  and_then (eqos_dma_safety_init two_chan_dma) eqos_validate_dma_regs
           (Machine zero_regs blank_config)
  = Some (0, [EvRead 0x2491100 0; EvRead 0x2491180 0;
              EvRead 0x2491104 0; EvRead 0x2491184 0;
              EvRead 0x2491108 0; EvRead 0x2491188 0;
              EvRead 0x249112C 0; EvRead 0x24911AC 0;
              EvRead 0x2491130 0; EvRead 0x24911B0 0;
              EvRead 0x2491134 0; EvRead 0x24911B4 0]).
Proof. vm_compute. reflexivity. Qed.

(** With no channel in use the table built by [eqos_dma_safety_init]
    validates without a register access. *)
Example init_no_channels_then_validate :
  and_then (eqos_dma_safety_init no_chan_dma) eqos_validate_dma_regs
           (Machine zero_regs blank_config)
  = Some (0, []).
Proof. vm_compute. reflexivity. Qed.

(** On the table of channels 0 and 1: straight writes to the monitored
    control register of channel 0 that rewrite the value it holds, or
    change only a bit outside the mask [0x11D3FFF] of the slot, are
    followed by a validation that returns 0; and a write through
    [eqos_dma_safety_writel] to that register is followed by a validation
    that returns -1 when the control register of channel 1 was changed
    before it. *)
Lemma direct_write_unnoticed_and_stale_slot_noticed :
  (exists t, and_then (osi_writel 0 0x2491100) eqos_validate_dma_regs
                      (Machine zero_regs two_chan_config) = Some (0, t))
  /\ (exists t, and_then (osi_writel 0x2000000 0x2491100)
                         eqos_validate_dma_regs
                         (Machine zero_regs two_chan_config) = Some (0, t))
  /\ (exists t, and_then (eqos_dma_safety_writel 0x1 0x2491100 0)
                         eqos_validate_dma_regs
                         (Machine (reg_set 0x2491180 0x1 zero_regs)
                                  two_chan_config) = Some (-1, t)).
Proof.
  split; [eexists; vm_compute; reflexivity|].
  split; eexists; vm_compute; reflexivity.
Qed.

Lemma eqos_config_slot_disable_keeps_interval_witness :
  exists value value' w',
    eqos_config_slot two_chan_dma 0 OSI_DISABLE 0x7
                     (Machine (reg_set 0x249113C 0x2341 zero_regs)
                              two_chan_config)
    = Some (tt, w', [EvRead 0x249113C value; EvWrite 0x249113C value']) /\
    Z.land value' 0xFFF0 = Z.land value 0xFFF0 /\
    Z.land value' 0x1 = 0.
Proof.
  destruct (eqos_config_slot_disable_keeps_interval two_chan_dma 0
              OSI_DISABLE 0x7
              (Machine (reg_set 0x249113C 0x2341 zero_regs) two_chan_config))
    as (value & value' & w' & Hrun & _ & Hfield & Hesc & _).
  - discriminate.
  - cbn. lia.
  - reflexivity.
  - exists value, value', w'. auto.
Defined.

Lemma eqos_validate_dma_regs_skips_unpopulated_witness :
  eqos_validate_dma_regs (Machine zero_regs blank_config)
  = Some (0, Machine zero_regs blank_config, []) /\
  exists res t,
    eqos_validate_dma_regs (Machine zero_regs two_chan_config)
    = Some (res, Machine zero_regs two_chan_config, t) /\
    (res = 0 <-> shadow_matches zero_regs two_chan_config).
Proof.
  split.
  - apply (eqos_validate_dma_regs_skips_unpopulated zero_regs zero_regs
             blank_config eqos_dma_8ch_bounds blank_config_wf).
    exact blank_config_unpopulated.
  - destruct (eqos_validate_dma_regs_skips_unpopulated zero_regs zero_regs
                two_chan_config eqos_dma_8ch_bounds two_chan_config_wf)
      as (_ & res & t & Hrun & _ & _ & Hiff).
    exists res, t. auto.
Defined.

(** In the table of channels 0 and 1 on registers that read 0, every
    populated slot but slot 0 has a register of its own and matches. *)
Lemma two_chan_config_other_slots (j : nat) (aj mj vj : Z) :
  (Z.to_nat EQOS_DMA_CH0_CTRL_IDX <= j)%nat -> j <> Z.to_nat 0 ->
  reg_addr two_chan_config !! j = Some aj ->
  reg_mask two_chan_config !! j = Some mj ->
  reg_val two_chan_config !! j = Some vj ->
  aj <> OSI_NULL ->
  aj <> 0x2491100 /\ Z.land (u32 (reg_get zero_regs aj)) mj = vj.
Proof.
  intros _ Hne Haj Hmj Hvj Hnn.
  destruct j as [|j]; [exfalso; apply Hne; reflexivity|].
  do 47 (destruct j as [|j];
         [cbn in Haj, Hmj, Hvj;
          inversion Haj; inversion Hmj; inversion Hvj; subst;
          first [ exfalso; apply Hnn; reflexivity
                | split; [discriminate|reflexivity] ]|]).
  cbn in Haj. discriminate.
Qed.

Lemma safety_write_validates_and_direct_write_is_caught_by_value_witness :
  (exists t,
     and_then (eqos_dma_safety_writel 0x1 0x2491100 0) eqos_validate_dma_regs
              (Machine zero_regs two_chan_config) = Some (0, t)) /\
  (exists t,
     and_then (osi_writel 0x1 0x2491100) eqos_validate_dma_regs
              (Machine zero_regs two_chan_config) = Some (-1, t)).
Proof.
  destruct (safety_write_validates_and_direct_write_is_caught_by_value
              zero_regs two_chan_config 0 0x2491100 0x11D3FFF 0 0x1)
    as (Hsafe & res & t & Hrun & _ & Hiff).
  - exact eqos_dma_8ch_bounds.
  - exact two_chan_config_wf.
  - cbn. lia.
  - reflexivity.
  - reflexivity.
  - reflexivity.
  - discriminate.
  - lia.
  - exact two_chan_config_other_slots.
  - split; [exact Hsafe|].
    exists t. rewrite Hrun. f_equal. f_equal.
    apply Hiff. discriminate.
Defined.

End DmaRuns.

(** * Further properties *)

(** ** The accumulator, statement by statement *)

Section AccumulatorStatements.
Import EqosMmc EqosMmcObs.
Context {D : Type} {bus : Bus core_reg D}.
Variable CNTRST : Z.

Lemma mmc_statement_lp64 (d s : mmc_field) (r : core_reg)
  (w : machine D osi_mmc_counters) :
  mmc_statement 64 CNTRST (d, s, r) w =
  Some (tt,
        Machine (snd (bus_read r (hw w)))
                (mmc_set (sw w) d
                   (u64 (u64 (sw w s) + u32 (fst (bus_read r (hw w)))))),
        [EvRead r (u32 (fst (bus_read r (hw w))))]).
Proof.
  unfold mmc_statement. unfold bind at 1, get_sw.
  unfold bind at 1. rewrite update_mmc_val_lp64.
  cbv [bind get_sw put_sw hw sw]. cbn [app]. reflexivity.
Qed.

Lemma mmc_statements_cons_lp64 (d s : mmc_field) (r : core_reg)
  (l : list (mmc_field * mmc_field * core_reg))
  (w w' : machine D osi_mmc_counters) (t : list (event core_reg)) :
  mmc_statements 64 CNTRST ((d, s, r) :: l) w = Some (tt, w', t) ->
  exists t',
    t = EvRead r (u32 (fst (bus_read r (hw w)))) :: t' /\
    mmc_statements 64 CNTRST l
      (Machine (snd (bus_read r (hw w)))
               (mmc_set (sw w) d
                  (u64 (u64 (sw w s) + u32 (fst (bus_read r (hw w)))))))
    = Some (tt, w', t').
Proof.
  cbn [mmc_statements]. intros Hrun.
  apply bind_Some in Hrun as (u & w1 & t1 & t2 & Hst & Hrest & ->).
  rewrite mmc_statement_lp64 in Hst. inversion Hst; subst.
  exists t2. split; [reflexivity|]. exact Hrest.
Qed.

(** A member that no statement of [l] assigns keeps its value. *)
Lemma mmc_statements_frame_lp64 (f : mmc_field)
  (l : list (mmc_field * mmc_field * core_reg))
  (w w' : machine D osi_mmc_counters) (t : list (event core_reg)) :
  mmc_statements 64 CNTRST l w = Some (tt, w', t) ->
  assignments_of f l = 0%nat ->
  sw w' f = sw w f.
Proof.
  revert w t. induction l as [|[[d s] r] l IH]; intros w t Hrun Hno.
  - cbn in Hrun. unfold ret in Hrun. inversion Hrun. reflexivity.
  - apply mmc_statements_cons_lp64 in Hrun as (t' & -> & Hrest).
    unfold assignments_of in Hno. cbn [List.filter fst] in Hno.
    destruct (bool_decide (d = f)) eqn:Hd; [discriminate|].
    apply bool_decide_eq_false in Hd.
    rewrite (IH _ _ Hrest Hno). cbn [sw]. unfold mmc_set.
    rewrite decide_False by congruence. reflexivity.
Qed.

Lemma assignments_of_app (f : mmc_field)
  (l1 l2 : list (mmc_field * mmc_field * core_reg)) :
  assignments_of f (l1 ++ l2)
  = (assignments_of f l1 + assignments_of f l2)%nat.
Proof.
  unfold assignments_of. rewrite List.filter_app, List.length_app.
  reflexivity.
Qed.

(** A member assigned by one statement of [l], from itself and the
    register [r], ends with its old value plus the value read from [r]. *)
Lemma mmc_statements_own_lp64 (f : mmc_field) (r : core_reg)
  (l : list (mmc_field * mmc_field * core_reg))
  (w w' : machine D osi_mmc_counters) (t : list (event core_reg)) :
  mmc_statements 64 CNTRST l w = Some (tt, w', t) ->
  In (f, f, r) l -> assignments_of f l = 1%nat ->
  exists v,
    In (EvRead r v) t /\ 0 <= v < 2 ^ 32 /\ sw w' f = u64 (sw w f + v).
Proof.
  revert w t. induction l as [|[[d s] r0] l IH]; intros w t Hrun Hin Hone.
  - destruct Hin.
  - apply mmc_statements_cons_lp64 in Hrun as (t' & -> & Hrest).
    unfold assignments_of in Hone. cbn [List.filter fst] in Hone.
    destruct (bool_decide (d = f)) eqn:Hd.
    + apply bool_decide_eq_true in Hd. subst d.
      cbn [length] in Hone.
      assert (Hno : assignments_of f l = 0%nat)
        by (unfold assignments_of; lia).
      assert (Hst : s = f /\ r0 = r).
      { destruct Hin as [Heq|Hin]; [inversion Heq; auto|].
        exfalso.
        assert (Hpos : (0 < assignments_of f l)%nat).
        { clear -Hin. induction l as [|x l IH]; [destruct Hin|].
          unfold assignments_of. cbn [List.filter].
          destruct Hin as [->|Hin].
          - cbn [fst]. rewrite bool_decide_eq_true_2 by reflexivity.
            cbn. lia.
          - specialize (IH Hin). unfold assignments_of in IH.
            destruct (bool_decide _); cbn; lia. }
        lia. }
      destruct Hst as [-> ->].
      exists (u32 (fst (bus_read r (hw w)))).
      split; [left; reflexivity|]. split; [apply u32_bound|].
      rewrite (mmc_statements_frame_lp64 f _ _ _ _ Hrest Hno).
      cbn [sw]. unfold mmc_set. rewrite decide_True by reflexivity.
      unfold u64. rewrite Zplus_mod_idemp_l. reflexivity.
    + apply bool_decide_eq_false in Hd.
      destruct Hin as [Heq|Hin]; [inversion Heq; congruence|].
      destruct (IH _ _ Hrest Hin Hone) as (v & Hv & Hb & Hval).
      exists v. split; [right; exact Hv|]. split; [exact Hb|].
      rewrite Hval. cbn [sw]. unfold mmc_set.
      rewrite decide_False by congruence. reflexivity.
Qed.

(** Every member but the UDP good-octets total is assigned by one
    statement of [eqos_read_mmc]. *)
Lemma eqos_read_mmc_body_single_assignment
  (st : mmc_field * mmc_field * core_reg) :
  In st eqos_read_mmc_body ->
  fst (fst st) <> mmc_rx_udp_gd_octets ->
  assignments_of (fst (fst st)) eqos_read_mmc_body = 1%nat.
Proof.
  intros Hin Hne.
  assert (Hall : forallb (fun st =>
                   bool_decide (fst (fst st) = mmc_rx_udp_gd_octets)
                   || Nat.eqb (assignments_of (fst (fst st))
                                              eqos_read_mmc_body) 1)
                   eqos_read_mmc_body = true)
    by (vm_compute; reflexivity).
  rewrite forallb_forall in Hall. specialize (Hall st Hin).
  apply orb_true_iff in Hall as [Hudp|Hone].
  - apply bool_decide_eq_true in Hudp. contradiction.
  - apply Nat.eqb_eq. exact Hone.
Qed.

(** X1.  On a 64-bit target, one call of [eqos_read_mmc] adds to every
    member that a statement accumulates from itself, the UDP good-octets
    total apart, the value that the call read from the register of that
    statement, modulo [2 ^ 64]; the sum is exact while it stays below
    [2 ^ 64]. *)
Theorem eqos_read_mmc_accumulates_own_register (f : mmc_field)
  (r : core_reg) (w : machine D osi_mmc_counters) :
  In (f, f, r) eqos_read_mmc_body ->
  f <> mmc_rx_udp_gd_octets ->
  exists w' t v,
    eqos_read_mmc 64 CNTRST w = Some (tt, w', t) /\
    In (EvRead r v) t /\
    sw w' f = u64 (sw w f + v) /\
    (0 <= sw w f -> sw w f + v < 2 ^ 64 -> sw w' f = sw w f + v).
Proof.
  intros Hin Hne.
  destruct (eqos_read_mmc_total CNTRST 64 w) as (w' & t & Hrun).
  pose proof (eqos_read_mmc_body_single_assignment (f, f, r) Hin Hne)
    as Hone.
  destruct (mmc_statements_own_lp64 f r _ _ _ _ Hrun Hin Hone)
    as (v & Hv & Hb & Hval).
  exists w', t, v. split; [exact Hrun|]. split; [exact Hv|].
  split; [exact Hval|].
  intros H0 Hlt. rewrite Hval. unfold u64. apply Z.mod_small. lia.
Qed.

(** X2.  With a 32-bit [unsigned long], [update_mmc_val] on a previous
    value in range either returns the exact sum and leaves the counters
    alone, or, when the sum exceeds [2 ^ 32 - 1], reports the overflow,
    writes the control register once with the reset bit added to the value
    it read, zeroes every counter and returns 0. *)
Theorem update_mmc_val_32bit_guard (last_value : Z) (offset : core_reg)
  (w : machine D osi_mmc_counters) :
  0 <= last_value < 2 ^ 32 ->
  let v := u32 (fst (bus_read offset (hw w))) in
  (last_value + v <= 2 ^ 32 - 1 ->
   update_mmc_val 32 CNTRST last_value offset w
   = Some (last_value + v, Machine (snd (bus_read offset (hw w))) (sw w),
           [EvRead offset v])) /\
  (2 ^ 32 - 1 < last_value + v ->
   exists d ctl_val,
     update_mmc_val 32 CNTRST last_value offset w
     = Some (0, Machine d mmc_zero,
             [EvRead offset v;
              EvLog "Value overflow for offset = 0x%x resetting  all counters"
                    (Some offset);
              EvRead EQOS_MMC_CNTRL ctl_val;
              EvWrite EQOS_MMC_CNTRL (Z.lor ctl_val CNTRST)])).
Proof.
  intros Hl v. split.
  - intros Hs. apply update_mmc_val_ilp32_in_range; [lia|exact Hs].
  - intros Hs. apply update_mmc_val_ilp32_overflow; [exact Hl|exact Hs].
Qed.

(** The trace of the statements of [l] on a 64-bit target: one read per
    statement, in order. *)
Lemma mmc_statements_reads_lp64
  (l : list (mmc_field * mmc_field * core_reg))
  (w w' : machine D osi_mmc_counters) (t : list (event core_reg)) :
  mmc_statements 64 CNTRST l w = Some (tt, w', t) ->
  map read_reg t = map (fun st => Some (snd st)) l.
Proof.
  revert w t. induction l as [|[[d s] r] l IH]; intros w t Hrun.
  - cbn in Hrun. unfold ret in Hrun. inversion Hrun. reflexivity.
  - apply mmc_statements_cons_lp64 in Hrun as (t' & -> & Hrest).
    cbn [map read_reg snd]. f_equal. eapply IH. exact Hrest.
Qed.

(** X3.  On a 64-bit target, whatever the counters and the registers
    hold, one call of [eqos_read_mmc] is 80 register reads, one per
    statement and in the order of the statements: it writes no register,
    the control register among them, and reports nothing. *)
Theorem eqos_read_mmc_lp64_reads_only (w : machine D osi_mmc_counters) :
  exists w' t,
    eqos_read_mmc 64 CNTRST w = Some (tt, w', t) /\
    map read_reg t = map (fun st => Some (snd st)) eqos_read_mmc_body /\
    length t = 80%nat.
Proof.
  destruct (eqos_read_mmc_total CNTRST 64 w) as (w' & t & Hrun).
  exists w', t. split; [exact Hrun|].
  pose proof (mmc_statements_reads_lp64 _ _ _ _ Hrun) as Hmap.
  split; [exact Hmap|].
  apply (f_equal (@length _)) in Hmap.
  rewrite !length_map in Hmap. exact Hmap.
Qed.

End AccumulatorStatements.

(** ** The accumulator: concrete instances *)

Section AccumulatorStatementRuns.
Import EqosMmc EqosMmcObs.

Lemma eqos_read_mmc_accumulates_own_register_witness :
  exists w' t v,
    eqos_read_mmc 64 1 carrier_machine = Some (tt, w', t) /\
    In (EvRead MMC_TXEXESSCOL v) t /\
    sw w' mmc_tx_exesscol = u64 (5 + v).
Proof.
  destruct (eqos_read_mmc_accumulates_own_register 1 mmc_tx_exesscol
              MMC_TXEXESSCOL carrier_machine)
    as (w' & t & v & Hrun & Hv & Hval & _).
  - unfold eqos_read_mmc_body.
    repeat (first [left; reflexivity | right]).
  - discriminate.
  - exists w', t, v. auto.
Defined.

Lemma update_mmc_val_32bit_guard_witness :
  update_mmc_val 32 1 5 MMC_TXEXESSCOL carrier_machine
  = Some (5, carrier_machine, [EvRead MMC_TXEXESSCOL 0]) /\
  exists d ctl_val,
    update_mmc_val 32 1 (2 ^ 32 - 1) MMC_TXOCTETCOUNT_GB octets_max_machine
    = Some (0, Machine d mmc_zero,
            [EvRead MMC_TXOCTETCOUNT_GB 2;
             EvLog "Value overflow for offset = 0x%x resetting  all counters"
                   (Some MMC_TXOCTETCOUNT_GB);
             EvRead EQOS_MMC_CNTRL ctl_val;
             EvWrite EQOS_MMC_CNTRL (Z.lor ctl_val 1)]).
Proof.
  split.
  - refine (proj1 (update_mmc_val_32bit_guard 1 5 MMC_TXEXESSCOL
                     carrier_machine _) _).
    + lia.
    + vm_compute. discriminate.
  - refine (proj2 (update_mmc_val_32bit_guard 1 (2 ^ 32 - 1)
                     MMC_TXOCTETCOUNT_GB octets_max_machine _) _).
    + lia.
    + vm_compute. reflexivity.
Defined.

End AccumulatorStatementRuns.

(** ** Poll loops *)

Section PollFacts.
Import Polling.
Context {A D St : Type} {bus : Bus A D}.

Lemma osi_readl_run (a : A) (w : machine D St) :
  exists v w',
    0 <= v < 2 ^ 32 /\ osi_readl a w = Some (v, w', [EvRead a v]).
Proof.
  unfold osi_readl. destruct (bus_read a (hw w)) as [x d].
  exists (u32 x), (Machine d (sw w)). split; [apply u32_bound|reflexivity].
Qed.

Lemma bind_run {R R' : Type} (m : M A (machine D St) R)
  (k : R -> M A (machine D St) R') (w w' w'' : machine D St)
  (r : R) (r' : R') (t t' : list (event A)) :
  m w = Some (r, w', t) -> k r w' = Some (r', w'', t') ->
  bind m k w = Some (r', w'', t ++ t').
Proof. intros Hm Hk. unfold bind. rewrite Hm, Hk. reflexivity. Qed.

Lemma bind_run_eq {R R' : Type} (m : M A (machine D St) R)
  (k : R -> M A (machine D St) R') (w w' w'' : machine D St)
  (r : R) (r' : R') (t t' tr : list (event A)) :
  m w = Some (r, w', t) -> k r w' = Some (r', w'', t') -> tr = t ++ t' ->
  bind m k w = Some (r', w'', tr).
Proof. intros Hm Hk ->. unfold bind. rewrite Hm, Hk. reflexivity. Qed.

Lemma polls_app (reg : A) (vs1 vs2 : list Z) :
  polls reg (vs1 ++ vs2) = polls reg vs1 ++ polls reg vs2.
Proof. unfold polls. apply flat_map_app. Qed.

Lemma delays_app (t1 t2 : list (event A)) :
  delays (t1 ++ t2) = delays t1 ++ delays t2.
Proof. unfold delays. apply flat_map_app. Qed.

Lemma delay_total_app (t1 t2 : list (event A)) :
  delay_total (t1 ++ t2) = delay_total t1 + delay_total t2.
Proof.
  unfold delay_total. rewrite delays_app.
  induction (delays t1) as [|u l IH]; cbn [app fold_right]; lia.
Qed.

Lemma delay_total_polls (reg : A) (vs : list Z) :
  delay_total (polls reg vs) = 1000 * Z.of_nat (length vs).
Proof.
  induction vs as [|v vs IH]; [reflexivity|].
  change (polls reg (v :: vs))
    with ([EvRead reg v; EvDelay 1000] ++ polls reg vs).
  rewrite delay_total_app, IH. cbn [length].
  change (delay_total [EvRead reg v; EvDelay 1000]) with 1000. lia.
Qed.

(** A poll loop with enough fuel ends: by giving up after
    [retry + 1 - count] polls that all read a value not awaited, or by
    reading an awaited value after fewer polls than that. *)
Lemma poll_until_run (reg : A) (done : Z -> bool) (fuel : nat)
  (retry count : Z) (w : machine D St) :
  0 <= count <= retry + 1 -> retry < 2 ^ 32 - 1 ->
  (Z.to_nat (retry + 1 - count) < fuel)%nat ->
  exists r w' t vs,
    poll_until reg done fuel retry count w = Some (r, w', t) /\
    Forall (fun v => done v = false) vs /\
    ((r = Returned (-1) /\
      length vs = Z.to_nat (retry + 1 - count) /\
      t = polls reg vs) \/
     (exists v,
        r = Fallthrough tt /\ done v = true /\ 0 <= v < 2 ^ 32 /\
        (length vs < Z.to_nat (retry + 1 - count))%nat /\
        t = polls reg vs ++ [EvRead reg v])).
Proof.
  revert count w. induction fuel as [|fuel IH]; intros count w Hc Hr Hf.
  - lia.
  - cbn [poll_until].
    destruct (Z.gtb_spec count retry) as [Hgt|Hle].
    + exists (Returned (-1)), w, [], []. split; [reflexivity|].
      split; [constructor|]. left.
      split; [reflexivity|]. split; [|reflexivity].
      replace (retry + 1 - count) with 0 by lia. reflexivity.
    + rewrite u32_small by lia.
      destruct (osi_readl_run reg w) as (v & w1 & Hv & Hrd).
      unfold bind at 1. rewrite Hrd.
      destruct (done v) eqn:Hdone.
      * exists (Fallthrough tt), w1, [EvRead reg v], [].
        split; [reflexivity|]. split; [constructor|]. right.
        exists v. split; [reflexivity|]. split; [exact Hdone|].
        split; [exact Hv|]. split; [cbn [length]; lia|]. reflexivity.
      * unfold bind at 1, osd_udelay.
        destruct (IH (count + 1) (Machine (bus_delay 1000 (hw w1)) (sw w1)))
          as (r & w2 & t & vs & -> & Hall & Hcase); [lia|lia|lia|].
        exists r, w2, (EvRead reg v :: EvDelay 1000 :: t), (v :: vs).
        split; [reflexivity|].
        split; [constructor; [exact Hdone|exact Hall]|].
        destruct Hcase as [(-> & Hlen & ->)|(v' & -> & Hd & Hv' & Hlen & ->)].
        -- left. split; [reflexivity|]. split; [cbn [length]; lia|].
           reflexivity.
        -- right. exists v'. split; [reflexivity|]. split; [exact Hd|].
           split; [exact Hv'|]. split; [cbn [length]; lia|]. reflexivity.
Qed.

End PollFacts.

(** ** XPCS initialisation *)

Section XpcsInitFacts.
Import Polling XpcsInit.
Context {D : Type} {bus : Bus xpcs_reg D} {hdr : xpcs_init_h}.

Lemma vr_rst_loop_poll (fuel : nat) (retry count : Z) (w : machine D unit) :
  vr_rst_loop fuel retry count w
  = poll_until XPCS_VR_XS_PCS_DIG_CTRL1
      (fun ctrl => Z.land ctrl XPCS_VR_XS_PCS_DIG_CTRL1_VR_RST =? 0)
      fuel retry count w.
Proof.
  revert count w. induction fuel as [|fuel IH]; intros count w.
  - reflexivity.
  - cbn [vr_rst_loop poll_until].
    destruct (count >? retry); [reflexivity|].
    unfold bind at 1 3, xpcs_read.
    destruct (osi_readl XPCS_VR_XS_PCS_DIG_CTRL1 w) as [[[v w1] t1]|];
      [|reflexivity].
    destruct (Z.land v XPCS_VR_XS_PCS_DIG_CTRL1_VR_RST =? 0); [reflexivity|].
    unfold bind, osd_udelay. rewrite IH. reflexivity.
Qed.

(** X4.  [xpcs_init] on any device: it selects BASE-R, sets USXG_EN and
    VR_RST in one write, and polls VR_XS_PCS_DIG_CTRL1.  Either all 1001
    polls read VR_RST set, and it returns -1 without an access to
    SR_AN_CTRL and without setting CL37_BP; or a poll among the first 1001
    reads VR_RST clear, and it clears AN_EN, sets CL37_BP and returns
    0. *)
Theorem xpcs_init_polls_reset_then_configures (fuel : nat)
  (w : machine D unit) :
  (Xpcs.poll_fuel <= fuel)%nat ->
  exists r w' c d vs rest,
    xpcs_init fuel w
    = Some (r, w',
            [EvRead XPCS_SR_XS_PCS_CTRL2 c;
             EvWrite XPCS_SR_XS_PCS_CTRL2
               (Z.lor c XPCS_SR_XS_PCS_CTRL2_PCS_TYPE_SEL_BASE_R);
             EvRead XPCS_VR_XS_PCS_DIG_CTRL1 d;
             EvWrite XPCS_VR_XS_PCS_DIG_CTRL1
               (Z.lor (Z.lor d XPCS_VR_XS_PCS_DIG_CTRL1_USXG_EN)
                      XPCS_VR_XS_PCS_DIG_CTRL1_VR_RST)]
            ++ polls XPCS_VR_XS_PCS_DIG_CTRL1 vs ++ rest) /\
    Forall (fun v => Z.land v XPCS_VR_XS_PCS_DIG_CTRL1_VR_RST <> 0) vs /\
    ((r = -1 /\ length vs = 1001%nat /\ rest = []) \/
     (exists v a b,
        r = 0 /\ (length vs <= 1000)%nat /\
        Z.land v XPCS_VR_XS_PCS_DIG_CTRL1_VR_RST = 0 /\
        rest = [EvRead XPCS_VR_XS_PCS_DIG_CTRL1 v;
                EvRead XPCS_SR_AN_CTRL a;
                EvWrite XPCS_SR_AN_CTRL
                  (Z.land a (u32_not XPCS_SR_AN_CTRL_AN_EN));
                EvRead XPCS_VR_XS_PCS_DIG_CTRL1 b;
                EvWrite XPCS_VR_XS_PCS_DIG_CTRL1
                  (Z.lor b XPCS_VR_XS_PCS_DIG_CTRL1_CL37_BP)])).
Proof.
  intros Hf. unfold Xpcs.poll_fuel in Hf.
  destruct (osi_readl_run XPCS_SR_XS_PCS_CTRL2 w) as (c & w1 & _ & Hrd1).
  set (w2 := Machine (bus_write XPCS_SR_XS_PCS_CTRL2
                (Z.lor c XPCS_SR_XS_PCS_CTRL2_PCS_TYPE_SEL_BASE_R) (hw w1))
                (sw w1)).
  destruct (osi_readl_run XPCS_VR_XS_PCS_DIG_CTRL1 w2)
    as (d & w3 & _ & Hrd2).
  set (w4 := Machine (bus_write XPCS_VR_XS_PCS_DIG_CTRL1
                (Z.lor (Z.lor d XPCS_VR_XS_PCS_DIG_CTRL1_USXG_EN)
                       XPCS_VR_XS_PCS_DIG_CTRL1_VR_RST) (hw w3)) (sw w3)).
  destruct (poll_until_run XPCS_VR_XS_PCS_DIG_CTRL1
              (fun ctrl => Z.land ctrl XPCS_VR_XS_PCS_DIG_CTRL1_VR_RST =? 0)
              fuel 1000 0 w4)
    as (r & w5 & tl & vs & Hloop & Hall & Hcase); [lia|lia|lia|].
  assert (Hvs : Forall
            (fun v => Z.land v XPCS_VR_XS_PCS_DIG_CTRL1_VR_RST <> 0) vs).
  { eapply Forall_impl; [exact Hall|]. cbv beta. intros v Hv.
    apply Z.eqb_neq. exact Hv. }
  unfold xpcs_init.
  unfold bind at 1, xpcs_read. rewrite Hrd1.
  unfold bind at 1, xpcs_write, osi_writel. fold w2.
  unfold bind at 1. rewrite Hrd2.
  unfold bind at 1. fold w4.
  unfold bind at 1. rewrite vr_rst_loop_poll, Hloop.
  destruct Hcase as [(-> & Hlen & ->)|(v & -> & Hd & _ & Hlen & ->)].
  - unfold ret.
    exists (-1), w5, c, d, vs, [].
    split; [cbn [app]; rewrite !app_nil_r; reflexivity|].
    split; [exact Hvs|]. left. split; [reflexivity|].
    split; [exact Hlen|reflexivity].
  - destruct (osi_readl_run XPCS_SR_AN_CTRL w5) as (a & w6 & _ & Hrd3).
    unfold bind at 1. rewrite Hrd3.
    unfold bind at 1.
    set (w7 := Machine (bus_write XPCS_SR_AN_CTRL
                  (Z.land a (u32_not XPCS_SR_AN_CTRL_AN_EN)) (hw w6))
                  (sw w6)).
    destruct (osi_readl_run XPCS_VR_XS_PCS_DIG_CTRL1 w7)
      as (b & w8 & _ & Hrd4).
    unfold bind at 1. rewrite Hrd4.
    unfold bind, ret.
    eexists 0, _, c, d, vs,
      [EvRead XPCS_VR_XS_PCS_DIG_CTRL1 v;
       EvRead XPCS_SR_AN_CTRL a;
       EvWrite XPCS_SR_AN_CTRL (Z.land a (u32_not XPCS_SR_AN_CTRL_AN_EN));
       EvRead XPCS_VR_XS_PCS_DIG_CTRL1 b;
       EvWrite XPCS_VR_XS_PCS_DIG_CTRL1
         (Z.lor b XPCS_VR_XS_PCS_DIG_CTRL1_CL37_BP)].
    split.
    { cbn [app]. rewrite <- !app_assoc. cbn [app]. reflexivity. }
    split; [exact Hvs|]. right. exists v, a, b.
    split; [reflexivity|].
    change (Z.to_nat (1000 + 1 - 0)) with 1001%nat in Hlen.
    split; [lia|].
    split; [apply Z.eqb_eq; exact Hd|reflexivity].
Qed.

End XpcsInitFacts.

(** ** Bits of 32-bit masks *)

Section MaskBits.

Lemma testbit_u32 (x i : Z) :
  0 <= i -> Z.testbit (u32 x) i = Z.testbit x i && (i <? 32).
Proof.
  intros Hi. unfold u32. destruct (Z.ltb_spec i 32) as [Hlt|Hge].
  - rewrite Z.mod_pow2_bits_low by lia. rewrite andb_true_r. reflexivity.
  - rewrite Z.mod_pow2_bits_high by lia. rewrite andb_false_r. reflexivity.
Qed.

Lemma testbit_u32_low (x i : Z) :
  0 <= i -> Z.testbit (u32 x) i && (i <? 32) = Z.testbit (u32 x) i.
Proof.
  intros Hi. rewrite testbit_u32 by exact Hi.
  destruct (Z.testbit x i), (i <? 32); reflexivity.
Qed.

Lemma mask_bit_low (m i : Z) :
  0 <= m < 2 ^ 32 -> 0 <= i -> Z.testbit m i = true -> (i <? 32) = true.
Proof.
  intros Hm Hi Hb. destruct (Z.ltb_spec i 32) as [Hlt|Hge]; [reflexivity|].
  rewrite (testbit_above_u32 m i Hm Hge) in Hb. discriminate.
Qed.

Lemma land_eq_bits (x m : Z) :
  (forall i, 0 <= i -> Z.testbit m i = true -> Z.testbit x i = true) ->
  Z.land x m = m.
Proof.
  intros Hbits. apply Z.bits_inj'. intros i Hi. rewrite Z.land_spec.
  destruct (Z.testbit m i) eqn:Hm.
  - rewrite (Hbits i Hi Hm). reflexivity.
  - apply andb_false_r.
Qed.

Lemma land_zero_bits_iff (x m : Z) :
  (forall i, 0 <= i -> Z.testbit m i = true -> Z.testbit x i = false) ->
  Z.land x m = 0.
Proof.
  intros Hbits. apply Z.bits_inj'. intros i Hi.
  rewrite Z.land_spec, Z.bits_0.
  destruct (Z.testbit m i) eqn:Hm.
  - rewrite (Hbits i Hi Hm). reflexivity.
  - apply andb_false_r.
Qed.

Lemma reg_get_set_eq {A : Type} `{EqDecision A} (a : A) (v : Z)
  (r : regfile A) :
  reg_get (reg_set a v r) a = v.
Proof. unfold reg_set. cbn [reg_get]. apply decide_True. reflexivity. Qed.

Lemma reg_get_set_ne {A : Type} `{EqDecision A} (a b : A) (v : Z)
  (r : regfile A) :
  b <> a -> reg_get (reg_set a v r) b = reg_get r b.
Proof.
  intros Hne. unfold reg_set. cbn [reg_get]. apply decide_False. exact Hne.
Qed.

End MaskBits.

Ltac unfold_bits i Hi :=
  repeat first
    [ rewrite Z.land_spec
    | rewrite Z.lor_spec
    | rewrite (testbit_u32_not _ i Hi)
    | rewrite (testbit_u32 _ i Hi) ].

Ltac case_bits :=
  repeat match goal with
         | |- context [Z.testbit ?x ?i] => destruct (Z.testbit x i)
         end;
  repeat match goal with
         | |- context [?i <? 32] => destruct (i <? 32)
         end;
  cbn; try reflexivity; try discriminate.

(** ** Energy-efficient Ethernet on the XPCS *)

Section XpcsEeeFacts.
Import XpcsInit.
Context {D : Type} {bus : Bus xpcs_reg D} {hdr : xpcs_init_h}.

Lemma xpcs_eee_run (en_dis : Z) (w : machine D unit) :
  en_dis = EqosDma.OSI_ENABLE \/ en_dis = EqosDma.OSI_DISABLE ->
  xpcs_eee en_dis w
  = Some (0,
          Machine (bus_write XPCS_VR_XS_PCS_EEE_MCTRL0
                     (eee_value en_dis
                        (u32 (fst (bus_read XPCS_VR_XS_PCS_EEE_MCTRL0
                                     (hw w)))))
                     (snd (bus_read XPCS_VR_XS_PCS_EEE_MCTRL0 (hw w))))
                  (sw w),
          [EvRead XPCS_VR_XS_PCS_EEE_MCTRL0
             (u32 (fst (bus_read XPCS_VR_XS_PCS_EEE_MCTRL0 (hw w))));
           EvWrite XPCS_VR_XS_PCS_EEE_MCTRL0
             (eee_value en_dis
                (u32 (fst (bus_read XPCS_VR_XS_PCS_EEE_MCTRL0 (hw w)))))]).
Proof.
  intros [-> | ->]; unfold xpcs_eee, eee_value;
    cbn [Z.eqb EqosDma.OSI_ENABLE EqosDma.OSI_DISABLE negb andb
         Pos.eqb];
    unfold bind, xpcs_read, xpcs_write, osi_readl, osi_writel, ret;
    destruct (bus_read XPCS_VR_XS_PCS_EEE_MCTRL0 (hw w)) as [x d];
    reflexivity.
Qed.

Lemma eee_value_bits (en_dis v : Z) :
  eee_masks_ok ->
  Z.land (eee_value en_dis v) XPCS_VR_XS_PCS_EEE_MCTRL0_LTX_EN
  = (if en_dis =? EqosDma.OSI_DISABLE then 0
     else XPCS_VR_XS_PCS_EEE_MCTRL0_LTX_EN) /\
  Z.land (eee_value en_dis v) XPCS_VR_XS_PCS_EEE_MCTRL0_LRX_EN
  = (if en_dis =? EqosDma.OSI_DISABLE then 0
     else XPCS_VR_XS_PCS_EEE_MCTRL0_LRX_EN) /\
  (forall i, 0 <= i ->
     Z.testbit XPCS_VR_XS_PCS_EEE_MCTRL0_LTX_EN i = false ->
     Z.testbit XPCS_VR_XS_PCS_EEE_MCTRL0_LRX_EN i = false ->
     Z.testbit (eee_value en_dis v) i = Z.testbit v i && (i <? 32)).
Proof.
  intros [Htx Hrx]. unfold eee_value.
  pose proof (fun i => mask_bit_low _ i Htx) as Ltx.
  pose proof (fun i => mask_bit_low _ i Hrx) as Lrx.
  destruct (en_dis =? EqosDma.OSI_DISABLE).
  - split; [|split].
    + apply land_zero_bits_iff. intros i Hi Hm. unfold_bits i Hi.
      rewrite Hm, (Ltx i Hi Hm). case_bits.
    + apply land_zero_bits_iff. intros i Hi Hm. unfold_bits i Hi.
      rewrite Hm, (Lrx i Hi Hm). case_bits.
    + intros i Hi Ht Hr. unfold_bits i Hi. rewrite Ht, Hr. case_bits.
  - split; [|split].
    + apply land_eq_bits. intros i Hi Hm. unfold_bits i Hi.
      rewrite Hm. case_bits.
    + apply land_eq_bits. intros i Hi Hm. unfold_bits i Hi.
      rewrite Hm. case_bits.
    + intros i Hi Ht Hr. unfold_bits i Hi. rewrite Ht, Hr. case_bits.
Qed.

(** X5.  [xpcs_eee] with an argument other than 0 and 1 returns -1
    without an access to the block.  With 1 or 0 it returns 0 after one
    read and one write of VR_XS_PCS_EEE_MCTRL0: the value written has
    LTX_EN and LRX_EN both set (1) or both clear (0) and every other bit
    as read. *)
Theorem xpcs_eee_switches_both_paths (en_dis : Z) (w : machine D unit) :
  eee_masks_ok ->
  (en_dis <> EqosDma.OSI_ENABLE -> en_dis <> EqosDma.OSI_DISABLE ->
   xpcs_eee en_dis w = Some (-1, w, [])) /\
  (en_dis = EqosDma.OSI_ENABLE \/ en_dis = EqosDma.OSI_DISABLE ->
   exists v v' w',
     xpcs_eee en_dis w
     = Some (0, w', [EvRead XPCS_VR_XS_PCS_EEE_MCTRL0 v;
                     EvWrite XPCS_VR_XS_PCS_EEE_MCTRL0 v']) /\
     Z.land v' XPCS_VR_XS_PCS_EEE_MCTRL0_LTX_EN
     = (if en_dis =? EqosDma.OSI_ENABLE
        then XPCS_VR_XS_PCS_EEE_MCTRL0_LTX_EN else 0) /\
     Z.land v' XPCS_VR_XS_PCS_EEE_MCTRL0_LRX_EN
     = (if en_dis =? EqosDma.OSI_ENABLE
        then XPCS_VR_XS_PCS_EEE_MCTRL0_LRX_EN else 0) /\
     (forall i, 0 <= i ->
        Z.testbit XPCS_VR_XS_PCS_EEE_MCTRL0_LTX_EN i = false ->
        Z.testbit XPCS_VR_XS_PCS_EEE_MCTRL0_LRX_EN i = false ->
        Z.testbit v' i = Z.testbit v i)).
Proof.
  intros Hok. split.
  - intros Hne Hnd. unfold xpcs_eee.
    apply Z.eqb_neq in Hne, Hnd. rewrite Hne, Hnd. reflexivity.
  - intros Hen.
    pose proof (xpcs_eee_run en_dis w Hen) as Hrun.
    set (v := u32 (fst (bus_read XPCS_VR_XS_PCS_EEE_MCTRL0 (hw w)))) in *.
    destruct (eee_value_bits en_dis v Hok) as (Htx & Hrx & Hrest).
    eexists v, (eee_value en_dis v), _.
    split; [exact Hrun|].
    assert (Hsw : (en_dis =? EqosDma.OSI_DISABLE)
                  = negb (en_dis =? EqosDma.OSI_ENABLE))
      by (destruct Hen as [-> | ->]; reflexivity).
    rewrite Hsw in Htx, Hrx.
    destruct (en_dis =? EqosDma.OSI_ENABLE); cbn [negb] in Htx, Hrx.
    + split; [exact Htx|]. split; [exact Hrx|].
      intros i Hi Ht Hr. rewrite (Hrest i Hi Ht Hr).
      apply testbit_u32_low. exact Hi.
    + split; [exact Htx|]. split; [exact Hrx|].
      intros i Hi Ht Hr. rewrite (Hrest i Hi Ht Hr).
      apply testbit_u32_low. exact Hi.
Qed.

End XpcsEeeFacts.

(** ** The XPCS on registers that hold their values *)

Section XpcsInitRuns.
Import Polling XpcsInit.
Context {hdr : xpcs_init_h}.

(** X6.  On registers that hold their values, the EEE setting is that of
    the last call of [xpcs_eee]: a call after another call leaves every
    register as the call alone would. *)
Theorem xpcs_eee_last_call_wins (a b : Z) (r : regfile xpcs_reg) :
  eee_masks_ok ->
  a = EqosDma.OSI_ENABLE \/ a = EqosDma.OSI_DISABLE ->
  b = EqosDma.OSI_ENABLE \/ b = EqosDma.OSI_DISABLE ->
  exists r1 r2 r2' t1 t2 t2',
    xpcs_eee a (Machine r tt) = Some (0, Machine r1 tt, t1) /\
    xpcs_eee b (Machine r1 tt) = Some (0, Machine r2 tt, t2) /\
    xpcs_eee b (Machine r tt) = Some (0, Machine r2' tt, t2') /\
    forall x, reg_get r2 x = reg_get r2' x.
Proof.
  intros [Htx Hrx] Ha Hb.
  pose proof (fun i => mask_bit_low _ i Htx) as Ltx.
  pose proof (fun i => mask_bit_low _ i Hrx) as Lrx.
  set (step := fun (e : Z) (r0 : regfile xpcs_reg) =>
                reg_set XPCS_VR_XS_PCS_EEE_MCTRL0
                  (u32 (eee_value e
                          (u32 (reg_get r0 XPCS_VR_XS_PCS_EEE_MCTRL0)))) r0).
  exists (step a r), (step b (step a r)), (step b r).
  do 3 eexists.
  split; [rewrite (xpcs_eee_run a _ Ha); reflexivity|].
  split; [rewrite (xpcs_eee_run b _ Hb); reflexivity|].
  split; [rewrite (xpcs_eee_run b _ Hb); reflexivity|].
  intros x. unfold step, reg_set. cbn [reg_get].
  destruct (decide (x = XPCS_VR_XS_PCS_EEE_MCTRL0)) as [->|Hx];
    [|reflexivity].
  rewrite decide_True by reflexivity.
  apply Z.bits_inj'. intros i Hi. unfold eee_value.
  destruct (a =? EqosDma.OSI_DISABLE), (b =? EqosDma.OSI_DISABLE);
    unfold_bits i Hi;
    (destruct (Z.testbit XPCS_VR_XS_PCS_EEE_MCTRL0_LTX_EN i) eqn:Ht;
     [rewrite ?(Ltx i Hi Ht)|]);
    (destruct (Z.testbit XPCS_VR_XS_PCS_EEE_MCTRL0_LRX_EN i) eqn:Hr;
     [rewrite ?(Lrx i Hi Hr)|]);
    case_bits.
Qed.

Lemma vr_rst_loop_resetting (fuel : nat) (count b : Z)
  (regs : regfile xpcs_reg) :
  0 < XPCS_VR_XS_PCS_DIG_CTRL1_VR_RST < 2 ^ 32 ->
  0 <= b -> 0 <= count -> count + b <= 1000 -> (Z.to_nat b < fuel)%nat ->
  exists t,
    vr_rst_loop fuel 1000 count (Machine (ResettingXpcs regs b) tt)
    = Some (Fallthrough tt, Machine (ResettingXpcs regs 0) tt, t) /\
    delay_total t = 1000 * b.
Proof.
  intros Hvr.
  assert (Hvr' : 0 <= XPCS_VR_XS_PCS_DIG_CTRL1_VR_RST < 2 ^ 32) by lia.
  revert count b.
  induction fuel as [|fuel IH]; intros count b Hb Hc Hsum Hf; [lia|].
  cbn [vr_rst_loop].
  destruct (Z.gtb_spec count 1000) as [Hgt|Hle]; [lia|].
  rewrite u32_small by lia.
  unfold bind at 1, xpcs_read, osi_readl.
  cbn [bus_read resetting_xpcs_bus hw sw busy xregs].
  destruct (Z.ltb_spec 0 b) as [Hpos|Hzero].
  - assert (Hset : Z.land
              (u32 (Z.lor (reg_get regs XPCS_VR_XS_PCS_DIG_CTRL1)
                          XPCS_VR_XS_PCS_DIG_CTRL1_VR_RST))
              XPCS_VR_XS_PCS_DIG_CTRL1_VR_RST
              = XPCS_VR_XS_PCS_DIG_CTRL1_VR_RST).
    { apply land_eq_bits. intros i Hi Hm. unfold_bits i Hi.
      rewrite Hm, (mask_bit_low _ i Hvr' Hi Hm). case_bits. }
    rewrite Hset.
    destruct (Z.eqb_spec XPCS_VR_XS_PCS_DIG_CTRL1_VR_RST 0) as [Heq|_];
      [lia|].
    unfold bind at 1, osd_udelay.
    cbn [bus_delay resetting_xpcs_bus hw sw busy xregs].
    change (1000 / 1000) with 1.
    destruct (IH (count + 1) (b - 1)) as (t & Hrun & Ht); [lia|lia|lia|lia|].
    rewrite Hrun. eexists. split; [reflexivity|].
    rewrite !delay_total_app, Ht.
    change (delay_total [EvDelay 1000]) with 1000.
    match goal with
    | |- delay_total [EvRead ?a ?v] + _ = _ =>
        change (delay_total [EvRead a v]) with 0
    end.
    lia.
  - assert (Hclr : Z.land
              (u32 (Z.land (reg_get regs XPCS_VR_XS_PCS_DIG_CTRL1)
                           (u32_not XPCS_VR_XS_PCS_DIG_CTRL1_VR_RST)))
              XPCS_VR_XS_PCS_DIG_CTRL1_VR_RST = 0).
    { apply land_zero_bits_iff. intros i Hi Hm. unfold_bits i Hi.
      rewrite Hm. case_bits. }
    rewrite Hclr. cbn [Z.eqb]. unfold ret.
    assert (b = 0) as -> by lia.
    eexists. split; [reflexivity|]. reflexivity.
Qed.

(** X7.  On a block whose reset bit clears itself after [b] milliseconds,
    at most 1000, and whose registers otherwise hold their values,
    [xpcs_init] returns 0 after [b] delays, and leaves BASE-R selected,
    USXG_EN and CL37_BP set, AN_EN and the reset bit clear, and the EEE
    control register as it was. *)
Theorem xpcs_init_on_self_clearing_reset (fuel : nat) (b : Z)
  (regs : regfile xpcs_reg) :
  (Xpcs.poll_fuel <= fuel)%nat ->
  init_masks_ok ->
  0 <= b <= 1000 ->
  exists regs' t,
    xpcs_init fuel (Machine (ResettingXpcs regs b) tt)
    = Some (0, Machine (ResettingXpcs regs' 0) tt, t) /\
    delay_total t = 1000 * b /\
    Z.land (reg_get regs' XPCS_SR_XS_PCS_CTRL2)
           XPCS_SR_XS_PCS_CTRL2_PCS_TYPE_SEL_BASE_R
    = XPCS_SR_XS_PCS_CTRL2_PCS_TYPE_SEL_BASE_R /\
    Z.land (reg_get regs' XPCS_VR_XS_PCS_DIG_CTRL1)
           XPCS_VR_XS_PCS_DIG_CTRL1_USXG_EN
    = XPCS_VR_XS_PCS_DIG_CTRL1_USXG_EN /\
    Z.land (reg_get regs' XPCS_VR_XS_PCS_DIG_CTRL1)
           XPCS_VR_XS_PCS_DIG_CTRL1_CL37_BP
    = XPCS_VR_XS_PCS_DIG_CTRL1_CL37_BP /\
    Z.land (reg_get regs' XPCS_VR_XS_PCS_DIG_CTRL1)
           XPCS_VR_XS_PCS_DIG_CTRL1_VR_RST = 0 /\
    Z.land (reg_get regs' XPCS_SR_AN_CTRL) XPCS_SR_AN_CTRL_AN_EN = 0 /\
    reg_get regs' XPCS_VR_XS_PCS_EEE_MCTRL0
    = reg_get regs XPCS_VR_XS_PCS_EEE_MCTRL0.
Proof.
  intros Hf (Hbase & Husxg & Hvr & Hcl37 & Han & Hdisj1 & Hdisj2) Hb.
  unfold Xpcs.poll_fuel in Hf.
  set (c := u32 (reg_get regs XPCS_SR_XS_PCS_CTRL2)).
  set (regs1 := reg_set XPCS_SR_XS_PCS_CTRL2
                  (u32 (Z.lor c XPCS_SR_XS_PCS_CTRL2_PCS_TYPE_SEL_BASE_R))
                  regs).
  set (d := u32 (if 0 <? b
                 then Z.lor (reg_get regs1 XPCS_VR_XS_PCS_DIG_CTRL1)
                            XPCS_VR_XS_PCS_DIG_CTRL1_VR_RST
                 else Z.land (reg_get regs1 XPCS_VR_XS_PCS_DIG_CTRL1)
                             (u32_not XPCS_VR_XS_PCS_DIG_CTRL1_VR_RST))).
  set (regs2 := reg_set XPCS_VR_XS_PCS_DIG_CTRL1
                  (u32 (Z.lor (Z.lor d XPCS_VR_XS_PCS_DIG_CTRL1_USXG_EN)
                              XPCS_VR_XS_PCS_DIG_CTRL1_VR_RST))
                  regs1).
  destruct (vr_rst_loop_resetting fuel 0 b regs2) as (tl & Hloop & Htl);
    [lia|lia|lia|lia|lia|].
  eexists _, _. split.
  { unfold xpcs_init.
    eapply bind_run; [reflexivity|].
    eapply bind_run; [reflexivity|].
    eapply bind_run; [reflexivity|].
    eapply bind_run; [reflexivity|].
    eapply bind_run; [exact Hloop|].
    eapply bind_run; [reflexivity|].
    eapply bind_run; [reflexivity|].
    eapply bind_run; [reflexivity|].
    eapply bind_run; [reflexivity|].
    reflexivity. }
  cbn [bus_read bus_write resetting_xpcs_bus hw sw busy xregs fst snd].
  change (0 <? 0) with false. cbv iota.
  split.
  { rewrite !delay_total_app, Htl.
    repeat match goal with
           | |- context [delay_total [?e]] =>
               change (delay_total [e]) with 0
           end.
    change (delay_total []) with 0. lia. }
  subst regs2 d regs1 c.
  repeat first [ rewrite reg_get_set_eq
               | rewrite reg_get_set_ne by discriminate ].
  pose proof (fun i => mask_bit_low _ i Hbase) as Lbase.
  pose proof (fun i => mask_bit_low _ i Husxg) as Lusxg.
  pose proof (fun i => mask_bit_low _ i Hcl37) as Lcl37.
  assert (Hvr' : 0 <= XPCS_VR_XS_PCS_DIG_CTRL1_VR_RST < 2 ^ 32) by lia.
  pose proof (fun i => mask_bit_low _ i Hvr') as Lvr.
  pose proof (fun i => mask_bit_low _ i Han) as Lan.
  pose proof (fun i => land_zero_bits _ _ i Hdisj1) as D1.
  pose proof (fun i => land_zero_bits _ _ i Hdisj2) as D2.
  split; [|split; [|split; [|split; [|split]]]].
  - apply land_eq_bits. intros i Hi Hm. unfold_bits i Hi.
    rewrite Hm, (Lbase i Hi Hm). case_bits.
  - apply land_eq_bits. intros i Hi Hm. unfold_bits i Hi.
    specialize (D1 i). rewrite Hm in D1. cbn [andb] in D1.
    rewrite Hm, D1, (Lusxg i Hi Hm). case_bits.
  - apply land_eq_bits. intros i Hi Hm. unfold_bits i Hi.
    rewrite Hm, (Lcl37 i Hi Hm). case_bits.
  - apply land_zero_bits_iff. intros i Hi Hm. unfold_bits i Hi.
    specialize (D2 i). rewrite Hm in D2. rewrite andb_true_r in D2.
    rewrite Hm, D2, (Lvr i Hi Hm). case_bits.
  - apply land_zero_bits_iff. intros i Hi Hm. unfold_bits i Hi.
    rewrite Hm, (Lan i Hi Hm). case_bits.
  - reflexivity.
Qed.

End XpcsInitRuns.

(** ** The XPCS: concrete instances *)

Section XpcsInitInstances.
Import Polling XpcsInit.
Local Existing Instance dwc_xpcs_init_h.

Lemma dwc_init_masks_ok : init_masks_ok.
Proof. vm_compute. intuition discriminate. Qed.

Lemma dwc_eee_masks_ok : eee_masks_ok.
Proof. vm_compute. intuition discriminate. Qed.

Lemma xpcs_init_polls_reset_then_configures_witness :
  exists r w' t,
    xpcs_init Xpcs.poll_fuel (Machine (ResettingXpcs xpcs_zero_regs 3) tt)
    = Some (r, w', t) /\
    (r = -1 \/ r = 0).
Proof.
  destruct (xpcs_init_polls_reset_then_configures Xpcs.poll_fuel
              (Machine (ResettingXpcs xpcs_zero_regs 3) tt)
              (le_n Xpcs.poll_fuel))
    as (r & w' & c & d & vs & rest & Hrun & _ & Hcase).
  exists r, w'. eexists. split; [exact Hrun|].
  destruct Hcase as [(-> & _)|(v & a & b & -> & _)]; auto.
Defined.

Lemma xpcs_eee_switches_both_paths_witness :
  xpcs_eee 2 (Machine xpcs_zero_regs tt)
  = Some (-1, Machine xpcs_zero_regs tt, []) /\
  exists v v' w',
    xpcs_eee 1 (Machine xpcs_zero_regs tt)
    = Some (0, w', [EvRead XPCS_VR_XS_PCS_EEE_MCTRL0 v;
                    EvWrite XPCS_VR_XS_PCS_EEE_MCTRL0 v']) /\
    Z.land v' 0x1 = 0x1 /\ Z.land v' 0x2 = 0x2.
Proof.
  split.
  - apply (xpcs_eee_switches_both_paths 2 (Machine xpcs_zero_regs tt)
             dwc_eee_masks_ok); discriminate.
  - destruct (proj2 (xpcs_eee_switches_both_paths 1
                       (Machine xpcs_zero_regs tt) dwc_eee_masks_ok))
      as (v & v' & w' & Hrun & Htx & Hrx & _).
    + left. reflexivity.
    + exists v, v', w'. auto.
Defined.

Lemma xpcs_eee_last_call_wins_witness :
  exists r1 r2 r2' t1 t2 t2',
    xpcs_eee 1 (Machine xpcs_zero_regs tt) = Some (0, Machine r1 tt, t1) /\
    xpcs_eee 0 (Machine r1 tt) = Some (0, Machine r2 tt, t2) /\
    xpcs_eee 0 (Machine xpcs_zero_regs tt) = Some (0, Machine r2' tt, t2') /\
    forall x, reg_get r2 x = reg_get r2' x.
Proof.
  apply (xpcs_eee_last_call_wins 1 0 xpcs_zero_regs dwc_eee_masks_ok).
  - left. reflexivity.
  - right. reflexivity.
Defined.

Lemma xpcs_init_on_self_clearing_reset_witness :
  exists regs' t,
    xpcs_init Xpcs.poll_fuel (Machine (ResettingXpcs xpcs_zero_regs 3) tt)
    = Some (0, Machine (ResettingXpcs regs' 0) tt, t) /\
    delay_total t = 3000 /\
    reg_get regs' XPCS_VR_XS_PCS_DIG_CTRL1 = 0x1200.
Proof.
  destruct (xpcs_init_on_self_clearing_reset Xpcs.poll_fuel 3 xpcs_zero_regs
              (le_n Xpcs.poll_fuel) dwc_init_masks_ok)
    as (regs' & t & Hrun & Hd & _).
  - lia.
  - exists regs', t. split; [exact Hrun|]. split; [exact Hd|].
    assert (Hv : match xpcs_init Xpcs.poll_fuel
                         (Machine (ResettingXpcs xpcs_zero_regs 3) tt) with
                 | Some (_, m, _) =>
                     reg_get (xregs (hw m)) XPCS_VR_XS_PCS_DIG_CTRL1
                 | None => 0
                 end = 0x1200) by (vm_compute; reflexivity).
    rewrite Hrun in Hv. exact Hv.
Defined.

End XpcsInitInstances.

(** ** Bring-up of the XPCS: every path of [xpcs_start] *)

Ltac norm_trace :=
  repeat first [ rewrite <- app_assoc | rewrite app_nil_r ];
  cbn [app]; reflexivity.

Section XpcsStartPaths.
Import Polling Xpcs.
Context {D : Type} {bus : Bus xpcs_reg D} {hdr : xpcs_h}.

Lemma usra_rst_loop_poll (fuel : nat) (retry count : Z)
  (w : machine D unit) :
  usra_rst_loop fuel retry count w
  = poll_until XPCS_VR_XS_PCS_DIG_CTRL1
      (fun ctrl => Z.land ctrl XPCS_VR_XS_PCS_DIG_CTRL1_USRA_RST =? 0)
      fuel retry count w.
Proof.
  revert count w. induction fuel as [|fuel IH]; intros count w.
  - reflexivity.
  - cbn [usra_rst_loop poll_until].
    destruct (count >? retry); [reflexivity|].
    unfold bind at 1 3, xpcs_read.
    destruct (osi_readl XPCS_VR_XS_PCS_DIG_CTRL1 w) as [[[v w1] t1]|];
      [|reflexivity].
    destruct (Z.land v XPCS_VR_XS_PCS_DIG_CTRL1_USRA_RST =? 0);
      [reflexivity|].
    unfold bind, osd_udelay. rewrite IH. reflexivity.
Qed.

Lemma rx_link_up_loop_poll (fuel : nat) (retry count : Z)
  (w : machine D unit) :
  rx_link_up_loop fuel retry count w
  = poll_until XPCS_SR_XS_PCS_STS1
      (fun ctrl => Z.land ctrl XPCS_SR_XS_PCS_STS1_RLU
                   =? XPCS_SR_XS_PCS_STS1_RLU)
      fuel retry count w.
Proof.
  revert count w. induction fuel as [|fuel IH]; intros count w.
  - reflexivity.
  - cbn [rx_link_up_loop poll_until].
    destruct (count >? retry); [reflexivity|].
    unfold bind at 1 3, xpcs_read.
    destruct (osi_readl XPCS_SR_XS_PCS_STS1 w) as [[[v w1] t1]|];
      [|reflexivity].
    destruct (Z.land v XPCS_SR_XS_PCS_STS1_RLU =? XPCS_SR_XS_PCS_STS1_RLU);
      [reflexivity|].
    unfold bind, osd_udelay. rewrite IH. reflexivity.
Qed.

(** The AN poll loop accesses no register but the AN interrupt status,
    and waits at most [retry + 1 - count] times 1000 microseconds. *)
Lemma an_complete_loop_wait (fuel : nat) (retry count : Z)
  (w w' : machine D unit) (r : ctl Z) (t : list (event xpcs_reg)) :
  an_complete_loop fuel retry count w = Some (r, w', t) ->
  0 <= count <= retry + 1 -> retry < 2 ^ 32 - 1 ->
  (forall e, In e t ->
     touches XPCS_SR_XS_PCS_STS1 e = false /\
     touches XPCS_SR_MII_CTRL e = false) /\
  delay_total t <= 1000 * (retry + 1 - count) /\
  Forall (eq 1000) (delays t).
Proof.
  revert count w w' r t.
  induction fuel as [|fuel IH]; intros count w w' r t Hrun Hc Hr.
  - discriminate.
  - cbn [an_complete_loop] in Hrun.
    destruct (Z.gtb_spec count retry) as [Hgt|Hle].
    + unfold bind, osd_log, emit, ret in Hrun.
      inversion Hrun; subst; clear Hrun. cbn [app].
      split; [intros e [<-|[]]; split; reflexivity|].
      split; [change (delay_total _) with 0; lia|constructor].
    + rewrite u32_small in Hrun by lia.
      apply bind_Some in Hrun as (v & w1 & t1 & t2 & Hrd & Hk & ->).
      apply osi_readl_Some in Hrd as (_ & _ & ->).
      destruct (Z.land v XPCS_VR_MII_AN_INTR_STS_CL37_ANCMPLT_INTR =? 0).
      * apply bind_Some in Hk as (u & w2 & t3 & t4 & Hd & Hk & ->).
        apply osd_udelay_Some in Hd as (_ & ->).
        apply IH in Hk as (Hev & Hwait & Hall); [|lia|lia].
        split.
        { intros e [<-|[<-|He]]; [split; reflexivity|split; reflexivity|].
          apply Hev. exact He. }
        split.
        { rewrite !delay_total_app.
          change (delay_total [EvRead XPCS_VR_MII_AN_INTR_STS v]) with 0.
          change (delay_total [EvDelay 1000]) with 1000. lia. }
        rewrite !delays_app. cbn [delays flat_map app].
        constructor; [reflexivity|exact Hall].
      * apply bind_Some in Hk as (u & w2 & t3 & t4 & Hw & Hk & ->).
        apply osi_writel_Some in Hw as (_ & ->).
        apply ret_Some in Hk as (-> & _ & ->).
        split.
        { intros e [<-|[<-|[]]]; split; reflexivity. }
        split; [|constructor].
        change (delay_total _) with 0. lia.
Qed.

(** Every path of [xpcs_start]: what it returns and what it has done by
    then. *)
Lemma xpcs_start_paths (fuel : nat) (w : machine D unit) :
  (poll_fuel <= fuel)%nat ->
  exists r w' c tp ta,
    xpcs_start fuel w
    = Some (r, w',
            [EvRead XPCS_SR_MII_CTRL c;
             EvWrite XPCS_SR_MII_CTRL (Z.lor c XPCS_SR_MII_CTRL_AN_ENABLE)]
            ++ tp ++ ta) /\
    (forall e, In e tp ->
       touches XPCS_VR_XS_PCS_DIG_CTRL1 e = false /\
       touches XPCS_SR_XS_PCS_STS1 e = false) /\
    delay_total tp <= 1001000 /\
    Forall (eq 1000) (delays tp) /\
    ((r = -1 /\
      (ta = [] \/ ta = [EvLog "XPCS AN completed with zero speed" None])) \/
     (exists status c1 c2 vs tb,
        In (EvWrite XPCS_VR_MII_AN_INTR_STS status) tp /\
        Z.land status XPCS_USXG_AN_STS_SPEED_MASK <> 0 /\
        ta = [EvRead XPCS_SR_MII_CTRL c1;
              EvWrite XPCS_SR_MII_CTRL
                (speed_select (Z.land status XPCS_USXG_AN_STS_SPEED_MASK) c1);
              EvRead XPCS_VR_XS_PCS_DIG_CTRL1 c2;
              EvWrite XPCS_VR_XS_PCS_DIG_CTRL1
                (Z.lor c2 XPCS_VR_XS_PCS_DIG_CTRL1_USRA_RST)]
             ++ polls XPCS_VR_XS_PCS_DIG_CTRL1 vs ++ tb /\
        Forall (fun v => Z.land v XPCS_VR_XS_PCS_DIG_CTRL1_USRA_RST <> 0)
               vs /\
        ((r = -1 /\ length vs = 1001%nat /\ tb = []) \/
         (exists v us tc,
            (length vs <= 1000)%nat /\
            Z.land v XPCS_VR_XS_PCS_DIG_CTRL1_USRA_RST = 0 /\
            tb = [EvRead XPCS_VR_XS_PCS_DIG_CTRL1 v]
                 ++ polls XPCS_SR_XS_PCS_STS1 us ++ tc /\
            Forall (fun u => Z.land u XPCS_SR_XS_PCS_STS1_RLU
                             <> XPCS_SR_XS_PCS_STS1_RLU) us /\
            ((r = -1 /\ length us = 1001%nat /\ tc = []) \/
             (exists u,
                r = 0 /\ (length us <= 1000)%nat /\
                Z.land u XPCS_SR_XS_PCS_STS1_RLU = XPCS_SR_XS_PCS_STS1_RLU /\
                tc = [EvRead XPCS_SR_XS_PCS_STS1 u])))))).
Proof.
  intros Hf. unfold poll_fuel in Hf.
  destruct (osi_readl_total XPCS_SR_MII_CTRL w) as (c & w1 & Hrd).
  set (w2 := Machine (bus_write XPCS_SR_MII_CTRL
                        (Z.lor c XPCS_SR_MII_CTRL_AN_ENABLE) (hw w1)) (sw w1)).
  destruct (an_complete_loop_total fuel 1000 0 w2) as (rp & wp & tp & Hloop);
    [lia|lia|lia|].
  pose proof (an_complete_loop_spec fuel 1000 0 w2 wp rp tp Hloop
                ltac:(lia) ltac:(lia)) as [Hdig Hspec].
  pose proof (an_complete_loop_wait fuel 1000 0 w2 wp rp tp Hloop
                ltac:(lia) ltac:(lia)) as (Hsts & Hwait & Hus).
  assert (Htp : forall e, In e tp ->
                  touches XPCS_VR_XS_PCS_DIG_CTRL1 e = false /\
                  touches XPCS_SR_XS_PCS_STS1 e = false).
  { intros e He. split; [apply Hdig; exact He|apply Hsts; exact He]. }
  unfold xpcs_start.
  unfold bind at 1, xpcs_read. rewrite Hrd.
  unfold bind at 1, xpcs_write, osi_writel. fold w2.
  unfold bind at 1, xpcs_poll_for_an_complete.
  unfold bind at 1. rewrite Hloop.
  destruct rp as [v|status].
  - destruct Hspec as (-> & _).
    unfold ret. cbn [Z.ltb Z.compare].
    exists (-1), wp, c, tp, [].
    split; [cbn [app]; rewrite !app_nil_r; reflexivity|].
    split; [exact Htp|]. split; [lia|]. split; [exact Hus|].
    left. auto.
  - destruct Hspec as (t0 & v0 & Htp0 & _).
    destruct (Z.eqb_spec (Z.land status XPCS_USXG_AN_STS_SPEED_MASK) 0)
      as [Hzero|Hspeed].
    + unfold bind, osd_log, emit, ret. cbn [Z.ltb Z.compare].
      exists (-1), wp, c, tp,
        [EvLog "XPCS AN completed with zero speed" None].
      split; [cbn [app]; rewrite !app_nil_r; reflexivity|].
      split; [exact Htp|]. split; [lia|]. split; [exact Hus|].
      left. auto.
    + unfold ret at 1. cbn [Z.ltb Z.compare].
      destruct (xpcs_set_speed_run status wp) as (c1 & w3 & Hss).
      unfold bind at 1. rewrite Hss.
      destruct (osi_readl_total XPCS_VR_XS_PCS_DIG_CTRL1 w3)
        as (c2 & w4 & Hrd2).
      unfold bind at 1. rewrite Hrd2.
      unfold bind at 1.
      set (w5 := Machine (bus_write XPCS_VR_XS_PCS_DIG_CTRL1
                   (Z.lor c2 XPCS_VR_XS_PCS_DIG_CTRL1_USRA_RST) (hw w4))
                   (sw w4)).
      destruct (poll_until_run XPCS_VR_XS_PCS_DIG_CTRL1
                  (fun ctrl =>
                     Z.land ctrl XPCS_VR_XS_PCS_DIG_CTRL1_USRA_RST =? 0)
                  fuel 1000 0 w5)
        as (r1 & w6 & t1 & vs & Hl1 & Hall1 & Hcase1); [lia|lia|lia|].
      assert (Hvs : Forall
                (fun v => Z.land v XPCS_VR_XS_PCS_DIG_CTRL1_USRA_RST <> 0)
                vs).
      { eapply Forall_impl; [exact Hall1|]. cbv beta. intros v Hv.
        apply Z.eqb_neq. exact Hv. }
      unfold bind at 1. rewrite usra_rst_loop_poll, Hl1.
      rewrite (app_nil_r tp).
      assert (Hwr : In (EvWrite XPCS_VR_MII_AN_INTR_STS status) tp).
      { rewrite Htp0. apply in_or_app. right. right. left. reflexivity. }
      change (Z.to_nat (1000 + 1 - 0)) with 1001%nat in *.
      destruct Hcase1
        as [(-> & Hlen1 & ->)|(v & -> & Hd1 & _ & Hlen1 & ->)].
      * unfold ret.
        exists (-1), w6, c, tp,
          ([EvRead XPCS_SR_MII_CTRL c1;
            EvWrite XPCS_SR_MII_CTRL
              (speed_select (Z.land status XPCS_USXG_AN_STS_SPEED_MASK) c1);
            EvRead XPCS_VR_XS_PCS_DIG_CTRL1 c2;
            EvWrite XPCS_VR_XS_PCS_DIG_CTRL1
              (Z.lor c2 XPCS_VR_XS_PCS_DIG_CTRL1_USRA_RST)]
           ++ polls XPCS_VR_XS_PCS_DIG_CTRL1 vs ++ []).
        split; [norm_trace|].
        split; [exact Htp|]. split; [lia|]. split; [exact Hus|].
        right. exists status, c1, c2, vs, [].
        split; [exact Hwr|]. split; [exact Hspeed|].
        split; [reflexivity|].
        split; [exact Hvs|]. left. auto.
      * destruct (poll_until_run XPCS_SR_XS_PCS_STS1
                    (fun ctrl => Z.land ctrl XPCS_SR_XS_PCS_STS1_RLU
                                 =? XPCS_SR_XS_PCS_STS1_RLU)
                    fuel 1000 0 w6)
          as (r2 & w7 & t2 & us & Hl2 & Hall2 & Hcase2); [lia|lia|lia|].
        assert (Hus2 : Forall
                  (fun u => Z.land u XPCS_SR_XS_PCS_STS1_RLU
                            <> XPCS_SR_XS_PCS_STS1_RLU) us).
        { eapply Forall_impl; [exact Hall2|]. cbv beta. intros u Hu.
          apply Z.eqb_neq. exact Hu. }
        unfold bind at 1. rewrite rx_link_up_loop_poll, Hl2.
        change (Z.to_nat (1000 + 1 - 0)) with 1001%nat in *.
        destruct Hcase2
          as [(-> & Hlen2 & ->)|(u & -> & Hd2 & _ & Hlen2 & ->)].
        -- unfold ret.
           exists (-1), w7, c, tp,
             ([EvRead XPCS_SR_MII_CTRL c1;
            EvWrite XPCS_SR_MII_CTRL
              (speed_select (Z.land status XPCS_USXG_AN_STS_SPEED_MASK) c1);
            EvRead XPCS_VR_XS_PCS_DIG_CTRL1 c2;
            EvWrite XPCS_VR_XS_PCS_DIG_CTRL1
              (Z.lor c2 XPCS_VR_XS_PCS_DIG_CTRL1_USRA_RST)]
              ++ polls XPCS_VR_XS_PCS_DIG_CTRL1 vs
              ++ [EvRead XPCS_VR_XS_PCS_DIG_CTRL1 v]
              ++ polls XPCS_SR_XS_PCS_STS1 us ++ []).
           split; [norm_trace|].
           split; [exact Htp|]. split; [lia|]. split; [exact Hus|].
           right. exists status, c1, c2, vs.
           eexists. split; [exact Hwr|]. split; [exact Hspeed|].
           split; [reflexivity|].
           split; [exact Hvs|]. right.
           exists v, us, []. split; [lia|].
           split; [apply Z.eqb_eq; exact Hd1|].
           split; [reflexivity|].
           split; [exact Hus2|]. left. auto.
        -- unfold ret.
           exists 0, w7, c, tp,
             ([EvRead XPCS_SR_MII_CTRL c1;
            EvWrite XPCS_SR_MII_CTRL
              (speed_select (Z.land status XPCS_USXG_AN_STS_SPEED_MASK) c1);
            EvRead XPCS_VR_XS_PCS_DIG_CTRL1 c2;
            EvWrite XPCS_VR_XS_PCS_DIG_CTRL1
              (Z.lor c2 XPCS_VR_XS_PCS_DIG_CTRL1_USRA_RST)]
              ++ polls XPCS_VR_XS_PCS_DIG_CTRL1 vs
              ++ [EvRead XPCS_VR_XS_PCS_DIG_CTRL1 v]
              ++ polls XPCS_SR_XS_PCS_STS1 us
              ++ [EvRead XPCS_SR_XS_PCS_STS1 u]).
           split; [norm_trace|].
           split; [exact Htp|]. split; [lia|]. split; [exact Hus|].
           right. exists status, c1, c2, vs.
           eexists. split; [exact Hwr|]. split; [exact Hspeed|].
           split; [reflexivity|].
           split; [exact Hvs|]. right.
           exists v, us, [EvRead XPCS_SR_XS_PCS_STS1 u]. split; [lia|].
           split; [apply Z.eqb_eq; exact Hd1|].
           split; [reflexivity|].
           split; [exact Hus2|]. right. exists u.
           split; [reflexivity|]. split; [lia|].
           split; [apply Z.eqb_eq; exact Hd2|reflexivity].
Qed.

Lemma count_reads_polls_same (a : xpcs_reg) (vs : list Z) :
  count_events (is_read_of a) (polls a vs) = length vs.
Proof.
  induction vs as [|v vs IH]; [reflexivity|].
  change (polls a (v :: vs)) with ([EvRead a v; EvDelay 1000] ++ polls a vs).
  rewrite count_events_app, IH. unfold count_events.
  cbn [List.filter is_read_of]. rewrite bool_decide_eq_true_2 by reflexivity.
  reflexivity.
Qed.

Lemma count_reads_polls_other (a b : xpcs_reg) (vs : list Z) :
  a <> b -> count_events (is_read_of a) (polls b vs) = 0%nat.
Proof.
  intros Hne. induction vs as [|v vs IH]; [reflexivity|].
  change (polls b (v :: vs)) with ([EvRead b v; EvDelay 1000] ++ polls b vs).
  rewrite count_events_app, IH. unfold count_events.
  cbn [List.filter is_read_of].
  rewrite bool_decide_eq_false_2 by congruence. reflexivity.
Qed.

Lemma count_reads_untouched (a : xpcs_reg) (t : list (event xpcs_reg)) :
  (forall e, In e t -> touches a e = false) ->
  count_events (is_read_of a) t = 0%nat.
Proof.
  intros Hno. apply count_events_zero. intros e He.
  specialize (Hno e He). unfold touches in Hno.
  apply orb_false_iff in Hno as [Hrd _]. exact Hrd.
Qed.

Lemma delays_polls (a : xpcs_reg) (vs : list Z) :
  Forall (eq 1000) (delays (polls a vs)).
Proof.
  induction vs as [|v vs IH]; [constructor|].
  change (polls a (v :: vs)) with ([EvRead a v; EvDelay 1000] ++ polls a vs).
  rewrite delays_app. cbn [delays flat_map app].
  constructor; [reflexivity|exact IH].
Qed.

Ltac eval_counts :=
  repeat match goal with
         | |- context [count_events ?p (?e :: ?l)] =>
             let x := eval vm_compute in (count_events p (e :: l)) in
             change (count_events p (e :: l)) with x
         | |- context [count_events ?p []] =>
             change (count_events p []) with 0%nat
         | |- context [delay_total (?e :: ?l)] =>
             let x := eval vm_compute in (delay_total (e :: l)) in
             change (delay_total (e :: l)) with x
         | |- context [delay_total []] =>
             change (delay_total (@nil (event xpcs_reg))) with 0
         end.

(** X8.  [xpcs_start] returns 0 or -1.  It returns 0 only when its last
    access to the block is a read of SR_XS_PCS_STS1 with the receive
    link-up bit set, after it has acknowledged an AN status with a
    non-zero speed field and has read the rate-adaptor reset bit
    clear. *)
Theorem xpcs_start_zero_only_with_link_up (fuel : nat)
  (w : machine D unit) :
  (poll_fuel <= fuel)%nat ->
  exists r w' t,
    xpcs_start fuel w = Some (r, w', t) /\
    (r = 0 \/ r = -1) /\
    (r = 0 ->
     exists t0 u status v,
       t = t0 ++ [EvRead XPCS_SR_XS_PCS_STS1 u] /\
       Z.land u XPCS_SR_XS_PCS_STS1_RLU = XPCS_SR_XS_PCS_STS1_RLU /\
       In (EvWrite XPCS_VR_MII_AN_INTR_STS status) t0 /\
       Z.land status XPCS_USXG_AN_STS_SPEED_MASK <> 0 /\
       In (EvRead XPCS_VR_XS_PCS_DIG_CTRL1 v) t0 /\
       Z.land v XPCS_VR_XS_PCS_DIG_CTRL1_USRA_RST = 0).
Proof.
  intros Hf.
  destruct (xpcs_start_paths fuel w Hf)
    as (r & w' & c & tp & ta & Hrun & _ & _ & _ & Hcase).
  eexists r, w', _. split; [exact Hrun|].
  destruct Hcase as [(-> & _)|
    (status & c1 & c2 & vs & tb & Hwr & Hspeed & -> & _ & Hcase)].
  { split; [right; reflexivity|]. discriminate. }
  destruct Hcase as [(-> & _)|
    (v & us & tc & _ & Hclr & -> & _ & Hcase)].
  { split; [right; reflexivity|]. discriminate. }
  destruct Hcase as [(-> & _)|(u & -> & _ & Hup & ->)].
  { split; [right; reflexivity|]. discriminate. }
  split; [left; reflexivity|]. intros _.
  eexists _, u, status, v.
  split.
  { rewrite !app_assoc. reflexivity. }
  split; [exact Hup|].
  split.
  { rewrite <- !app_assoc. apply in_or_app. right.
    apply in_or_app. left. exact Hwr. }
  split; [exact Hspeed|].
  split; [|exact Hclr].
  rewrite <- !app_assoc. apply in_or_app. right.
  apply in_or_app. right. apply in_or_app. right.
  apply in_or_app. right. apply in_or_app. left. left. reflexivity.
Qed.

(** X9.  [xpcs_start] waits in steps of 1000 microseconds and for at
    most 3003 of them, whatever the block answers. *)
Theorem xpcs_start_bounded_wait (fuel : nat) (w : machine D unit) :
  (poll_fuel <= fuel)%nat ->
  exists r w' t,
    xpcs_start fuel w = Some (r, w', t) /\
    Forall (eq 1000) (delays t) /\
    delay_total t <= 3003 * 1000.
Proof.
  intros Hf.
  destruct (xpcs_start_paths fuel w Hf)
    as (r & w' & c & tp & ta & Hrun & _ & Hwait & Hus & Hcase).
  eexists r, w', _. split; [exact Hrun|].
  assert (Hta : Forall (eq 1000) (delays ta) /\ delay_total ta <= 2002000).
  { destruct Hcase as [(_ & [-> | ->])|
      (status & c1 & c2 & vs & tb & _ & _ & -> & _ & Hcase)].
    - split; [constructor|]. change (delay_total []) with 0. lia.
    - split; [constructor|]. change (delay_total _) with 0. lia.
    - assert (Htb : Forall (eq 1000) (delays tb) /\
                    delay_total (polls XPCS_VR_XS_PCS_DIG_CTRL1 vs ++ tb)
                    <= 2002000).
      { rewrite delay_total_app, delay_total_polls.
        destruct Hcase as [(_ & Hlen & ->)|
          (v & us & tc & Hlen & _ & -> & _ & Hcase)].
        - split; [constructor|]. change (delay_total []) with 0. lia.
        - rewrite !delays_app, !delay_total_app, delay_total_polls.
          destruct Hcase as [(_ & Hlen2 & ->)|(u & _ & Hlen2 & _ & ->)].
          + split.
            * apply Forall_app. split; [constructor|].
              apply Forall_app. split; [apply delays_polls|constructor].
            * eval_counts. lia.
          + split.
            * apply Forall_app. split; [constructor|].
              apply Forall_app. split; [apply delays_polls|constructor].
            * eval_counts. lia. }
      destruct Htb as [Hall Hsum]. split.
      + rewrite !delays_app. apply Forall_app. split; [constructor|].
        apply Forall_app. split; [apply delays_polls|exact Hall].
      + rewrite delay_total_app. eval_counts. lia. }
  destruct Hta as [Hall Hsum]. split.
  - rewrite !delays_app. apply Forall_app. split; [constructor|].
    apply Forall_app. split; [exact Hus|exact Hall].
  - rewrite !delay_total_app. eval_counts. lia.
Qed.

(** X10.  A run of [xpcs_start] in which every read of
    VR_XS_PCS_DIG_CTRL1 has the rate-adaptor reset bit set returns -1 and
    never reads the link status.  It has read VR_XS_PCS_DIG_CTRL1 either
    not at all, when autonegotiation failed before, or 1002 times: once
    to set the bit and in 1001 polls. *)
Theorem xpcs_start_rate_adaptor_reset_timeout (fuel : nat)
  (w : machine D unit) :
  (poll_fuel <= fuel)%nat ->
  exists r w' t,
    xpcs_start fuel w = Some (r, w', t) /\
    ((forall v, In (EvRead XPCS_VR_XS_PCS_DIG_CTRL1 v) t ->
                Z.land v XPCS_VR_XS_PCS_DIG_CTRL1_USRA_RST <> 0) ->
     r = -1 /\
     count_events (is_read_of XPCS_SR_XS_PCS_STS1) t = 0%nat /\
     (count_events (is_read_of XPCS_VR_XS_PCS_DIG_CTRL1) t = 0%nat \/
      count_events (is_read_of XPCS_VR_XS_PCS_DIG_CTRL1) t = 1002%nat)).
Proof.
  intros Hf.
  destruct (xpcs_start_paths fuel w Hf)
    as (r & w' & c & tp & ta & Hrun & Htp & _ & _ & Hcase).
  eexists r, w', _. split; [exact Hrun|]. intros Hset.
  assert (Hdig : count_events (is_read_of XPCS_VR_XS_PCS_DIG_CTRL1) tp
                 = 0%nat).
  { apply count_reads_untouched. intros e He. apply Htp. exact He. }
  assert (Hsts : count_events (is_read_of XPCS_SR_XS_PCS_STS1) tp = 0%nat).
  { apply count_reads_untouched. intros e He. apply Htp. exact He. }
  destruct Hcase as [(-> & [-> | ->])|
    (status & c1 & c2 & vs & tb & _ & _ & -> & _ & Hcase)].
  - split; [reflexivity|].
    rewrite !count_events_app, Hdig, Hsts. eval_counts. auto.
  - split; [reflexivity|].
    rewrite !count_events_app, Hdig, Hsts. eval_counts. auto.
  - destruct Hcase as [(-> & Hlen & ->)|
      (v & us & tc & _ & Hclr & -> & _)].
    + split; [reflexivity|].
      rewrite !count_events_app, Hdig, Hsts, count_reads_polls_same,
        count_reads_polls_other by discriminate.
      eval_counts. split; [reflexivity|]. right. lia.
    + exfalso. apply (Hset v); [|exact Hclr].
      apply in_or_app. right. apply in_or_app. right.
      apply in_or_app. right. apply in_or_app. right.
      apply in_or_app. left. left. reflexivity.
Qed.

(** X11.  A run of [xpcs_start] in which every read of SR_XS_PCS_STS1
    has the receive link-up bit clear returns -1.  It has read the link
    status either not at all, when an earlier step failed, or in 1001
    polls. *)
Theorem xpcs_start_link_up_timeout (fuel : nat) (w : machine D unit) :
  (poll_fuel <= fuel)%nat ->
  exists r w' t,
    xpcs_start fuel w = Some (r, w', t) /\
    ((forall u, In (EvRead XPCS_SR_XS_PCS_STS1 u) t ->
                Z.land u XPCS_SR_XS_PCS_STS1_RLU
                <> XPCS_SR_XS_PCS_STS1_RLU) ->
     r = -1 /\
     (count_events (is_read_of XPCS_SR_XS_PCS_STS1) t = 0%nat \/
      count_events (is_read_of XPCS_SR_XS_PCS_STS1) t = 1001%nat)).
Proof.
  intros Hf.
  destruct (xpcs_start_paths fuel w Hf)
    as (r & w' & c & tp & ta & Hrun & Htp & _ & _ & Hcase).
  eexists r, w', _. split; [exact Hrun|]. intros Hdown.
  assert (Hsts : count_events (is_read_of XPCS_SR_XS_PCS_STS1) tp = 0%nat).
  { apply count_reads_untouched. intros e He. apply Htp. exact He. }
  destruct Hcase as [(-> & [-> | ->])|
    (status & c1 & c2 & vs & tb & _ & _ & -> & _ & Hcase)].
  - split; [reflexivity|].
    rewrite !count_events_app, Hsts. eval_counts. auto.
  - split; [reflexivity|].
    rewrite !count_events_app, Hsts. eval_counts. auto.
  - destruct Hcase as [(-> & Hlen & ->)|
      (v & us & tc & _ & _ & -> & _ & Hcase)].
    + split; [reflexivity|].
      rewrite !count_events_app, Hsts,
        count_reads_polls_other by discriminate.
      eval_counts. auto.
    + destruct Hcase as [(-> & Hlen & ->)|(u & _ & _ & Hup & ->)].
      * split; [reflexivity|].
        rewrite !count_events_app, Hsts, count_reads_polls_same,
          count_reads_polls_other by discriminate.
        eval_counts. right. lia.
      * exfalso. apply (Hdown u); [|exact Hup].
        apply in_or_app. right. apply in_or_app. right.
        apply in_or_app. right. apply in_or_app. right.
        apply in_or_app. right. apply in_or_app. right.
        left. reflexivity.
Qed.

End XpcsStartPaths.

(** ** Bring-up of the XPCS: concrete runs *)

Section XpcsStartRuns.
Import Polling Xpcs XpcsBlocks.
Local Existing Instance dwc_xpcs_h.

Lemma reads_satisfy_sound {A : Type} `{EqDecision A} (a : A)
  (p : Z -> bool) (t : list (event A)) :
  reads_satisfy a p t = true ->
  forall v, In (EvRead a v) t -> p v = true.
Proof.
  unfold reads_satisfy. rewrite forallb_forall. intros Hall v Hin.
  specialize (Hall _ Hin). cbn in Hall.
  rewrite decide_True in Hall by reflexivity. exact Hall.
Qed.

Lemma xpcs_start_zero_only_with_link_up_witness :
  exists w' t0 u,
    xpcs_start poll_fuel (Machine link_up_regs tt)
    = Some (0, w', t0 ++ [EvRead XPCS_SR_XS_PCS_STS1 u]) /\
    Z.land u 0x4 = 0x4.
Proof.
  destruct (xpcs_start_zero_only_with_link_up poll_fuel
              (Machine link_up_regs tt) (le_n poll_fuel))
    as (r & w' & t & Hrun & _ & Himp).
  assert (Hr : match xpcs_start poll_fuel (Machine link_up_regs tt) with
               | Some (r, _, _) => r
               | None => -1
               end = 0) by (vm_compute; reflexivity).
  rewrite Hrun in Hr. subst r.
  destruct (Himp eq_refl) as (t0 & u & status & v & -> & Hup & _).
  exists w', t0, u. split; [exact Hrun|exact Hup].
Defined.

Lemma xpcs_start_bounded_wait_witness :
  exists r w' t,
    xpcs_start poll_fuel (Machine silent_regs tt) = Some (r, w', t) /\
    delay_total t <= 3003 * 1000.
Proof.
  destruct (xpcs_start_bounded_wait poll_fuel (Machine silent_regs tt)
              (le_n poll_fuel))
    as (r & w' & t & Hrun & _ & Hsum).
  exists r, w', t. split; [exact Hrun|exact Hsum].
Defined.

Lemma xpcs_start_rate_adaptor_reset_timeout_witness :
  exists w' t,
    xpcs_start poll_fuel (Machine usra_stuck_regs tt) = Some (-1, w', t) /\
    count_events (is_read_of XPCS_SR_XS_PCS_STS1) t = 0%nat /\
    count_events (is_read_of XPCS_VR_XS_PCS_DIG_CTRL1) t = 1002%nat.
Proof.
  destruct (xpcs_start_rate_adaptor_reset_timeout poll_fuel
              (Machine usra_stuck_regs tt) (le_n poll_fuel))
    as (r & w' & t & Hrun & Himp).
  assert (Hb : match xpcs_start poll_fuel (Machine usra_stuck_regs tt) with
               | Some (_, _, t) =>
                   reads_satisfy XPCS_VR_XS_PCS_DIG_CTRL1
                     (fun v => negb (Z.land v 0x400 =? 0)) t
                   && Nat.eqb (count_events
                                 (is_read_of XPCS_VR_XS_PCS_DIG_CTRL1) t)
                              1002
               | None => false
               end = true) by (vm_compute; reflexivity).
  rewrite Hrun in Hb. apply andb_true_iff in Hb as [Hb Hn].
  apply Nat.eqb_eq in Hn.
  destruct Himp as (-> & Hsts & _).
  - intros v Hv. apply (reads_satisfy_sound _ _ _ Hb) in Hv.
    apply negb_true_iff, Z.eqb_neq in Hv. exact Hv.
  - exists w', t. auto.
Defined.

Lemma xpcs_start_link_up_timeout_witness :
  exists w' t,
    xpcs_start poll_fuel (Machine link_down_regs tt) = Some (-1, w', t) /\
    count_events (is_read_of XPCS_SR_XS_PCS_STS1) t = 1001%nat.
Proof.
  destruct (xpcs_start_link_up_timeout poll_fuel
              (Machine link_down_regs tt) (le_n poll_fuel))
    as (r & w' & t & Hrun & Himp).
  assert (Hb : match xpcs_start poll_fuel (Machine link_down_regs tt) with
               | Some (_, _, t) =>
                   reads_satisfy XPCS_SR_XS_PCS_STS1
                     (fun u => negb (Z.land u 0x4 =? 0x4)) t
                   && Nat.eqb (count_events
                                 (is_read_of XPCS_SR_XS_PCS_STS1) t)
                              1001
               | None => false
               end = true) by (vm_compute; reflexivity).
  rewrite Hrun in Hb. apply andb_true_iff in Hb as [Hb Hn].
  apply Nat.eqb_eq in Hn.
  destruct Himp as (-> & _).
  - intros u Hu. apply (reads_satisfy_sound _ _ _ Hb) in Hu.
    apply negb_true_iff, Z.eqb_neq in Hu. exact Hu.
  - exists w', t. auto.
Defined.

End XpcsStartRuns.

(** ** Slot scheduling: the enable path *)

Section DmaSlotFacts.
Import EqosDma.
Context {D : Type} {bus : Bus Z D} {hdr : eqos_dma_h}.




End DmaSlotFacts.

Section DmaSlotRegfile.
Import EqosDma.
Context {hdr : eqos_dma_h}.

Lemma eqos_config_slot_regfile (osi_dma : osi_dma_priv_data)
  (chan set interval : Z) (r : regfile Z) (c : dma_func_safety) :
  exists x t,
    eqos_config_slot osi_dma chan set interval (Machine r c)
    = Some (tt,
            Machine (reg_set (base osi_dma + EQOS_DMA_CHX_SLOT_CTRL chan)
                             x r) c, t).
Proof.
  unfold eqos_config_slot.
  destruct (set =? OSI_ENABLE);
    unfold bind, osi_readl, osi_writel;
    cbn [bus_read bus_write regfile_bus hw sw];
    eexists _, _; reflexivity.
Qed.

Lemma shadow_matches_reg_set (r : regfile Z) (c : dma_func_safety)
  (a x : Z) :
  (forall (i : nat) (ai : Z),
     (Z.to_nat EQOS_DMA_CH0_CTRL_IDX <= i)%nat ->
     reg_addr c !! i = Some ai -> ai <> OSI_NULL -> ai <> a) ->
  shadow_matches (reg_set a x r) c <-> shadow_matches r c.
Proof.
  intros Hfree. unfold shadow_matches, shadow_matches_from.
  split; intros Hm i ai m v Hi Ha Hmask Hv Hnn.
  - rewrite <- (Hm i ai m v Hi Ha Hmask Hv Hnn).
    rewrite reg_get_set_ne by (apply (Hfree i); assumption). reflexivity.
  - rewrite reg_get_set_ne by (apply (Hfree i); assumption).
    apply (Hm i ai m v Hi Ha Hmask Hv Hnn).
Qed.

(** X13.  On registers that hold their values, a call of
    [eqos_config_slot], to enable or to disable, does not change what
    [eqos_validate_dma_regs] returns, as long as the slot-control
    register of the channel is not the register of a populated slot of
    the safety table. *)
Theorem eqos_config_slot_keeps_validation (osi_dma : osi_dma_priv_data)
  (chan set interval : Z) (r : regfile Z) (c : dma_func_safety) :
  0 <= EQOS_DMA_CH0_CTRL_IDX <= EQOS_MAX_DMA_SAFETY_REGS ->
  config_wf c ->
  (forall (i : nat) (a : Z),
     (Z.to_nat EQOS_DMA_CH0_CTRL_IDX <= i)%nat ->
     reg_addr c !! i = Some a -> a <> OSI_NULL ->
     a <> base osi_dma + EQOS_DMA_CHX_SLOT_CTRL chan) ->
  exists res w' t t',
    eqos_validate_dma_regs (Machine r c) = Some (res, w', t) /\
    and_then (eqos_config_slot osi_dma chan set interval)
             eqos_validate_dma_regs (Machine r c) = Some (res, t').
Proof.
  intros Hidx Hwf Hfree.
  destruct (eqos_config_slot_regfile osi_dma chan set interval r c)
    as (x & ts & Hslot).
  set (r' := reg_set (base osi_dma + EQOS_DMA_CHX_SLOT_CTRL chan) x r) in *.
  pose proof (shadow_matches_reg_set r c _ x Hfree) as Hiff. fold r' in Hiff.
  destruct (eqos_validate_dma_regs_regfile r c Hidx Hwf)
    as (t & _ & [[Hm Hrun]|[Hm Hrun]]);
  destruct (eqos_validate_dma_regs_regfile r' c Hidx Hwf)
    as (t' & _ & [[Hm' Hrun']|[Hm' Hrun']]).
  - exists 0, (Machine r c), t, t'. split; [exact Hrun|].
    unfold and_then. rewrite Hslot, Hrun'. reflexivity.
  - exfalso. apply Hm', Hiff, Hm.
  - exfalso. apply Hm, Hiff, Hm'.
  - exists (-1), (Machine r c), t, t'. split; [exact Hrun|].
    unfold and_then. rewrite Hslot, Hrun'. reflexivity.
Qed.

End DmaSlotRegfile.

(** ** The safety table after [eqos_dma_safety_init] *)

Section DmaTableFacts.
Import EqosDma EqosDmaChan.
Context {D : Type} {bus : Bus Z D} {hdr : eqos_dma_h}.

Lemma set_reg_addr_run (i x : Z) (d : D) (c : dma_func_safety) :
  0 <= i -> (Z.to_nat i < length (reg_addr c))%nat ->
  set_reg_addr i x (Machine d c)
  = Some (tt, Machine d (DmaFuncSafety (<[Z.to_nat i := x]> (reg_addr c))
                           (reg_mask c) (reg_val c) (dma_safety_lock c)),
          []).
Proof.
  intros Hi Hlen. unfold set_reg_addr.
  unfold bind at 1, get_sw. cbn [sw].
  unfold bind at 1. rewrite array_set_Some by assumption.
  unfold put_sw. cbn [hw sw app]. reflexivity.
Qed.

Lemma set_reg_mask_run (i x : Z) (d : D) (c : dma_func_safety) :
  0 <= i -> (Z.to_nat i < length (reg_mask c))%nat ->
  set_reg_mask i x (Machine d c)
  = Some (tt, Machine d (DmaFuncSafety (reg_addr c)
                           (<[Z.to_nat i := x]> (reg_mask c))
                           (reg_val c) (dma_safety_lock c)),
          []).
Proof.
  intros Hi Hlen. unfold set_reg_mask.
  unfold bind at 1, get_sw. cbn [sw].
  unfold bind at 1. rewrite array_set_Some by assumption.
  unfold put_sw. cbn [hw sw app]. reflexivity.
Qed.

Lemma write_slots_length (f : slot -> Z) (l : list slot) (a : list Z) :
  length (write_slots f l a) = length a.
Proof.
  unfold write_slots. revert a.
  induction l as [|s l IH]; intros a; [reflexivity|].
  cbn [fold_left]. rewrite IH. apply length_insert.
Qed.

Lemma write_slots_app (f : slot -> Z) (l1 l2 : list slot) (a : list Z) :
  write_slots f (l1 ++ l2) a = write_slots f l2 (write_slots f l1 a).
Proof. unfold write_slots. apply fold_left_app. Qed.

(** An entry of the array after the assignments is an old entry or was
    assigned. *)
Lemma write_slots_lookup (f : slot -> Z) (l : list slot) (a : list Z)
  (j : nat) (x : Z) :
  write_slots f l a !! j = Some x ->
  a !! j = Some x \/
  exists s, In s l /\ Z.to_nat (slot_idx s) = j /\ f s = x.
Proof.
  unfold write_slots. revert a.
  induction l as [|s l IH]; intros a Hx; [left; exact Hx|].
  cbn [fold_left] in Hx. apply IH in Hx as [Hx|(s' & Hin & Hj & Hf)].
  - apply list_lookup_insert_Some in Hx as [(Hj & Hf & _)|(_ & Hx)].
    + right. exists s. split; [left; reflexivity|]. split; assumption.
    + left. exact Hx.
  - right. exists s'. split; [right; exact Hin|]. split; assumption.
Qed.

(** An index that is not assigned keeps its entry. *)
Lemma write_slots_other (f : slot -> Z) (l : list slot) (a : list Z)
  (j : nat) :
  (forall s, In s l -> Z.to_nat (slot_idx s) <> j) ->
  write_slots f l a !! j = a !! j.
Proof.
  unfold write_slots. revert a.
  induction l as [|s l IH]; intros a Hno; [reflexivity|].
  cbn [fold_left]. rewrite IH by (intros s' Hs'; apply Hno; right; exact Hs').
  apply list_lookup_insert_ne. apply Hno. left. reflexivity.
Qed.

(** When slots with the same index carry the same value, every slot
    finds its value at its index. *)
Lemma write_slots_complete (f : slot -> Z) (l : list slot) (a : list Z)
  (s : slot) :
  (forall s1 s2, In s1 l -> In s2 l ->
                 Z.to_nat (slot_idx s1) = Z.to_nat (slot_idx s2) ->
                 f s1 = f s2) ->
  In s l -> (Z.to_nat (slot_idx s) < length a)%nat ->
  write_slots f l a !! Z.to_nat (slot_idx s) = Some (f s).
Proof.
  induction l as [|s0 l IH] using rev_ind; intros Hsame Hin Hlen;
    [destruct Hin|].
  rewrite write_slots_app. cbn [write_slots fold_left].
  destruct (decide (Z.to_nat (slot_idx s0) = Z.to_nat (slot_idx s)))
    as [Heq|Hne].
  - rewrite Heq.
    rewrite list_lookup_insert_eq
      by (fold (write_slots f l a); rewrite write_slots_length; exact Hlen).
    f_equal. apply Hsame; [apply in_or_app; right; left; reflexivity| |];
      assumption.
  - rewrite list_lookup_insert_ne by exact Hne.
    apply IH.
    + intros s1 s2 H1 H2.
      apply Hsame; apply in_or_app; left; assumption.
    + apply in_app_or in Hin as [Hin|[->|[]]]; [exact Hin|].
      contradiction Hne. reflexivity.
    + exact Hlen.
Qed.

Lemma populate_chan_run (osi_dma : osi_dma_priv_data) (i k : Z) (d : D)
  (c : dma_func_safety) :
  0 <= i -> dma_chans osi_dma !! Z.to_nat i = Some k ->
  Forall (fun s => 0 <= slot_idx s /\
                   (Z.to_nat (slot_idx s) < length (reg_addr c))%nat)
         (chan_slots osi_dma k) ->
  length (reg_mask c) = length (reg_addr c) ->
  populate_chan osi_dma i (Machine d c)
  = Some (tt,
          Machine d (DmaFuncSafety
                       (write_slots slot_addr (chan_slots osi_dma k)
                                    (reg_addr c))
                       (write_slots slot_mask (chan_slots osi_dma k)
                                    (reg_mask c))
                       (reg_val c) (dma_safety_lock c)),
          []).
Proof.
  intros Hi Hk Hall Hlm.
  unfold chan_slots, safety_classes in *. cbn [map fst snd] in *.
  repeat match goal with
         | H : Forall _ (_ :: _) |- _ =>
             apply Forall_cons in H;
             let H1 := fresh "Hs" in
             let H2 := fresh "Hl" in
             destruct H as [[H1 H2] H];
             unfold slot_idx in H1, H2; cbn [fst snd] in H1, H2
         end.
  unfold populate_chan.
  unfold bind at 1. rewrite array_get_Some with (x := k) by assumption.
  do 6 (unfold bind at 1;
        rewrite set_reg_addr_run
          by (cbn [reg_addr]; rewrite ?length_insert; assumption);
        cbn [reg_addr reg_mask reg_val dma_safety_lock]).
  do 5 (unfold bind at 1;
        rewrite set_reg_mask_run
          by (cbn [reg_mask]; rewrite ?length_insert, ?Hlm; assumption);
        cbn [reg_addr reg_mask reg_val dma_safety_lock]).
  rewrite set_reg_mask_run
    by (cbn [reg_mask]; rewrite ?length_insert, ?Hlm; assumption).
  cbn [reg_addr reg_mask reg_val dma_safety_lock app].
  reflexivity.
Qed.

Lemma populate_loop_run (osi_dma : osi_dma_priv_data) (ks : list Z)
  (i : Z) (d : D) (c : dma_func_safety) :
  0 <= i ->
  (forall j k, ks !! j = Some k ->
               dma_chans osi_dma !! (Z.to_nat i + j)%nat = Some k) ->
  Forall (fun s => 0 <= slot_idx s /\
                   (Z.to_nat (slot_idx s) < length (reg_addr c))%nat)
         (flat_map (chan_slots osi_dma) ks) ->
  length (reg_mask c) = length (reg_addr c) ->
  populate_loop osi_dma (length ks) i (Machine d c)
  = Some (tt,
          Machine d (DmaFuncSafety
                       (write_slots slot_addr
                          (flat_map (chan_slots osi_dma) ks) (reg_addr c))
                       (write_slots slot_mask
                          (flat_map (chan_slots osi_dma) ks) (reg_mask c))
                       (reg_val c) (dma_safety_lock c)),
          []).
Proof.
  revert i c. induction ks as [|k ks IH]; intros i c Hi Hks Hall Hlm.
  - cbn. unfold ret. destruct c. reflexivity.
  - cbn [length populate_loop flat_map].
    apply Forall_app in Hall as [Hk Hrest].
    unfold bind at 1.
    rewrite (populate_chan_run osi_dma i k d c Hi); [| |exact Hk|exact Hlm].
    2:{ specialize (Hks 0%nat k eq_refl).
        rewrite Nat.add_0_r in Hks. exact Hks. }
    rewrite IH.
    + cbn [reg_addr reg_mask reg_val dma_safety_lock app].
      rewrite !write_slots_app. reflexivity.
    + lia.
    + intros j k' Hj. specialize (Hks (S j) k' Hj).
      replace (Z.to_nat (i + 1) + j)%nat with (Z.to_nat i + S j)%nat by lia.
      exact Hks.
    + cbn [reg_addr]. eapply Forall_impl; [exact Hrest|].
      cbv beta. intros s [H0 Hlt]. split; [exact H0|].
      rewrite write_slots_length. exact Hlt.
    + cbn [reg_addr reg_mask]. rewrite !write_slots_length. exact Hlm.
Qed.

End DmaTableFacts.

Section DmaInitRegfile.
Import EqosDma EqosDmaChan.
Context {hdr : eqos_dma_h}.

Lemma set_reg_val_run (i x : Z) (r : regfile Z) (c : dma_func_safety) :
  0 <= i -> (Z.to_nat i < length (reg_val c))%nat ->
  set_reg_val i x (Machine r c)
  = Some (tt, Machine r (DmaFuncSafety (reg_addr c) (reg_mask c)
                           (<[Z.to_nat i := x]> (reg_val c))
                           (dma_safety_lock c)),
          []).
Proof.
  intros Hi Hlen. unfold set_reg_val.
  unfold bind at 1, get_sw. cbn [sw].
  unfold bind at 1. rewrite array_set_Some by assumption.
  unfold put_sw. cbn [hw sw app]. reflexivity.
Qed.

(** The seeding loop on registers that hold their values: it reads the
    register of every populated slot in its range and stores the masked
    value; addresses, masks and the registers stay as they are. *)
Lemma seed_loop_regfile (n : nat) (i : Z) (r : regfile Z)
  (c : dma_func_safety) :
  0 <= i -> (Z.to_nat i + n <= length (reg_addr c))%nat ->
  length (reg_mask c) = length (reg_addr c) ->
  length (reg_val c) = length (reg_addr c) ->
  exists vals t,
    seed_loop n i (Machine r c)
    = Some (tt,
            Machine r (DmaFuncSafety (reg_addr c) (reg_mask c) vals
                         (dma_safety_lock c)), t) /\
    length vals = length (reg_val c) /\
    (forall j, (j < Z.to_nat i)%nat \/ (Z.to_nat i + n <= j)%nat ->
               vals !! j = reg_val c !! j) /\
    (forall j a m v,
       (Z.to_nat i <= j)%nat -> (j < Z.to_nat i + n)%nat ->
       reg_addr c !! j = Some a -> reg_mask c !! j = Some m ->
       vals !! j = Some v -> a <> OSI_NULL ->
       Z.land (u32 (reg_get r a)) m = v) /\
    Forall (fun e => exists a, e = EvRead a (u32 (reg_get r a))) t.
Proof.
  revert i c. induction n as [|n IH]; intros i c Hi Hlen Hlm Hlv.
  - exists (reg_val c), []. cbn [seed_loop]. unfold ret.
    destruct c as [ca cm cv cl]. cbn [reg_addr reg_mask reg_val
                                      dma_safety_lock].
    split; [reflexivity|]. split; [reflexivity|].
    split; [reflexivity|]. split; [intros; lia|constructor].
  - destruct (lookup_lt_is_Some_2 (reg_addr c) (Z.to_nat i)) as [a Ha];
      [lia|].
    destruct (lookup_lt_is_Some_2 (reg_mask c) (Z.to_nat i)) as [m Hm];
      [lia|].
    cbn [seed_loop].
    unfold bind at 1, get_sw. cbn [sw].
    unfold bind at 1. rewrite array_get_Some with (x := a) by assumption.
    destruct (Z.eqb_spec a OSI_NULL) as [Hnull|Hnn].
    + destruct (IH (i + 1) c) as (vals & t & Hrun & Hl & Hframe & Hseed & Ht);
        [lia|lia|exact Hlm|exact Hlv|].
      exists vals, t. split; [rewrite Hrun; reflexivity|].
      split; [exact Hl|]. split; [|split; [|exact Ht]].
      * intros j Hj. apply Hframe. lia.
      * intros j a' m' v Hj1 Hj2 Ha' Hm' Hv Hnn'.
        destruct (Nat.eq_dec j (Z.to_nat i)) as [->|Hne].
        -- congruence.
        -- apply (Hseed j a' m' v); try assumption; lia.
    + unfold bind at 1, osi_readl.
      cbn [bus_read regfile_bus hw sw].
      unfold bind at 1. cbn [sw].
      rewrite array_get_Some with (x := m) by assumption.
      unfold bind at 1. rewrite set_reg_val_run by (cbn [reg_val]; lia).
      set (c1 := DmaFuncSafety (reg_addr c) (reg_mask c)
                   (<[Z.to_nat i := Z.land (u32 (reg_get r a)) m]>
                      (reg_val c)) (dma_safety_lock c)).
      destruct (IH (i + 1) c1)
        as (vals & t & Hrun & Hl & Hframe & Hseed & Ht).
      * lia.
      * cbn [reg_addr c1]. lia.
      * exact Hlm.
      * cbn [reg_val reg_addr c1]. rewrite length_insert. exact Hlv.
      * cbn [reg_addr reg_mask reg_val dma_safety_lock c1] in *.
        rewrite Hrun. rewrite length_insert in Hl.
        exists vals, (EvRead a (u32 (reg_get r a)) :: t). cbn [app].
        split; [reflexivity|]. split; [exact Hl|].
        split; [|split].
        -- intros j Hj. rewrite Hframe by lia.
           apply list_lookup_insert_ne. lia.
        -- intros j a' m' v Hj1 Hj2 Ha' Hm' Hv Hnn'.
           destruct (Nat.eq_dec j (Z.to_nat i)) as [->|Hne].
           ++ rewrite Hframe in Hv by lia.
              rewrite list_lookup_insert_eq in Hv by lia.
              congruence.
           ++ apply (Hseed j a' m' v); try assumption; lia.
        -- constructor; [exists a; reflexivity|exact Ht].
Qed.

(** [eqos_dma_safety_init] on registers that hold their values, in
    closed form. *)
Lemma eqos_dma_safety_init_regfile (osi_dma : osi_dma_priv_data)
  (r : regfile Z) (c : dma_func_safety) :
  layout_ok osi_dma -> table_sized c ->
  exists addrs0 vals t,
    let addrs := write_slots slot_addr (slots_of osi_dma) addrs0 in
    let masks := write_slots slot_mask (slots_of osi_dma) (reg_mask c) in
    eqos_dma_safety_init osi_dma (Machine r c)
    = Some (tt, Machine r (DmaFuncSafety addrs masks vals false), t) /\
    length addrs0 = Z.to_nat EQOS_MAX_DMA_SAFETY_REGS /\
    length vals = Z.to_nat EQOS_MAX_DMA_SAFETY_REGS /\
    (forall j a, (Z.to_nat EQOS_DMA_CH0_CTRL_IDX <= j)%nat ->
                 addrs0 !! j = Some a -> a = OSI_NULL) /\
    (forall j, (j < Z.to_nat EQOS_DMA_CH0_CTRL_IDX)%nat ->
               addrs0 !! j = reg_addr c !! j) /\
    shadow_matches r (DmaFuncSafety addrs masks vals false) /\
    Forall (fun e => exists a, e = EvRead a (u32 (reg_get r a))) t.
Proof.
  intros (Hidx & Hnum & Hslots & Hcons) (Hla & Hlm & Hlv).
  destruct (clear_addr_loop_run safety_regs_count EQOS_DMA_CH0_CTRL_IDX r c)
    as (addrs0 & Hclear & Hl0 & Hnull & Hbelow).
  { lia. }
  { unfold safety_regs_count. lia. }
  set (c1 := DmaFuncSafety addrs0 (reg_mask c) (reg_val c)
               (dma_safety_lock c)) in *.
  assert (Hlen_used : length (used_chans osi_dma)
                      = Z.to_nat (num_dma_chans osi_dma)).
  { unfold used_chans. rewrite length_take. lia. }
  set (addrs := write_slots slot_addr (slots_of osi_dma) addrs0).
  set (masks := write_slots slot_mask (slots_of osi_dma) (reg_mask c)).
  set (c2 := DmaFuncSafety addrs masks (reg_val c) (dma_safety_lock c)).
  assert (Hpop : populate_loop osi_dma (Z.to_nat (num_dma_chans osi_dma)) 0
                   (Machine r c1) = Some (tt, Machine r c2, [])).
  { rewrite <- Hlen_used.
    refine (populate_loop_run osi_dma (used_chans osi_dma) 0 r c1 _ _ _ _).
    - lia.
    - intros j k Hj. change (Z.to_nat 0 + j)%nat with j.
      unfold used_chans in Hj. apply lookup_take_Some in Hj as [Hj _].
      exact Hj.
    - eapply Forall_impl; [exact Hslots|]. cbv beta.
      intros s [Hs _]. cbn [reg_addr c1]. split; lia.
    - cbn [reg_addr reg_mask c1]. lia. }
  assert (Hla2 : length addrs = Z.to_nat EQOS_MAX_DMA_SAFETY_REGS).
  { unfold addrs. rewrite write_slots_length. lia. }
  assert (Hlm2 : length masks = Z.to_nat EQOS_MAX_DMA_SAFETY_REGS).
  { unfold masks. rewrite write_slots_length. lia. }
  destruct (seed_loop_regfile safety_regs_count EQOS_DMA_CH0_CTRL_IDX r c2)
    as (vals & t & Hseed & Hlvals & _ & Hmatch & Ht).
  { lia. }
  { cbn [reg_addr c2]. unfold safety_regs_count. lia. }
  { cbn [reg_addr reg_mask c2]. lia. }
  { cbn [reg_addr reg_val c2]. lia. }
  cbn [reg_addr reg_mask reg_val dma_safety_lock c2] in Hseed, Hlvals, Hmatch.
  exists addrs0, vals, t. cbv zeta. fold addrs masks.
  split.
  { unfold eqos_dma_safety_init.
    unfold bind at 1. rewrite Hclear. fold c1.
    unfold bind at 1. rewrite Hpop.
    unfold bind at 1. rewrite Hseed.
    cbv [osi_lock_init bind get_sw put_sw hw sw set_lock reg_addr reg_mask
         reg_val dma_safety_lock].
    cbn [app]. rewrite app_nil_r. reflexivity. }
  split; [lia|]. split; [lia|].
  split.
  { intros j a Hj Ha. apply (Hnull j a); [exact Hj| |exact Ha].
    apply lookup_lt_Some in Ha. unfold safety_regs_count. lia. }
  split; [intros j Hj; apply Hbelow; left; exact Hj|].
  split; [|exact Ht].
  intros j a m v Hj Ha Hm Hv Hnn.
  cbn [reg_addr reg_mask reg_val] in Ha, Hm, Hv.
  apply (Hmatch j a m v); try assumption.
  apply lookup_lt_Some in Ha. unfold safety_regs_count. lia.
Qed.

Lemma layout_slot_bounds (osi_dma : osi_dma_priv_data) (s : slot) :
  layout_ok osi_dma -> In s (slots_of osi_dma) ->
  EQOS_DMA_CH0_CTRL_IDX <= slot_idx s < EQOS_MAX_DMA_SAFETY_REGS /\
  slot_addr s <> OSI_NULL.
Proof.
  intros (_ & _ & Hslots & _) Hin.
  rewrite Forall_forall in Hslots. apply Hslots.
  apply list_elem_of_In. exact Hin.
Qed.

Lemma layout_slot_same (osi_dma : osi_dma_priv_data) (s1 s2 : slot) :
  layout_ok osi_dma ->
  In s1 (slots_of osi_dma) -> In s2 (slots_of osi_dma) ->
  (Z.to_nat (slot_idx s1) = Z.to_nat (slot_idx s2)
   <-> slot_addr s1 = slot_addr s2).
Proof.
  intros Hok H1 H2.
  destruct (layout_slot_bounds osi_dma s1 Hok H1) as [Hb1 _].
  destruct (layout_slot_bounds osi_dma s2 Hok H2) as [Hb2 _].
  destruct Hok as (Hidx & _ & _ & Hcons).
  rewrite Forall_forall in Hcons.
  specialize (Hcons s1 (proj2 (list_elem_of_In _ _) H1)).
  rewrite Forall_forall in Hcons.
  specialize (Hcons s2 (proj2 (list_elem_of_In _ _) H2)).
  rewrite <- Hcons. split; [intros Heq; lia|intros ->; reflexivity].
Qed.

(** X14.  On registers that hold their values, [eqos_dma_safety_init]
    only reads registers, leaves the lock free and builds a table that
    [eqos_validate_dma_regs] accepts, whatever the table held before and
    whoever held the lock. *)
Theorem eqos_dma_safety_init_then_validates (osi_dma : osi_dma_priv_data)
  (r : regfile Z) (c : dma_func_safety) :
  layout_ok osi_dma -> table_sized c ->
  exists c' t t',
    eqos_dma_safety_init osi_dma (Machine r c)
    = Some (tt, Machine r c', t) /\
    config_wf c' /\
    Forall (fun e => exists a, e = EvRead a (u32 (reg_get r a))) t /\
    eqos_validate_dma_regs (Machine r c') = Some (0, Machine r c', t').
Proof.
  intros Hok Hsized.
  destruct (eqos_dma_safety_init_regfile osi_dma r c Hok Hsized)
    as (addrs0 & vals & t & Hrun & Hl0 & Hlv & _ & _ & Hmatch & Ht).
  cbv zeta in Hrun, Hmatch.
  set (c' := DmaFuncSafety
               (write_slots slot_addr (slots_of osi_dma) addrs0)
               (write_slots slot_mask (slots_of osi_dma) (reg_mask c))
               vals false) in *.
  assert (Hwf : config_wf c').
  { destruct Hsized as (_ & Hlm & _).
    unfold config_wf, c'. cbn [reg_addr reg_mask reg_val dma_safety_lock].
    rewrite !write_slots_length. auto. }
  destruct Hok as (Hidx & _).
  destruct (eqos_validate_dma_regs_regfile r c' Hidx Hwf)
    as (t' & _ & [[_ Hval]|[Hno _]]); [|contradiction].
  exists c', t, t'. auto.
Qed.

(** X15.  The table that [eqos_dma_safety_init] builds: every slot of a
    channel in use holds the address of its register, every other slot
    from [EQOS_DMA_CH0_CTRL_IDX] on is null, and the slots below are as
    they were. *)
Theorem eqos_dma_safety_init_populates_layout
  (osi_dma : osi_dma_priv_data) (r : regfile Z) (c : dma_func_safety) :
  layout_ok osi_dma -> table_sized c ->
  exists c' t,
    eqos_dma_safety_init osi_dma (Machine r c)
    = Some (tt, Machine r c', t) /\
    (forall s, In s (slots_of osi_dma) ->
               reg_addr c' !! Z.to_nat (slot_idx s) = Some (slot_addr s)) /\
    (forall i a,
       (Z.to_nat EQOS_DMA_CH0_CTRL_IDX <= i)%nat ->
       reg_addr c' !! i = Some a ->
       (forall s, In s (slots_of osi_dma) -> Z.to_nat (slot_idx s) <> i) ->
       a = OSI_NULL) /\
    (forall i, (i < Z.to_nat EQOS_DMA_CH0_CTRL_IDX)%nat ->
               reg_addr c' !! i = reg_addr c !! i) /\
    populated_in_layout osi_dma c'.
Proof.
  intros Hok Hsized.
  destruct (eqos_dma_safety_init_regfile osi_dma r c Hok Hsized)
    as (addrs0 & vals & t & Hrun & Hl0 & Hlv & Hnull & Hbelow & _ & _).
  cbv zeta in Hrun. pose proof (proj1 Hok) as Hidx.
  eexists _, t. split; [exact Hrun|]. cbn [reg_addr].
  split; [|split; [|split]].
  - intros s Hs. apply write_slots_complete.
    + intros s1 s2 H1 H2 Heq.
      apply (layout_slot_same osi_dma s1 s2 Hok H1 H2). exact Heq.
    + exact Hs.
    + destruct (layout_slot_bounds osi_dma s Hok Hs) as [Hb _]. lia.
  - intros i a Hi Ha Hnone.
    rewrite write_slots_other in Ha by exact Hnone.
    apply (Hnull i a Hi Ha).
  - intros i Hi. rewrite write_slots_other; [apply Hbelow; exact Hi|].
    intros s Hs.
    destruct (layout_slot_bounds osi_dma s Hok Hs) as [Hb _]. lia.
  - intros i a Hi Ha Hnn.
    apply write_slots_lookup in Ha as [Ha|Hs]; [|exact Hs].
    contradiction Hnn. apply (Hnull i a Hi Ha).
Qed.

End DmaInitRegfile.

(** ** Channel configuration keeps the safety table in step *)

Section DmaChanFacts.
Import EqosDma EqosDmaChan.
Context {hdr : eqos_dma_h} {chdr : eqos_dma_chan_h}.

Lemma land_u32_bound_l (a b : Z) :
  0 <= a < 2 ^ 32 -> 0 <= Z.land a b < 2 ^ 32.
Proof.
  intros Ha.
  assert (Heq : Z.land a b = u32 (Z.land a b)).
  { apply Z.bits_inj'. intros i Hi.
    rewrite testbit_u32 by exact Hi. rewrite Z.land_spec.
    destruct (Z.ltb_spec i 32) as [Hlt|Hge].
    - rewrite andb_true_r. reflexivity.
    - rewrite (testbit_above_u32 a i Ha Hge). reflexivity. }
  rewrite Heq. apply u32_bound.
Qed.

Lemma chan_slot_in (osi_dma : osi_dma_priv_data) (chan : Z) (s : slot) :
  In chan (used_chans osi_dma) -> In s (chan_slots osi_dma chan) ->
  In s (slots_of osi_dma).
Proof.
  intros Hc Hs. unfold slots_of. apply in_flat_map. exists chan. auto.
Qed.

(** A write through [eqos_dma_safety_writel] to the register of a slot,
    at the index of the slot, keeps the table in step. *)
Lemma eqos_dma_safety_writel_in_sync (osi_dma : osi_dma_priv_data)
  (r : regfile Z) (c : dma_func_safety) (s : slot) (val : Z) :
  layout_ok osi_dma -> in_sync osi_dma r c ->
  In s (slots_of osi_dma) -> 0 <= val < 2 ^ 32 ->
  exists c',
    eqos_dma_safety_writel val (slot_addr s) (slot_idx s) (Machine r c)
    = Some (tt, Machine (reg_set (slot_addr s) (u32 val) r) c',
            [EvWrite (slot_addr s) val]) /\
    in_sync osi_dma (reg_set (slot_addr s) (u32 val) r) c'.
Proof.
  intros Hok (Hwf & Hmatch & Hpop) Hs Hval.
  pose proof (proj1 Hok) as Hidx.
  destruct (layout_slot_bounds osi_dma s Hok Hs) as [Hb Hnn].
  pose proof Hwf as (Hla & Hlm & Hlv & Hlock).
  destruct (lookup_lt_is_Some_2 (reg_mask c) (Z.to_nat (slot_idx s)))
    as [m Hm]; [lia|].
  eexists. split.
  { apply (eqos_dma_safety_writel_run r c val (slot_addr s) (slot_idx s) m
             Hwf); [lia|exact Hm]. }
  split; [|split].
  - unfold config_wf. cbn [reg_addr reg_mask reg_val dma_safety_lock].
    rewrite length_insert. auto.
  - intros j a mj v Hj Ha Hmj Hv Hna.
    cbn [reg_addr reg_mask reg_val] in Ha, Hmj, Hv.
    destruct (Hpop j a Hj Ha Hna) as (s' & Hs' & Hidx' & Haddr').
    destruct (Nat.eq_dec j (Z.to_nat (slot_idx s))) as [->|Hne].
    + rewrite list_lookup_insert_eq in Hv by lia.
      assert (a = slot_addr s) as ->.
      { rewrite <- Haddr'.
        apply (layout_slot_same osi_dma s' s Hok Hs' Hs). exact Hidx'. }
      rewrite reg_get_set_eq.
      rewrite (u32_small val) by exact Hval.
      rewrite (u32_small val) by exact Hval. congruence.
    + rewrite list_lookup_insert_ne in Hv by lia.
      rewrite reg_get_set_ne.
      * apply (Hmatch j a mj v); assumption.
      * intros Heq. apply Hne. rewrite <- Hidx'.
        apply (layout_slot_same osi_dma s' s Hok Hs' Hs). congruence.
  - intros j a Hj Ha Hna. cbn [reg_addr] in Ha. apply (Hpop j a Hj Ha Hna).
Qed.

(** A plain write to a register that is not monitored keeps the table in
    step. *)
Lemma plain_write_in_sync (osi_dma : osi_dma_priv_data) (r : regfile Z)
  (c : dma_func_safety) (a x : Z) :
  in_sync osi_dma r c ->
  (forall s, In s (slots_of osi_dma) -> slot_addr s <> a) ->
  in_sync osi_dma (reg_set a x r) c.
Proof.
  intros (Hwf & Hmatch & Hpop) Hfree.
  split; [exact Hwf|]. split; [|exact Hpop].
  apply shadow_matches_reg_set; [|exact Hmatch].
  intros i ai Hi Hai Hnn.
  destruct (Hpop i ai Hi Hai Hnn) as (s & Hs & _ & <-).
  apply Hfree. exact Hs.
Qed.

(** One read-modify-write of the register of a slot through the safety
    write. *)
Lemma rmw_safety_step (osi_dma : osi_dma_priv_data) (r : regfile Z)
  (c : dma_func_safety) (s : slot) (g : Z -> Z) :
  layout_ok osi_dma -> in_sync osi_dma r c -> In s (slots_of osi_dma) ->
  (forall v, 0 <= v < 2 ^ 32 -> 0 <= g v < 2 ^ 32) ->
  exists v r' c',
    0 <= v < 2 ^ 32 /\
    osi_readl (slot_addr s) (Machine r c)
    = Some (v, Machine r c, [EvRead (slot_addr s) v]) /\
    eqos_dma_safety_writel (g v) (slot_addr s) (slot_idx s) (Machine r c)
    = Some (tt, Machine r' c', [EvWrite (slot_addr s) (g v)]) /\
    in_sync osi_dma r' c'.
Proof.
  intros Hok Hsync Hs Hg.
  set (v := u32 (reg_get r (slot_addr s))).
  assert (Hv : 0 <= v < 2 ^ 32) by apply u32_bound.
  destruct (eqos_dma_safety_writel_in_sync osi_dma r c s (g v) Hok Hsync Hs
              (Hg v Hv)) as (c' & Hw & Hsync').
  exists v, (reg_set (slot_addr s) (u32 (g v)) r), c'.
  split; [exact Hv|]. split; [reflexivity|]. split; [exact Hw|exact Hsync'].
Qed.

(** [eqos_configure_dma_channel] for a channel in use, on registers that
    hold their values and a table in step with them: its accesses in
    order, and the table afterwards. *)
Lemma eqos_configure_dma_channel_run (osi_dma : osi_dma_priv_data)
  (rx : osi_dma_rx_data) (chan : Z) (r : regfile Z) (c : dma_func_safety) :
  layout_ok osi_dma -> chan_consts_ok osi_dma ->
  In chan (used_chans osi_dma) -> in_sync osi_dma r c ->
  exists v1 v2 v3 v4 r' c' tw,
    eqos_configure_dma_channel chan osi_dma rx (Machine r c)
    = Some (tt, Machine r' c',
            [EvRead (base osi_dma + EQOS_DMA_CHX_INTR_ENA chan) v1;
             EvWrite (base osi_dma + EQOS_DMA_CHX_INTR_ENA chan)
               (Z.lor v1 (Z.lor EQOS_DMA_CHX_INTR_TIE EQOS_DMA_CHX_INTR_RIE));
             EvRead (base osi_dma + EQOS_DMA_CHX_CTRL chan) v2;
             EvWrite (base osi_dma + EQOS_DMA_CHX_CTRL chan)
               (Z.lor v2 EQOS_DMA_CHX_CTRL_PBLX8);
             EvRead (base osi_dma + EQOS_DMA_CHX_TX_CTRL chan) v3;
             EvWrite (base osi_dma + EQOS_DMA_CHX_TX_CTRL chan)
               (Z.lor (Z.lor (Z.lor v3 EQOS_DMA_CHX_TX_CTRL_OSF)
                             EQOS_DMA_CHX_TX_CTRL_TXPBL_RECOMMENDED)
                      EQOS_DMA_CHX_TX_CTRL_TSE);
             EvRead (base osi_dma + EQOS_DMA_CHX_RX_CTRL chan) v4;
             EvWrite (base osi_dma + EQOS_DMA_CHX_RX_CTRL chan)
               (Z.lor (Z.lor (Z.land v4 (u32_not EQOS_DMA_CHX_RBSZ_MASK))
                             (u32_shl (rx_buf_len rx)
                                      EQOS_DMA_CHX_RBSZ_SHIFT))
                      EQOS_DMA_CHX_RX_CTRL_RXPBL_RECOMMENDED)]
            ++ tw) /\
    in_sync osi_dma r' c' /\
    (if (use_riwt rx =? OSI_ENABLE) && (rx_riwt rx <? UINT_MAX)
     then exists vw vw',
            tw = [EvRead (base osi_dma + EQOS_DMA_CHX_RX_WDT chan) vw;
                  EvWrite (base osi_dma + EQOS_DMA_CHX_RX_WDT chan) vw']
     else tw = []).
Proof.
  intros Hok (Hconsts & Hwdt) Hchan Hsync.
  repeat match goal with
         | H : Forall _ (_ :: _) |- _ =>
             apply Forall_cons in H;
             let H1 := fresh "Hk" in destruct H as [H1 H]
         end.
  set (s1 := (EQOS_DMA_CH0_INTR_ENA_IDX + chan,
              base osi_dma + EQOS_DMA_CHX_INTR_ENA chan,
              EQOS_DMA_CHX_INTR_ENA_MASK) : slot).
  set (s2 := (EQOS_DMA_CH0_CTRL_IDX + chan,
              base osi_dma + EQOS_DMA_CHX_CTRL chan,
              EQOS_DMA_CHX_CTRL_MASK) : slot).
  set (s3 := (EQOS_DMA_CH0_TX_CTRL_IDX + chan,
              base osi_dma + EQOS_DMA_CHX_TX_CTRL chan,
              EQOS_DMA_CHX_TX_CTRL_MASK) : slot).
  set (s4 := (EQOS_DMA_CH0_RX_CTRL_IDX + chan,
              base osi_dma + EQOS_DMA_CHX_RX_CTRL chan,
              EQOS_DMA_CHX_RX_CTRL_MASK) : slot).
  assert (Hin : In s1 (slots_of osi_dma) /\ In s2 (slots_of osi_dma) /\
                In s3 (slots_of osi_dma) /\ In s4 (slots_of osi_dma)).
  { repeat split; apply (chan_slot_in osi_dma chan); try exact Hchan;
      unfold chan_slots, safety_classes; cbn [map fst snd In]; auto 10. }
  destruct Hin as (Hin1 & Hin2 & Hin3 & Hin4).
  destruct (rmw_safety_step osi_dma r c s1
              (fun v => Z.lor v (Z.lor EQOS_DMA_CHX_INTR_TIE
                                       EQOS_DMA_CHX_INTR_RIE))
              Hok Hsync Hin1)
    as (v1 & r1 & c1 & _ & Hrd1 & Hw1 & Hsync1).
  { intros v Hv. repeat apply lor_u32_bound; assumption. }
  destruct (rmw_safety_step osi_dma r1 c1 s2
              (fun v => Z.lor v EQOS_DMA_CHX_CTRL_PBLX8) Hok Hsync1 Hin2)
    as (v2 & r2 & c2 & _ & Hrd2 & Hw2 & Hsync2).
  { intros v Hv. repeat apply lor_u32_bound; assumption. }
  destruct (rmw_safety_step osi_dma r2 c2 s3
              (fun v => Z.lor (Z.lor (Z.lor v EQOS_DMA_CHX_TX_CTRL_OSF)
                                     EQOS_DMA_CHX_TX_CTRL_TXPBL_RECOMMENDED)
                              EQOS_DMA_CHX_TX_CTRL_TSE) Hok Hsync2 Hin3)
    as (v3 & r3 & c3 & _ & Hrd3 & Hw3 & Hsync3).
  { intros v Hv. repeat apply lor_u32_bound; assumption. }
  destruct (rmw_safety_step osi_dma r3 c3 s4
              (fun v => Z.lor (Z.lor (Z.land v
                                        (u32_not EQOS_DMA_CHX_RBSZ_MASK))
                                     (u32_shl (rx_buf_len rx)
                                              EQOS_DMA_CHX_RBSZ_SHIFT))
                              EQOS_DMA_CHX_RX_CTRL_RXPBL_RECOMMENDED)
              Hok Hsync3 Hin4)
    as (v4 & r4 & c4 & _ & Hrd4 & Hw4 & Hsync4).
  { intros v Hv. repeat apply lor_u32_bound; try assumption.
    - apply land_u32_bound_l. exact Hv.
    - unfold u32_shl. apply u32_bound. }
  cbv beta in *. unfold slot_addr, slot_idx, s1, s2, s3, s4 in Hrd1, Hw1,
    Hrd2, Hw2, Hrd3, Hw3, Hrd4, Hw4. cbn [fst snd] in *.
  destruct ((use_riwt rx =? OSI_ENABLE) && (rx_riwt rx <? UINT_MAX))
    eqn:Hcond.
  - set (wdt := base osi_dma + EQOS_DMA_CHX_RX_WDT chan).
    set (vw := u32 (reg_get r4 wdt)).
    set (vw' := Z.lor
                  (Z.lor
                     (Z.land vw
                        (u32_not (Z.lor EQOS_DMA_CHX_RX_WDT_RWT_MASK
                                        EQOS_DMA_CHX_RX_WDT_RWTU_MASK)))
                     (Z.land
                        (u32 (rx_riwt rx
                              * (EQOS_AXI_CLK_FREQ / OSI_ONE_MEGA_HZ))
                         / EQOS_DMA_CHX_RX_WDT_RWTU)
                        EQOS_DMA_CHX_RX_WDT_RWT_MASK))
                  EQOS_DMA_CHX_RX_WDT_RWTU_512_CYCLE).
    exists v1, v2, v3, v4, (reg_set wdt (u32 vw') r4), c4,
      [EvRead wdt vw; EvWrite wdt vw'].
    split; [|split].
    + unfold eqos_configure_dma_channel.
      eapply bind_run_eq; [exact Hrd1| |].
      * cbv beta zeta.
        eapply bind_run; [exact Hw1|].
        eapply bind_run; [exact Hrd2|]. cbv beta zeta.
        eapply bind_run; [exact Hw2|].
        eapply bind_run; [exact Hrd3|]. cbv beta zeta.
        eapply bind_run; [exact Hw3|].
        eapply bind_run; [exact Hrd4|]. cbv beta zeta.
        eapply bind_run; [exact Hw4|].
        rewrite Hcond.
        eapply bind_run; [reflexivity|]. reflexivity.
      * reflexivity.
    + apply plain_write_in_sync; [exact Hsync4|].
      intros s Hs.
      rewrite Forall_forall in Hwdt.
      specialize (Hwdt chan (proj2 (list_elem_of_In _ _) Hchan)).
      rewrite Forall_forall in Hwdt.
      apply (Hwdt s (proj2 (list_elem_of_In _ _) Hs)).
    + exists vw, vw'. reflexivity.
  - exists v1, v2, v3, v4, r4, c4, [].
    split; [|split; [exact Hsync4|reflexivity]].
    unfold eqos_configure_dma_channel.
    eapply bind_run_eq; [exact Hrd1| |].
    + cbv beta zeta.
      eapply bind_run; [exact Hw1|].
      eapply bind_run; [exact Hrd2|]. cbv beta zeta.
      eapply bind_run; [exact Hw2|].
      eapply bind_run; [exact Hrd3|]. cbv beta zeta.
      eapply bind_run; [exact Hw3|].
      eapply bind_run; [exact Hrd4|]. cbv beta zeta.
      eapply bind_run; [exact Hw4|].
      rewrite Hcond. reflexivity.
    + reflexivity.
Qed.

Lemma configure_loop_in_sync (osi_dma : osi_dma_priv_data)
  (rx : osi_dma_rx_data) (ks : list Z) (i : Z) (r : regfile Z)
  (c : dma_func_safety) :
  layout_ok osi_dma -> chan_consts_ok osi_dma ->
  0 <= i ->
  (forall j k, ks !! j = Some k ->
               dma_chans osi_dma !! (Z.to_nat i + j)%nat = Some k) ->
  (forall k, In k ks -> In k (used_chans osi_dma)) ->
  in_sync osi_dma r c ->
  exists r' c' t,
    configure_loop osi_dma rx (length ks) i (Machine r c)
    = Some (tt, Machine r' c', t) /\
    in_sync osi_dma r' c'.
Proof.
  intros Hok Hconsts. revert i r c.
  induction ks as [|k ks IH]; intros i r c Hi Hks Hused Hsync.
  - exists r, c, []. split; [reflexivity|exact Hsync].
  - cbn [length configure_loop].
    destruct (eqos_configure_dma_channel_run osi_dma rx k r c Hok
                Hconsts (Hused k (or_introl eq_refl)) Hsync)
      as (v1 & v2 & v3 & v4 & r1 & c1 & tw & Hrun & Hsync1 & _).
    destruct (IH (i + 1) r1 c1) as (r' & c' & t & Hloop & Hsync').
    + lia.
    + intros j k' Hj. specialize (Hks (S j) k' Hj).
      replace (Z.to_nat (i + 1) + j)%nat with (Z.to_nat i + S j)%nat by lia.
      exact Hks.
    + intros k' Hk'. apply Hused. right. exact Hk'.
    + exact Hsync1.
    + exists r', c'. eexists. split; [|exact Hsync'].
      eapply bind_run.
      * apply array_get_Some; [exact Hi|].
        specialize (Hks 0%nat k eq_refl).
        rewrite Nat.add_0_r in Hks. exact Hks.
      * eapply bind_run; [exact Hrun|]. exact Hloop.
Qed.

Lemma eqos_dma_safety_init_in_sync (osi_dma : osi_dma_priv_data)
  (r : regfile Z) (c : dma_func_safety) :
  layout_ok osi_dma -> table_sized c ->
  exists c' t,
    eqos_dma_safety_init osi_dma (Machine r c)
    = Some (tt, Machine r c', t) /\
    in_sync osi_dma r c'.
Proof.
  intros Hok Hsized.
  destruct (eqos_dma_safety_init_regfile osi_dma r c Hok Hsized)
    as (addrs0 & vals & t & Hrun & Hl0 & Hlv & Hnull & _ & Hmatch & _).
  cbv zeta in Hrun, Hmatch.
  eexists _, t. split; [exact Hrun|].
  split; [|split; [exact Hmatch|]].
  - destruct Hsized as (_ & Hlm & _).
    unfold config_wf. cbn [reg_addr reg_mask reg_val dma_safety_lock].
    rewrite !write_slots_length. auto.
  - intros i a Hi Ha Hnn. cbn [reg_addr] in Ha.
    apply write_slots_lookup in Ha as [Ha|Hs]; [|exact Hs].
    contradiction Hnn. apply (Hnull i a Hi Ha).
Qed.

(** X16.  [eqos_configure_dma_channel] for a channel in use, on registers
    that hold their values and a table in step with them: it is four
    read-modify-writes through the safety write, of the interrupt enable
    (TIE and RIE added), the control register (PBLx8 added), the transmit
    control (OSF, the transmit burst length and TSE added) and the
    receive control (buffer size replaced, receive burst length added),
    followed by a read-modify-write of the receive watchdog when
    [use_riwt] is [OSI_ENABLE] and [rx_riwt] is below [UINT_MAX], and by
    nothing otherwise.  [eqos_validate_dma_regs] returns 0 right after
    it. *)
Theorem eqos_configure_dma_channel_keeps_table_valid (osi_dma : osi_dma_priv_data)
  (rx : osi_dma_rx_data) (chan : Z) (r : regfile Z) (c : dma_func_safety) :
  layout_ok osi_dma -> chan_consts_ok osi_dma ->
  In chan (used_chans osi_dma) -> in_sync osi_dma r c ->
  exists v1 v2 v3 v4 r' c' tw t',
    eqos_configure_dma_channel chan osi_dma rx (Machine r c)
    = Some (tt, Machine r' c',
            [EvRead (base osi_dma + EQOS_DMA_CHX_INTR_ENA chan) v1;
             EvWrite (base osi_dma + EQOS_DMA_CHX_INTR_ENA chan)
               (Z.lor v1 (Z.lor EQOS_DMA_CHX_INTR_TIE EQOS_DMA_CHX_INTR_RIE));
             EvRead (base osi_dma + EQOS_DMA_CHX_CTRL chan) v2;
             EvWrite (base osi_dma + EQOS_DMA_CHX_CTRL chan)
               (Z.lor v2 EQOS_DMA_CHX_CTRL_PBLX8);
             EvRead (base osi_dma + EQOS_DMA_CHX_TX_CTRL chan) v3;
             EvWrite (base osi_dma + EQOS_DMA_CHX_TX_CTRL chan)
               (Z.lor (Z.lor (Z.lor v3 EQOS_DMA_CHX_TX_CTRL_OSF)
                             EQOS_DMA_CHX_TX_CTRL_TXPBL_RECOMMENDED)
                      EQOS_DMA_CHX_TX_CTRL_TSE);
             EvRead (base osi_dma + EQOS_DMA_CHX_RX_CTRL chan) v4;
             EvWrite (base osi_dma + EQOS_DMA_CHX_RX_CTRL chan)
               (Z.lor (Z.lor (Z.land v4 (u32_not EQOS_DMA_CHX_RBSZ_MASK))
                             (u32_shl (rx_buf_len rx)
                                      EQOS_DMA_CHX_RBSZ_SHIFT))
                      EQOS_DMA_CHX_RX_CTRL_RXPBL_RECOMMENDED)]
            ++ tw) /\
    eqos_validate_dma_regs (Machine r' c') = Some (0, Machine r' c', t') /\
    (if (use_riwt rx =? OSI_ENABLE) && (rx_riwt rx <? UINT_MAX)
     then exists vw vw',
            tw = [EvRead (base osi_dma + EQOS_DMA_CHX_RX_WDT chan) vw;
                  EvWrite (base osi_dma + EQOS_DMA_CHX_RX_WDT chan) vw']
     else tw = []).
Proof.
  intros Hok Hconsts Hchan Hsync.
  destruct (eqos_configure_dma_channel_run osi_dma rx chan r c Hok Hconsts
              Hchan Hsync)
    as (v1 & v2 & v3 & v4 & r' & c' & tw & Hrun & Hsync' & Htw).
  pose proof Hsync' as (Hwf & Hmatch & _).
  destruct (eqos_validate_dma_regs_regfile r' c' (proj1 Hok) Hwf)
    as (t' & _ & [[_ Hval]|[Hno _]]); [|contradiction].
  exists v1, v2, v3, v4, r', c', tw, t'. auto.
Qed.

(** X17.  On registers that hold their values, [eqos_init_dma_channel]
    returns 0 and leaves the safety table in step with the registers: a
    call of [eqos_validate_dma_regs] right after it returns 0, whatever
    the registers and the table held before. *)
Theorem eqos_init_dma_channel_then_validates (osi_dma : osi_dma_priv_data)
  (rx : osi_dma_rx_data) (r : regfile Z) (c : dma_func_safety) :
  layout_ok osi_dma -> chan_consts_ok osi_dma -> table_sized c ->
  exists r' c' t t',
    eqos_init_dma_channel osi_dma rx (Machine r c)
    = Some (0, Machine r' c', t) /\
    in_sync osi_dma r' c' /\
    eqos_validate_dma_regs (Machine r' c') = Some (0, Machine r' c', t').
Proof.
  intros Hok Hconsts Hsized.
  destruct (eqos_dma_safety_init_in_sync osi_dma r c Hok Hsized)
    as (c1 & t1 & Hinit & Hsync1).
  assert (Hlen_used : length (used_chans osi_dma)
                      = Z.to_nat (num_dma_chans osi_dma)).
  { destruct Hok as (_ & Hnum & _).
    unfold used_chans. rewrite length_take. lia. }
  destruct (configure_loop_in_sync osi_dma rx (used_chans osi_dma) 0 r c1
              Hok Hconsts)
    as (r' & c' & t2 & Hloop & Hsync').
  { lia. }
  { intros j k Hj. change (Z.to_nat 0 + j)%nat with j.
    unfold used_chans in Hj. apply lookup_take_Some in Hj as [Hj _].
    exact Hj. }
  { auto. }
  { exact Hsync1. }
  rewrite Hlen_used in Hloop.
  pose proof Hsync' as (Hwf & Hmatch & _).
  destruct (eqos_validate_dma_regs_regfile r' c' (proj1 Hok) Hwf)
    as (t' & _ & [[_ Hval]|[Hno _]]); [|contradiction].
  exists r', c'. eexists _, t'. split; [|split; [exact Hsync'|exact Hval]].
  unfold eqos_init_dma_channel.
  eapply bind_run; [exact Hinit|].
  eapply bind_run; [exact Hloop|]. reflexivity.
Qed.

End DmaChanFacts.

(** ** The DMA block: concrete instances *)

Section DmaChanRuns.
Import EqosDma EqosDmaChan.
Local Existing Instance eqos_dma_8ch.
Local Existing Instance eqos_chan_8ch.

Lemma two_chan_layout_ok : layout_ok two_chan_dma.
Proof.
  unfold layout_ok. refine (bool_decide_unpack _ _). vm_compute. exact I.
Qed.

Lemma two_chan_consts_ok : chan_consts_ok two_chan_dma.
Proof.
  unfold chan_consts_ok. refine (bool_decide_unpack _ _).
  vm_compute. exact I.
Qed.

Lemma blank_config_sized : table_sized blank_config.
Proof. unfold table_sized. cbn. auto. Qed.

Lemma two_chan_slot_ctrl_free (i : nat) (a : Z) :
  (Z.to_nat EQOS_DMA_CH0_CTRL_IDX <= i)%nat ->
  reg_addr two_chan_config !! i = Some a -> a <> OSI_NULL ->
  a <> base two_chan_dma + EQOS_DMA_CHX_SLOT_CTRL 0.
Proof.
  intros _ Ha _ Heq. subst a. apply list_elem_of_lookup_2 in Ha.
  revert Ha. refine (proj1 (bool_decide_eq_false _) _).
  vm_compute. reflexivity.
Qed.

(** Both channels configured and validated, on registers that read 0
    until written. *)
Example init_dma_channel_then_validate :
  match and_then (eqos_init_dma_channel two_chan_dma rx_2k_riwt)
                 eqos_validate_dma_regs (Machine zero_regs blank_config) with
  | Some (res, t) => (res, length t)
  | None => (1, 0%nat)
  end = (0, 12%nat).
Proof. vm_compute. reflexivity. Qed.


Lemma eqos_config_slot_keeps_validation_witness :
  exists res w' t t',
    eqos_validate_dma_regs (Machine zero_regs two_chan_config)
    = Some (res, w', t) /\
    and_then (eqos_config_slot two_chan_dma 0 OSI_ENABLE 0x7)
             eqos_validate_dma_regs (Machine zero_regs two_chan_config)
    = Some (res, t').
Proof.
  apply (eqos_config_slot_keeps_validation two_chan_dma 0 OSI_ENABLE 0x7
           zero_regs two_chan_config eqos_dma_8ch_bounds
           two_chan_config_wf).
  exact two_chan_slot_ctrl_free.
Defined.

Lemma eqos_dma_safety_init_then_validates_witness :
  exists c' t t',
    eqos_dma_safety_init two_chan_dma (Machine zero_regs blank_config)
    = Some (tt, Machine zero_regs c', t) /\
    eqos_validate_dma_regs (Machine zero_regs c')
    = Some (0, Machine zero_regs c', t').
Proof.
  destruct (eqos_dma_safety_init_then_validates two_chan_dma zero_regs
              blank_config two_chan_layout_ok blank_config_sized)
    as (c' & t & t' & Hinit & _ & _ & Hval).
  exists c', t, t'. auto.
Defined.

Lemma eqos_dma_safety_init_populates_layout_witness :
  exists c' t,
    eqos_dma_safety_init two_chan_dma (Machine zero_regs blank_config)
    = Some (tt, Machine zero_regs c', t) /\
    reg_addr c' !! 9%nat = Some 0x2491184 /\
    reg_addr c' !! 2%nat = Some OSI_NULL.
Proof.
  destruct (eqos_dma_safety_init_populates_layout two_chan_dma zero_regs
              blank_config two_chan_layout_ok blank_config_sized)
    as (c' & t & Hinit & Hslots & Hnull & _ & _).
  exists c', t. split; [exact Hinit|]. split.
  - apply (Hslots (9, 0x2491184, 0xF3F9010)).
    apply list_elem_of_In. refine (bool_decide_unpack _ _).
    vm_compute. exact I.
  - assert (Hlen : length (reg_addr c') = 48%nat).
    { assert (Hl : match eqos_dma_safety_init two_chan_dma
                           (Machine zero_regs blank_config) with
                   | Some (_, m, _) => length (reg_addr (sw m))
                   | None => 0%nat
                   end = 48%nat) by (vm_compute; reflexivity).
      rewrite Hinit in Hl. exact Hl. }
    destruct (lookup_lt_is_Some_2 (reg_addr c') 2) as [a Ha]; [lia|].
    rewrite Ha. f_equal. apply (Hnull 2%nat a); [cbn; lia|exact Ha|].
    intros s Hs.
    vm_compute in Hs.
    repeat (destruct Hs as [<-|Hs]; [vm_compute; discriminate|]).
    destruct Hs.
Defined.

Lemma eqos_configure_dma_channel_keeps_table_valid_witness :
  exists c0 r' c' t t',
    in_sync two_chan_dma zero_regs c0 /\
    eqos_configure_dma_channel 1 two_chan_dma rx_2k_riwt
      (Machine zero_regs c0)
    = Some (tt, Machine r' c', t) /\
    length t = 10%nat /\
    eqos_validate_dma_regs (Machine r' c') = Some (0, Machine r' c', t').
Proof.
  destruct (eqos_dma_safety_init_in_sync two_chan_dma zero_regs blank_config
              two_chan_layout_ok blank_config_sized)
    as (c0 & t0 & _ & Hsync0).
  destruct (eqos_configure_dma_channel_keeps_table_valid two_chan_dma
              rx_2k_riwt 1 zero_regs c0 two_chan_layout_ok
              two_chan_consts_ok)
    as (v1 & v2 & v3 & v4 & r' & c' & tw & t' & Hrun & Hval & Htw).
  - right. left. reflexivity.
  - exact Hsync0.
  - exists c0, r', c'. eexists _, t'. split; [exact Hsync0|].
    split; [exact Hrun|]. split; [|exact Hval].
    change ((use_riwt rx_2k_riwt =? OSI_ENABLE)
            && (rx_riwt rx_2k_riwt <? UINT_MAX)) with true in Htw.
    destruct Htw as (vw & vw' & ->). reflexivity.
Defined.

Lemma eqos_init_dma_channel_then_validates_witness :
  exists r' c' t t',
    eqos_init_dma_channel two_chan_dma rx_2k_riwt
      (Machine zero_regs blank_config)
    = Some (0, Machine r' c', t) /\
    eqos_validate_dma_regs (Machine r' c') = Some (0, Machine r' c', t').
Proof.
  destruct (eqos_init_dma_channel_then_validates two_chan_dma rx_2k_riwt
              zero_regs blank_config two_chan_layout_ok two_chan_consts_ok
              blank_config_sized)
    as (r' & c' & t & t' & Hrun & _ & Hval).
  exists r', c', t, t'. auto.
Defined.

End DmaChanRuns.

(** ** Speed selection leaves the other control bits alone *)

Section XpcsSpeedFrame.
Import Xpcs.
Context {D : Type} {bus : Bus xpcs_reg D} {hdr : xpcs_h}.

Lemma speed_select_other_bits (speed c i : Z) :
  0 <= c < 2 ^ 32 -> 0 <= i ->
  Z.testbit XPCS_SR_MII_CTRL_SS5 i = false ->
  Z.testbit XPCS_SR_MII_CTRL_SS6 i = false ->
  Z.testbit XPCS_SR_MII_CTRL_SS13 i = false ->
  Z.testbit (speed_select speed c) i = Z.testbit c i.
Proof.
  intros Hc Hi H5 H6 H13.
  assert (Hhigh : (i <? 32) = false -> Z.testbit c i = false).
  { intros Hge. apply Z.ltb_ge in Hge. apply testbit_above_u32; assumption. }
  unfold speed_select.
  destruct (speed =? XPCS_USXG_AN_STS_SPEED_2500);
    [|destruct (speed =? XPCS_USXG_AN_STS_SPEED_5000)];
    unfold_bits i Hi; rewrite ?H5, ?H6, ?H13;
    destruct (i <? 32); cbn;
    rewrite ?orb_false_r, ?andb_true_r, ?andb_false_r;
    try reflexivity; symmetry; apply Hhigh; reflexivity.
Qed.

(** X18.  [xpcs_set_speed] is one read and one write of SR_MII_CTRL, and
    the value written differs from the value read in no bit outside SS5,
    SS6 and SS13, whatever the AN status says. *)
Theorem xpcs_set_speed_keeps_other_bits (status : Z) (w : machine D unit) :
  exists c c' w',
    xpcs_set_speed status w
    = Some (tt, w', [EvRead XPCS_SR_MII_CTRL c;
                     EvWrite XPCS_SR_MII_CTRL c']) /\
    forall i, 0 <= i ->
      Z.testbit XPCS_SR_MII_CTRL_SS5 i = false ->
      Z.testbit XPCS_SR_MII_CTRL_SS6 i = false ->
      Z.testbit XPCS_SR_MII_CTRL_SS13 i = false ->
      Z.testbit c' i = Z.testbit c i.
Proof.
  unfold xpcs_set_speed.
  destruct (osi_readl_run XPCS_SR_MII_CTRL w) as (c & w1 & Hc & Hrd).
  exists c, (speed_select (Z.land status XPCS_USXG_AN_STS_SPEED_MASK) c).
  eexists. split.
  - eapply bind_run_eq; [exact Hrd|reflexivity|reflexivity].
  - intros i Hi H5 H6 H13. apply speed_select_other_bits; assumption.
Qed.

End XpcsSpeedFrame.

(** ** Validation on any device *)

Section DmaValidateAny.
Import EqosDma EqosDmaChan.
Context {D : Type} {bus : Bus Z D} {hdr : eqos_dma_h}.

Lemma validate_loop_any (n : nat) (i : Z) (d : D) (c : dma_func_safety) :
  0 <= i ->
  (Z.to_nat i + n <= length (reg_addr c))%nat ->
  length (reg_mask c) = length (reg_addr c) ->
  length (reg_val c) = length (reg_addr c) ->
  exists res d' t,
    validate_loop n i (Machine d c)
    = Some (res,
            Machine d' (match res with
                        | Returned _ => set_lock false c
                        | Fallthrough _ => c
                        end), t) /\
    (res = Fallthrough tt \/ res = Returned (-1)) /\
    Forall (slot_read c) t /\
    (length t <= n)%nat.
Proof.
  revert i d. induction n as [|n IH]; intros i d Hi Hlen Hlm Hlv.
  - exists (Fallthrough tt), d, []. cbn [validate_loop]. unfold ret.
    split; [reflexivity|]. split; [left; reflexivity|].
    split; [constructor|reflexivity].
  - destruct (lookup_lt_is_Some_2 (reg_addr c) (Z.to_nat i)) as [a Ha];
      [lia|].
    destruct (lookup_lt_is_Some_2 (reg_mask c) (Z.to_nat i)) as [m Hm];
      [lia|].
    destruct (lookup_lt_is_Some_2 (reg_val c) (Z.to_nat i)) as [v Hv];
      [lia|].
    cbn [validate_loop].
    unfold bind at 1, get_sw. cbn [sw].
    unfold bind at 1. rewrite array_get_Some with (x := a) by assumption.
    destruct (Z.eqb_spec a OSI_NULL) as [Hnull|Hnn].
    + destruct (IH (i + 1) d) as (res & d' & t & Hrun & Hres & Ht & Hl);
        [lia|lia|exact Hlm|exact Hlv|].
      exists res, d', t. rewrite Hrun.
      split; [reflexivity|]. split; [exact Hres|]. split; [exact Ht|lia].
    + unfold bind at 1, osi_readl. cbn [hw sw].
      destruct (bus_read a d) as [x d1].
      unfold bind at 1. cbn [sw].
      rewrite array_get_Some with (x := m) by assumption.
      unfold bind at 1.
      rewrite array_get_Some with (x := v) by assumption.
      assert (Hread : slot_read c (EvRead a (u32 x))).
      { exists a, (u32 x). split; [reflexivity|]. split; [exact Hnn|].
        apply list_elem_of_In. eapply list_elem_of_lookup_2. exact Ha. }
      destruct (Z.land (u32 x) m =? v).
      * destruct (IH (i + 1) d1) as (res & d' & t & Hrun & Hres & Ht & Hl);
          [lia|lia|exact Hlm|exact Hlv|].
        exists res, d', (EvRead a (u32 x) :: t). rewrite Hrun.
        split; [reflexivity|]. split; [exact Hres|].
        split; [constructor; assumption|cbn [length]; lia].
      * exists (Returned (-1)), d1, [EvRead a (u32 x)].
        split.
        { cbv [bind osi_unlock_irq_enabled get_sw put_sw ret hw sw].
          reflexivity. }
        split; [right; reflexivity|].
        split; [constructor; [exact Hread|constructor]|cbn [length]; lia].
Qed.

(** X19.  [eqos_validate_dma_regs] on any device, with a table of the
    declared size and the lock free: it returns 0 or -1, performs only
    reads, at most one per slot and only of registers of populated slots,
    and on either return path leaves the table as it was and the lock
    released. *)
Theorem eqos_validate_dma_regs_reads_only (d : D) (c : dma_func_safety) :
  0 <= EQOS_DMA_CH0_CTRL_IDX <= EQOS_MAX_DMA_SAFETY_REGS ->
  config_wf c ->
  exists res d' t,
    eqos_validate_dma_regs (Machine d c) = Some (res, Machine d' c, t) /\
    (res = 0 \/ res = -1) /\
    Forall (slot_read c) t /\
    (length t <= safety_regs_count)%nat.
Proof.
  intros Hidx (Hla & Hlm & Hlv & Hlock).
  destruct (validate_loop_any safety_regs_count EQOS_DMA_CH0_CTRL_IDX d
              (set_lock true c))
    as (res & d' & t & Hrun & Hres & Ht & Hl).
  { lia. }
  { cbn [reg_addr set_lock]. unfold safety_regs_count. lia. }
  { cbn [reg_addr reg_mask set_lock]. lia. }
  { cbn [reg_addr reg_val set_lock]. lia. }
  exists (match res with Returned v => v | Fallthrough _ => 0 end), d', t.
  split; [|split; [|split; [exact Ht|exact Hl]]].
  - unfold eqos_validate_dma_regs.
    unfold bind at 1, osi_lock_irq_enabled.
    unfold bind at 1, get_sw. cbn [sw]. rewrite Hlock.
    unfold put_sw. cbn [hw sw].
    unfold bind at 1. rewrite Hrun.
    destruct Hres as [-> | ->].
    + cbv [bind osi_unlock_irq_enabled get_sw put_sw ret hw sw].
      rewrite (set_lock_false_true c Hlock). cbn [app].
      rewrite app_nil_r. reflexivity.
    + unfold ret. rewrite (set_lock_false_true c Hlock). cbn [app].
      rewrite app_nil_r. reflexivity.
  - destruct Hres as [-> | ->]; auto.
Qed.

End DmaValidateAny.

(** ** The accumulator with a 32-bit [unsigned long] *)

Section AccumulatorIlp32.
Import EqosMmc EqosMmcObs.
Context {D : Type} {bus : Bus core_reg D}.
Variable CNTRST : Z.

Lemma assignments_of_pos (f : mmc_field) (st : mmc_field * mmc_field * core_reg)
  (l : list (mmc_field * mmc_field * core_reg)) :
  In st l -> fst (fst st) = f -> (0 < assignments_of f l)%nat.
Proof.
  intros Hin Hf. induction l as [|x l IH]; [destruct Hin|].
  unfold assignments_of. cbn [List.filter].
  destruct Hin as [->|Hin].
  - rewrite bool_decide_eq_true_2 by exact Hf. cbn. lia.
  - specialize (IH Hin). unfold assignments_of in IH.
    destruct (bool_decide _); cbn; lia.
Qed.

Lemma assignments_of_cons (f d s : mmc_field) (r : core_reg)
  (l : list (mmc_field * mmc_field * core_reg)) :
  assignments_of f ((d, s, r) :: l)
  = ((if bool_decide (d = f) then 1 else 0) + assignments_of f l)%nat.
Proof.
  unfold assignments_of. cbn [List.filter fst].
  destruct (bool_decide (d = f)); reflexivity.
Qed.

(** One statement with a 32-bit [unsigned long] and totals in range:
    either it adds the value read to the source member, exactly, or it
    writes the control register and leaves every member zero. *)
Lemma mmc_statement_ilp32 (d s : mmc_field) (r : core_reg)
  (w : machine D osi_mmc_counters) :
  counters_in_range (sw w) ->
  exists w' t,
    mmc_statement 32 CNTRST (d, s, r) w = Some (tt, w', t) /\
    ((exists v,
        t = [EvRead r v] /\ 0 <= v /\ sw w s + v <= 2 ^ 32 - 1 /\
        sw w' = mmc_set (sw w) d (sw w s + v)) \/
     ((exists x, In (EvWrite EQOS_MMC_CNTRL x) t) /\
      forall f, sw w' f = 0)).
Proof.
  intros Hrange.
  set (v := u32 (fst (bus_read r (hw w)))).
  pose proof (u32_bound (fst (bus_read r (hw w)))) as Hv. fold v in Hv.
  destruct (Z_le_gt_dec (sw w s + v) (2 ^ 32 - 1)) as [Hle|Hgt].
  - eexists _, _. split.
    + unfold mmc_statement. unfold bind at 1, get_sw.
      unfold bind at 1.
      rewrite update_mmc_val_ilp32_in_range
        by (try apply Hrange; exact Hle).
      cbv [bind get_sw put_sw hw sw]. cbn [app]. reflexivity.
    + left. exists v. split; [reflexivity|]. split; [lia|].
      split; [exact Hle|reflexivity].
  - destruct (update_mmc_val_ilp32_overflow CNTRST (sw w s) r w)
      as (d' & ctl & Hrun).
    { specialize (Hrange s). lia. }
    { fold v. lia. }
    eexists _, _. split.
    + unfold mmc_statement. unfold bind at 1, get_sw.
      unfold bind at 1. rewrite Hrun.
      cbv [bind get_sw put_sw hw sw]. cbn [app]. reflexivity.
    + right. split.
      * eexists. right. right. right. left. reflexivity.
      * intros f. cbn [sw]. unfold mmc_set, mmc_zero.
        destruct (decide (f = d)); reflexivity.
Qed.

Lemma mmc_statements_ilp32 (l : list (mmc_field * mmc_field * core_reg))
  (w : machine D osi_mmc_counters) :
  counters_in_range (sw w) ->
  exists w' t,
    mmc_statements 32 CNTRST l w = Some (tt, w', t) /\
    counters_in_range (sw w') /\
    ((forall x, ~ In (EvWrite EQOS_MMC_CNTRL x) t) ->
     (forall f, assignments_of f l = 0%nat -> sw w' f = sw w f) /\
     (forall f r, In (f, f, r) l -> assignments_of f l = 1%nat ->
                  exists v, In (EvRead r v) t /\ 0 <= v /\
                            sw w' f = sw w f + v)).
Proof.
  revert w. induction l as [|[[d s] r] l IH]; intros w Hrange.
  - exists w, []. split; [reflexivity|]. split; [exact Hrange|].
    intros _. split; [reflexivity|]. intros f r [].
  - destruct (mmc_statement_ilp32 d s r w Hrange)
      as (w1 & t1 & Hst & Hcase).
    assert (Hrange1 : counters_in_range (sw w1)).
    { destruct Hcase as [(v & _ & Hv & Hle & ->)|[_ Hzero]].
      - intros f. unfold mmc_set. destruct (decide (f = d)).
        + specialize (Hrange s). lia.
        + apply Hrange.
      - intros f. rewrite Hzero. lia. }
    destruct (IH w1 Hrange1) as (w' & t2 & Hrest & Hrange' & Hquiet).
    exists w', (t1 ++ t2). split.
    { cbn [mmc_statements]. eapply bind_run; [exact Hst|exact Hrest]. }
    split; [exact Hrange'|].
    intros Hnow.
    destruct Hcase as [(v & -> & Hv & Hle & Hsw1)|[(x & Hx) _]].
    2:{ exfalso. apply (Hnow x). apply in_or_app. left. exact Hx. }
    destruct Hquiet as [Hframe Hown].
    { intros x Hx. apply (Hnow x). right. exact Hx. }
    split.
    + intros f Hf. rewrite assignments_of_cons in Hf.
      destruct (bool_decide (d = f)) eqn:Hd; [lia|].
      apply bool_decide_eq_false in Hd.
      rewrite Hframe by lia. rewrite Hsw1. unfold mmc_set.
      rewrite decide_False by congruence. reflexivity.
    + intros f r' Hin Hone. rewrite assignments_of_cons in Hone.
      destruct (bool_decide (d = f)) eqn:Hd.
      * apply bool_decide_eq_true in Hd. subst d.
        assert (Hno : assignments_of f l = 0%nat) by lia.
        destruct Hin as [Heq|Hin].
        2:{ pose proof (assignments_of_pos f (f, f, r') l Hin eq_refl).
            lia. }
        inversion Heq; subst.
        exists v. split; [left; reflexivity|]. split; [exact Hv|].
        rewrite (Hframe f Hno), Hsw1. unfold mmc_set.
        rewrite decide_True by reflexivity. reflexivity.
      * apply bool_decide_eq_false in Hd.
        destruct Hin as [Heq|Hin]; [inversion Heq; congruence|].
        destruct (Hown f r' Hin ltac:(lia)) as (v' & Hv' & Hpos & Hval).
        exists v'. split; [right; exact Hv'|]. split; [exact Hpos|].
        rewrite Hval, Hsw1. unfold mmc_set.
        rewrite decide_False by congruence. reflexivity.
Qed.

(** X20.  With a 32-bit [unsigned long] and running totals in range,
    [eqos_read_mmc] never stores a wrapped sum: the totals are in range
    afterwards, and in a call that does not write the control register
    (no reset) every member that a statement accumulates from itself,
    the UDP good-octets total apart, has grown by exactly the value read
    from its register. *)
Theorem eqos_read_mmc_32bit_exact_or_reset (w : machine D osi_mmc_counters) :
  counters_in_range (sw w) ->
  exists w' t,
    eqos_read_mmc 32 CNTRST w = Some (tt, w', t) /\
    counters_in_range (sw w') /\
    ((forall x, ~ In (EvWrite EQOS_MMC_CNTRL x) t) ->
     forall f r, In (f, f, r) eqos_read_mmc_body ->
                 f <> mmc_rx_udp_gd_octets ->
                 exists v, In (EvRead r v) t /\ 0 <= v /\
                           sw w' f = sw w f + v).
Proof.
  intros Hrange.
  destruct (mmc_statements_ilp32 eqos_read_mmc_body w Hrange)
    as (w' & t & Hrun & Hrange' & Hquiet).
  exists w', t. split; [exact Hrun|]. split; [exact Hrange'|].
  intros Hnow f r Hin Hne.
  destruct (Hquiet Hnow) as [_ Hown].
  apply (Hown f r Hin).
  apply (eqos_read_mmc_body_single_assignment (f, f, r) Hin Hne).
Qed.

End AccumulatorIlp32.

(** ** Further concrete instances *)

Section FurtherRuns.
Import EqosMmc EqosMmcObs EqosDma EqosDmaChan.

Lemma carrier_mmc_in_range : counters_in_range (sw carrier_machine).
Proof. intros f. destruct f; vm_compute; split; discriminate. Qed.

Lemma eqos_read_mmc_32bit_exact_or_reset_witness :
  exists w' t,
    eqos_read_mmc 32 1 carrier_machine = Some (tt, w', t) /\
    counters_in_range (sw w').
Proof.
  destruct (eqos_read_mmc_32bit_exact_or_reset 1 carrier_machine
              carrier_mmc_in_range)
    as (w' & t & Hrun & Hrange & _).
  exists w', t. split; [exact Hrun|exact Hrange].
Defined.

Lemma eqos_validate_dma_regs_reads_only_witness :
  exists res d' t,
    eqos_validate_dma_regs (hdr := eqos_dma_8ch)
      (Machine zero_regs two_chan_config)
    = Some (res, Machine d' two_chan_config, t) /\
    (res = 0 \/ res = -1) /\
    (length t <= 48)%nat.
Proof.
  destruct (eqos_validate_dma_regs_reads_only (hdr := eqos_dma_8ch)
              zero_regs two_chan_config eqos_dma_8ch_bounds
              two_chan_config_wf)
    as (res & d' & t & Hrun & Hres & _ & Hlen).
  exists res, d', t. split; [exact Hrun|]. split; [exact Hres|exact Hlen].
Defined.

End FurtherRuns.

(** ** The result of polling for AN completion *)

Section XpcsPollResult.
Import Xpcs.
Context {D : Type} {bus : Bus xpcs_reg D} {hdr : xpcs_h}.

(** X21.  [xpcs_poll_for_an_complete] returns 0 or -1.  When it returns
    0, [*an_status] holds the status that was read with the AN-complete
    bit set, with that bit cleared, which is the value written back to
    acknowledge it, and its speed field is not zero.  When it returns
    -1, [*an_status] is as the caller left it and the last event is a
    message. *)
Theorem xpcs_poll_for_an_complete_status (fuel : nat) (an_status : Z)
  (w : machine D unit) :
  (poll_fuel <= fuel)%nat ->
  exists r s w' t,
    xpcs_poll_for_an_complete fuel an_status w = Some ((r, s), w', t) /\
    ((r = 0 /\
      Z.land s XPCS_USXG_AN_STS_SPEED_MASK <> 0 /\
      exists t0 v0,
        t = t0 ++ [EvRead XPCS_VR_MII_AN_INTR_STS v0;
                   EvWrite XPCS_VR_MII_AN_INTR_STS s] /\
        s = Z.land v0 (u32_not XPCS_VR_MII_AN_INTR_STS_CL37_ANCMPLT_INTR) /\
        Z.land v0 XPCS_VR_MII_AN_INTR_STS_CL37_ANCMPLT_INTR <> 0 /\
        an_never_complete t0) \/
     (r = -1 /\ s = an_status /\
      exists msg, last t = Some (EvLog msg None))).
Proof.
  intros Hf. unfold poll_fuel in Hf.
  destruct (an_complete_loop_total fuel 1000 0 w) as (rp & wp & tp & Hloop);
    [lia|lia|lia|].
  pose proof (an_complete_loop_spec fuel 1000 0 w wp rp tp Hloop
                ltac:(lia) ltac:(lia)) as [_ Hspec].
  unfold xpcs_poll_for_an_complete.
  destruct rp as [v|status].
  - destruct Hspec as (-> & _ & _ & _ & _ & Hlast).
    exists (-1), an_status, wp, tp. split.
    + eapply bind_run_eq; [exact Hloop|reflexivity|].
      rewrite app_nil_r. reflexivity.
    + right. split; [reflexivity|]. split; [reflexivity|].
      eexists. exact Hlast.
  - destruct Hspec as (t0 & v0 & -> & Hs & Hset & Hnc).
    destruct (Z.eqb_spec (Z.land status XPCS_USXG_AN_STS_SPEED_MASK) 0)
      as [Hzero|Hspeed].
    + exists (-1), an_status, wp,
        ((t0 ++ [EvRead XPCS_VR_MII_AN_INTR_STS v0;
                 EvWrite XPCS_VR_MII_AN_INTR_STS status])
         ++ [EvLog "XPCS AN completed with zero speed" None]).
      split.
      * eapply bind_run_eq; [exact Hloop| |reflexivity]. cbv beta iota.
        rewrite (proj2 (Z.eqb_eq _ _) Hzero).
        eapply bind_run_eq; reflexivity.
      * right. split; [reflexivity|]. split; [reflexivity|].
        eexists. rewrite last_app. reflexivity.
    + exists 0, status, wp. eexists. split.
      * eapply bind_run_eq; [exact Hloop| |].
        -- cbv beta iota.
           rewrite (proj2 (Z.eqb_neq _ _) Hspeed). reflexivity.
        -- rewrite app_nil_r. reflexivity.
      * left. split; [reflexivity|]. split; [exact Hspeed|].
        exists t0, v0. auto.
Qed.

End XpcsPollResult.

Section XpcsPollRuns.
Import Xpcs.
Local Existing Instance dwc_xpcs_h.

Lemma xpcs_poll_for_an_complete_status_witness :
  exists s w' t,
    xpcs_poll_for_an_complete poll_fuel 0 (Machine link_up_regs tt)
    = Some ((0, s), w', t) /\
    Z.land s 0x1C00 <> 0.
Proof.
  destruct (xpcs_poll_for_an_complete_status poll_fuel 0
              (Machine link_up_regs tt) (le_n poll_fuel))
    as (r & s & w' & t & Hrun & Hcase).
  assert (Hr : match xpcs_poll_for_an_complete poll_fuel 0
                       (Machine link_up_regs tt) with
               | Some ((r, _), _, _) => r
               | None => -1
               end = 0) by (vm_compute; reflexivity).
  rewrite Hrun in Hr. subst r.
  destruct Hcase as [(_ & Hspeed & _)|(Hneg & _)]; [|discriminate].
  exists s, w', t. split; [exact Hrun|exact Hspeed].
Defined.

End XpcsPollRuns.
